(** * BMP280 I2C/IIO driver

    A shallow embedding of the acquisition-and-compensation core of the
    driver: [bmp280.c] (device initialization, calibration loader,
    raw and processed reads) and [bmp280-iio.c] (channel table, value
    resolver, triggered sample assembly).

    Conventions.
    - C integers are mathematical integers ([Z]) with the wrap-around of
      their type written out.  The kernel is built with
      [-fno-strict-overflow], so signed arithmetic wraps.
    - The I2C transport is an interface ([I2cBus]); every call the driver
      makes on it is recorded in the trace of the [world].
    - A C function returning a status and writing through an out-pointer
      only on success is a computation returning [res A]: [Ok a] is
      "return 0 with *out = a", [Err e] is "return -e". *)

From Stdlib Require Import ZArith Lia Bool Ascii String.
From Stdlib Require Import Strings.Byte Sorting.Sorted.
From stdpp Require Import base list.

Local Open Scope Z_scope.

(** ** Machine integers *)

Module CInt.

Definition wrap_signed (bits x : Z) : Z :=
  (x + 2 ^ (bits - 1)) mod 2 ^ bits - 2 ^ (bits - 1).

Definition wrap_unsigned (bits x : Z) : Z := x mod 2 ^ bits.

Definition to_u8 := wrap_unsigned 8.
Definition to_u16 := wrap_unsigned 16.
Definition to_u32 := wrap_unsigned 32.
Definition to_s16 := wrap_signed 16.
Definition to_s32 := wrap_signed 32.
Definition to_s64 := wrap_signed 64.

(** [s32] arithmetic. [>>] on a signed operand is an arithmetic shift. *)
Definition add32 (a b : Z) : Z := to_s32 (a + b).
Definition sub32 (a b : Z) : Z := to_s32 (a - b).
Definition mul32 (a b : Z) : Z := to_s32 (a * b).
Definition shl32 (a n : Z) : Z := to_s32 (Z.shiftl a n).
Definition shr32 (a n : Z) : Z := Z.shiftr a n.

(** [s64] arithmetic. *)
Definition add64 (a b : Z) : Z := to_s64 (a + b).
Definition sub64 (a b : Z) : Z := to_s64 (a - b).
Definition mul64 (a b : Z) : Z := to_s64 (a * b).
Definition shl64 (a n : Z) : Z := to_s64 (Z.shiftl a n).
Definition shr64 (a n : Z) : Z := Z.shiftr a n.

(** [s64] division truncates toward zero; a zero divisor has no result.
    The quotient is wrapped to 64 bits. *)
Definition div64 (a b : Z) : option Z :=
  if b =? 0 then None else Some (to_s64 (Z.quot a b)).

Definition byte_val (b : byte) : Z := Z.of_N (Byte.to_N b).

Definition byte_of_Z (x : Z) : byte :=
  match Byte.of_N (Z.to_N (to_u8 x)) with
  | Some b => b
  | None => x00
  end.

End CInt.
Import CInt.

#[local] Instance byte_inhabited : Inhabited byte := populate x00.

(** ** Constants of [bmp280.h] and of the kernel headers *)

Definition BMP280_ID : Z := 0x58.
Definition BMP280_ID_REG : Z := 0xD0.
Definition BMP280_CTRL_MEAS_REG_ADDRESS : Z := 0xf4.
Definition BMP280_CONFIG_REG_ADDRESS : Z := 0xf5.
Definition BMP280_TEMP_CALIBRATION_BASE_REG_ADDRESS : Z := 0x88.
Definition BMP280_TEMP_RAW_REG_ADDRESS : Z := 0xfa.
Definition BMP280_PRESS_CALIBRATION_BASE_REG_ADDRESS : Z := 0x8e.
Definition BMP280_PRESS_RAW_REG_ADDRESS : Z := 0xf7.

(** The error numbers the driver returns (linux/errno.h). *)
Inductive errno := EIO | ENOMEM | ENODEV | EINVAL.

Definition errno_code (e : errno) : Z :=
  match e with EIO => 5 | ENOMEM => 12 | ENODEV => 19 | EINVAL => 22 end.

Inductive res (A : Type) := Ok (a : A) | Err (e : errno).
Arguments Ok {A} a.
Arguments Err {A} e.

(** The [int] a C caller sees for a status-only result. *)
Definition status_of {A} (r : res A) : Z :=
  match r with Ok _ => 0 | Err e => - errno_code e end.

(** ** The bus transport and the world the driver runs in *)

(** What a block read hands back: the bytes transferred (the call then
    returns their number), or a negative error number. *)
Inductive block_reply :=
| BlockBytes (bs : list byte)
| BlockErrno (e : positive).

(** Synchronous SMBus access to one device. [bus_read_byte] and
    [bus_write_byte] return the [s32] of [i2c_smbus_read_byte_data] and
    [i2c_smbus_write_byte_data]. *)
Class I2cBus (client : Type) := {
  bus_read_byte : client -> Z -> Z * client;
  bus_write_byte : client -> Z -> Z -> Z * client;
  bus_read_block : client -> Z -> Z -> block_reply * client;
}.

Inductive event :=
| BusReadByte (reg : Z)
| BusWriteByte (reg value : Z)
| BusReadBlock (reg len : Z)
| PrErr (fmt : string)
| Kzalloc (size : nat)
| Kfree
| PushToBuffers (data : list byte)
| TriggerNotifyDone.

(** [struct bmp280_ctx]: [s32 dig_T[4]] and [s64 dig_P[10]]; the client
    pointer is the [client] of the world. *)
Record bmp280_ctx := {
  dig_T : list Z;
  dig_P : list Z;
}.

Record world (client : Type) := {
  client_of : client;
  priv : bmp280_ctx;
  trace : list event;
  (** the allocator's answer to the next [kzalloc] *)
  kzalloc_ok : bool;
  (** the IIO core's answer to the next [iio_push_to_buffers] *)
  push_status : Z;
}.
Arguments client_of {client} w.
Arguments priv {client} w.
Arguments trace {client} w.
Arguments kzalloc_ok {client} w.
Arguments push_status {client} w.

Definition set_client {C} (c : C) (w : world C) : world C :=
  {| client_of := c; priv := priv w; trace := trace w;
     kzalloc_ok := kzalloc_ok w; push_status := push_status w |}.

Definition set_priv {C} (p : bmp280_ctx) (w : world C) : world C :=
  {| client_of := client_of w; priv := p; trace := trace w;
     kzalloc_ok := kzalloc_ok w; push_status := push_status w |}.

Definition emit {C} (e : event) (w : world C) : world C :=
  {| client_of := client_of w; priv := priv w; trace := trace w ++ [e];
     kzalloc_ok := kzalloc_ok w; push_status := push_status w |}.

(** Faults: what C leaves undefined and the driver must not reach. *)
Inductive fault := DivideByZero | OutOfBounds.

Inductive outcome (W A : Type) :=
| Done (a : A) (w : W)
| Crash (f : fault).
Arguments Done {W A} a w.
Arguments Crash {W A} f.

Definition M (W A : Type) : Type := W -> outcome W A.

Definition ret {W A} (a : A) : M W A := fun w => Done a w.

Definition bind {W A B} (c : M W A) (k : A -> M W B) : M W B :=
  fun w => match c w with
           | Done a w' => k a w'
           | Crash f => Crash f
           end.

Definition crash {W A} (f : fault) : M W A := fun _ => Crash f.

Notation "x <- c ;; k" := (bind c (fun x => k))
  (at level 100, c at next level, right associativity).
Notation "c ;; k" := (bind c (fun _ => k))
  (at level 100, right associativity).

(** ** Data model of bmp280-iio.c *)

(** [enum iio_chan_type]; the driver only tells [IIO_TEMP] and
    [IIO_PRESSURE] from the rest, for which [IIO_VOLTAGE] stands. *)
Inductive iio_chan_type := IIO_VOLTAGE | IIO_TEMP | IIO_PRESSURE.

Inductive iio_endian := IIO_CPU | IIO_BE | IIO_LE.

Record iio_scan_type := {
  sign : ascii;
  realbits : Z;
  storagebits : Z;
  shift : Z;
  endianness : iio_endian;
}.

Record iio_chan_spec := {
  type : iio_chan_type;
  indexed : bool;
  channel : Z;
  address : Z;
  info_mask_separate : Z;
  scan_index : Z;
  scan_type : iio_scan_type;
  output : bool;
}.

Definition BIT (n : Z) : Z := Z.shiftl 1 n.

(** [enum iio_chan_info_enum] *)
Definition IIO_CHAN_INFO_RAW : Z := 0.
Definition IIO_CHAN_INFO_PROCESSED : Z := 1.

(** The table sets no shared info mask, so only the separate one counts. *)
Definition iio_channel_has_info (chan : iio_chan_spec) (info : Z) : bool :=
  negb (Z.land (info_mask_separate chan) (BIT info) =? 0).

Definition BMP280_CALIBR_CHANNNEL (_type : iio_chan_type)
    (_index _scan_index : Z) (_sign : ascii) (_address : Z) : iio_chan_spec :=
  {| type := _type;
     indexed := true;
     channel := _index;
     address := _address;
     info_mask_separate := BIT IIO_CHAN_INFO_RAW;
     scan_index := _scan_index;
     scan_type := {| sign := _sign; realbits := 16; storagebits := 16;
                     shift := 0; endianness := IIO_CPU |};
     output := false |}.

Definition bmp280_raw_channel (_type : iio_chan_type)
    (_index _scan_index _address : Z) : iio_chan_spec :=
  {| type := _type;
     indexed := true;
     channel := _index;
     address := _address;
     info_mask_separate := BIT IIO_CHAN_INFO_RAW;
     scan_index := _scan_index;
     scan_type := {| sign := "s"; realbits := 20; storagebits := 32;
                     shift := 4; endianness := IIO_CPU |};
     output := false |}.

Definition bmp280_processed_channel (_type : iio_chan_type)
    (_scan_index : Z) (_sign : ascii) : iio_chan_spec :=
  {| type := _type;
     indexed := false;
     channel := 0;
     address := 0;
     info_mask_separate := BIT IIO_CHAN_INFO_PROCESSED;
     scan_index := _scan_index;
     scan_type := {| sign := _sign; realbits := 32; storagebits := 32;
                     shift := 0; endianness := IIO_CPU |};
     output := false |}.

Definition bmp280_iio_channels : list iio_chan_spec :=
  [ BMP280_CALIBR_CHANNNEL IIO_TEMP 0 0 "u"
      BMP280_TEMP_CALIBRATION_BASE_REG_ADDRESS;
    BMP280_CALIBR_CHANNNEL IIO_TEMP 1 1 "s"
      (BMP280_TEMP_CALIBRATION_BASE_REG_ADDRESS + 2);
    BMP280_CALIBR_CHANNNEL IIO_TEMP 2 2 "s"
      (BMP280_TEMP_CALIBRATION_BASE_REG_ADDRESS + 4);
    bmp280_raw_channel IIO_TEMP 3 3 BMP280_TEMP_RAW_REG_ADDRESS;
    bmp280_processed_channel IIO_TEMP 4 "s";
    BMP280_CALIBR_CHANNNEL IIO_PRESSURE 0 5 "u"
      BMP280_PRESS_CALIBRATION_BASE_REG_ADDRESS;
    BMP280_CALIBR_CHANNNEL IIO_PRESSURE 1 6 "s"
      (BMP280_PRESS_CALIBRATION_BASE_REG_ADDRESS + 2);
    BMP280_CALIBR_CHANNNEL IIO_PRESSURE 2 7 "s"
      (BMP280_PRESS_CALIBRATION_BASE_REG_ADDRESS + 4);
    BMP280_CALIBR_CHANNNEL IIO_PRESSURE 3 8 "s"
      (BMP280_PRESS_CALIBRATION_BASE_REG_ADDRESS + 6);
    BMP280_CALIBR_CHANNNEL IIO_PRESSURE 4 9 "s"
      (BMP280_PRESS_CALIBRATION_BASE_REG_ADDRESS + 8);
    BMP280_CALIBR_CHANNNEL IIO_PRESSURE 5 10 "s"
      (BMP280_PRESS_CALIBRATION_BASE_REG_ADDRESS + 10);
    BMP280_CALIBR_CHANNNEL IIO_PRESSURE 6 11 "s"
      (BMP280_PRESS_CALIBRATION_BASE_REG_ADDRESS + 12);
    BMP280_CALIBR_CHANNNEL IIO_PRESSURE 7 12 "s"
      (BMP280_PRESS_CALIBRATION_BASE_REG_ADDRESS + 14);
    BMP280_CALIBR_CHANNNEL IIO_PRESSURE 8 13 "s"
      (BMP280_PRESS_CALIBRATION_BASE_REG_ADDRESS + 16);
    bmp280_raw_channel IIO_PRESSURE 9 14 BMP280_PRESS_RAW_REG_ADDRESS;
    bmp280_processed_channel IIO_PRESSURE 15 "u" ].

(** What [read_raw] hands to the IIO core: the return code together with
    the cells it wrote ([*val], and [*val2] for a fraction). *)
Inductive iio_val :=
| IIO_VAL_INT (val : Z)
| IIO_VAL_FRACTIONAL (val val2 : Z).

Definition iio_val_code (v : iio_val) : Z :=
  match v with IIO_VAL_INT _ => 1 | IIO_VAL_FRACTIONAL _ _ => 10 end.

Definition iio_val_int (v : iio_val) : Z :=
  match v with IIO_VAL_INT val => val | IIO_VAL_FRACTIONAL val _ => val end.

(** The [int] returned by the resolver. *)
Definition iio_status (r : res iio_val) : Z :=
  match r with Ok v => iio_val_code v | Err e => - errno_code e end.

(** The part of [struct iio_dev] the trigger handler reads. [channels] and
    [num_channels] are set at registration; the scan mask and
    [scan_bytes] are the IIO core's. *)
Record iio_dev := {
  channels : list iio_chan_spec;
  num_channels : nat;
  active_scan_mask : Z;
  scan_bytes : nat;
}.

Definition bmp280_indio_dev (mask : Z) (bytes : nat) : iio_dev :=
  {| channels := bmp280_iio_channels;
     num_channels := length bmp280_iio_channels;
     active_scan_mask := mask;
     scan_bytes := bytes |}.

(** The positions [for_each_set_bit] visits, in order. *)
Definition for_each_set_bit (mask : Z) (size : nat) : list nat :=
  List.filter (fun i => Z.testbit mask (Z.of_nat i)) (seq 0 size).

Definition storage_bytes (chan : iio_chan_spec) : nat :=
  Z.to_nat (storagebits (scan_type chan) / 8).

(** The channels the scan mask selects, in the order of the loop. *)
Definition active_channels (chans : list iio_chan_spec) (mask : Z)
  : list iio_chan_spec :=
  omap (fun i => chans !! i) (for_each_set_bit mask (length chans)).

(** Modelled from the spec: the computation of [scan_bytes] belongs to the
    IIO core, which is not part of the sources; the buffer is "sized to
    the sum of the storage widths of the active channels". *)
Definition sum_storage_bytes (chans : list iio_chan_spec) (mask : Z) : nat :=
  sum_list (storage_bytes <$> active_channels chans mask).

Inductive irqreturn := IRQ_NONE | IRQ_HANDLED | IRQ_WAKE_THREAD.

(** A store of [cell] at byte offset [ptr] of the allocation [data]. *)
Definition store (data : list byte) (ptr : nat) (cell : list byte)
  : option (list byte) :=
  if (ptr + length cell <=? length data)%nat
  then Some (take ptr data ++ cell ++ drop (ptr + length cell) data)
  else None.

Fixpoint le_bytes (n : nat) (v : Z) : list byte :=
  match n with
  | O => []
  | S n => byte_of_Z v :: le_bytes n (Z.shiftr v 8)
  end.

Fixpoint le_value (bs : list byte) : Z :=
  match bs with
  | [] => 0
  | b :: bs => Z.lor (byte_val b) (Z.shiftl (le_value bs) 8)
  end.

Section Driver.

Context {client : Type} `{Bus : I2cBus client}.

(** Byte order of the host CPU ([IIO_CPU] endianness). *)
Variable cpu_big_endian : bool.

Local Abbreviation W := (world client).

Definition get_priv : M W bmp280_ctx := fun w => Done (priv w) w.

Definition put_priv (p : bmp280_ctx) : M W unit :=
  fun w => Done tt (set_priv p w).

Definition pr_err (fmt : string) : M W unit :=
  fun w => Done tt (emit (PrErr fmt) w).

Definition i2c_smbus_read_byte_data (reg : Z) : M W Z := fun w =>
  let '(r, c) := bus_read_byte (client_of w) reg in
  Done r (emit (BusReadByte reg) (set_client c w)).

Definition i2c_smbus_write_byte_data (reg value : Z) : M W Z := fun w =>
  let '(r, c) := bus_write_byte (client_of w) reg value in
  Done r (emit (BusWriteByte reg value) (set_client c w)).

(** The call's [s32] and the caller's buffer after it: the transferred
    bytes overwrite the front of [values]. *)
Definition block_status (reply : block_reply) : Z :=
  match reply with
  | BlockBytes bs => Z.of_nat (length bs)
  | BlockErrno e => Z.neg e
  end.

Definition block_fill (reply : block_reply) (values : list byte) : list byte :=
  match reply with
  | BlockBytes bs => take (length values) (bs ++ drop (length bs) values)
  | BlockErrno _ => values
  end.

Definition i2c_smbus_read_i2c_block_data (reg len : Z) (values : list byte)
  : M W (Z * list byte) := fun w =>
  let '(reply, c) := bus_read_block (client_of w) reg len in
  Done (block_status reply, block_fill reply values)
       (emit (BusReadBlock reg len) (set_client c w)).

(** ** bmp280.c *)

Definition initialize_bmp280 : M W (res unit) :=
  r <- i2c_smbus_read_byte_data BMP280_ID_REG ;;
  let sensor_id := to_u8 r in
  if negb (sensor_id =? BMP280_ID) then
    pr_err "Unexpected sensor id 0x%02x. Expecting 0x%02x" ;;
    ret (Err ENODEV)
  else
    let osrs_t := 0x5 in
    let osrs_p := 0x5 in
    let mode := 0x3 in
    let t_sb := 0x5 in
    let filter := 0x0 in
    let spi3w_en := 0x0 in
    let ctrl_meas :=
      to_u8 (Z.lor (Z.lor (Z.shiftl osrs_t 5) (Z.shiftl osrs_p 2)) mode) in
    let config :=
      to_u8 (Z.lor (Z.lor (Z.shiftl t_sb 5) (Z.shiftl filter 2)) spi3w_en) in
    i2c_smbus_write_byte_data BMP280_CONFIG_REG_ADDRESS config ;;
    i2c_smbus_write_byte_data BMP280_CTRL_MEAS_REG_ADDRESS ctrl_meas ;;
    ret (Ok tt).

(** Element [k] of a [u16] array laid over a byte buffer. *)
Definition load_u16 (buf : list byte) (k : nat) : Z :=
  let b0 := byte_val (buf !!! (2 * k)%nat) in
  let b1 := byte_val (buf !!! (2 * k + 1)%nat) in
  if cpu_big_endian then Z.lor (Z.shiftl b0 8) b1
  else Z.lor (Z.shiftl b1 8) b0.

(** One turn of the loop over [dig_T] ([s32] cells). *)
Definition calib_step_T (buf : list byte) (dig : list Z) (i : nat) : list Z :=
  let dig := <[i := load_u16 buf (i - 1)]> dig in
  if negb (i =? 1)%nat && (dig !!! i >? 32767)
  then <[i := sub32 (dig !!! i) 65536]> dig
  else dig.

(** One turn of the loop over [dig_P] ([s64] cells). *)
Definition calib_step_P (buf : list byte) (dig : list Z) (i : nat) : list Z :=
  let dig := <[i := load_u16 buf (i - 1)]> dig in
  if negb (i =? 1)%nat && (dig !!! i >? 32767)
  then <[i := sub64 (dig !!! i) 65536]> dig
  else dig.

Definition read_bmp280_calibration_values : M W (res unit) :=
  reply <-
    i2c_smbus_read_i2c_block_data BMP280_TEMP_CALIBRATION_BASE_REG_ADDRESS
      (3 * 2) (replicate 6 x00) ;;
  let '(read, temp_calib_buffer) := reply in
  if negb (read =? 3 * 2) then
    pr_err "Expected 6 temperature calibration bytes. Read %d instead" ;;
    ret (Err EIO)
  else
    reply <-
      i2c_smbus_read_i2c_block_data BMP280_PRESS_CALIBRATION_BASE_REG_ADDRESS
        (9 * 2) (replicate 18 x00) ;;
    let '(read, press_calib_buffer) := reply in
    if negb (read =? 9 * 2) then
      pr_err "Expected 18 pressure calibration bytes. Read %d instead" ;;
      ret (Err EIO)
    else
      bmp280 <- get_priv ;;
      let T := <[0%nat := 0]> (dig_T bmp280) in
      let P := <[0%nat := 0]> (dig_P bmp280) in
      let T := foldl (calib_step_T temp_calib_buffer) T (seq 1 3) in
      let P := foldl (calib_step_P press_calib_buffer) P (seq 1 9) in
      put_priv {| dig_T := T; dig_P := P |} ;;
      ret (Ok tt).

Definition setup_bmp280 : M W (res unit) :=
  status <- initialize_bmp280 ;;
  match status with
  | Err e => ret (Err e)
  | Ok _ =>
      status <- read_bmp280_calibration_values ;;
      match status with
      | Err e => ret (Err e)
      | Ok _ => ret (Ok tt)
      end
  end.

(** [(val1 << 16) | (val2 << 8) | val3] on three [u8] widened to [s32]. *)
Definition register_triple (v1 v2 v3 : byte) : Z :=
  let val1 := byte_val v1 in
  let val2 := byte_val v2 in
  let val3 := byte_val v3 in
  Z.lor (Z.lor (shl32 val1 16) (shl32 val2 8)) val3.

Definition read_bmp280_raw_temperature : M W (res Z) :=
  reply <-
    i2c_smbus_read_i2c_block_data BMP280_TEMP_RAW_REG_ADDRESS 3
      [x00; x00; x00] ;;
  let '(read, values) := reply in
  if negb (read =? 3) then
    pr_err "Expected to read 3 raw temperature bytes. Read %d instead" ;;
    ret (Err EIO)
  else
    ret (Ok (register_triple (values !!! 0%nat) (values !!! 1%nat)
               (values !!! 2%nat))).

Definition read_bmp280_raw_pressure : M W (res Z) :=
  reply <-
    i2c_smbus_read_i2c_block_data BMP280_PRESS_RAW_REG_ADDRESS 3
      [x00; x00; x00] ;;
  let '(read, values) := reply in
  if negb (read =? 3) then
    pr_err "Expected to read 3 raw pressure bytes. Read %d instead" ;;
    ret (Err EIO)
  else
    ret (Ok (register_triple (values !!! 0%nat) (values !!! 1%nat)
               (values !!! 2%nat))).

Definition compute_bmp280_t_fine (raw_temp : Z) (dig_T : list Z) : Z :=
  let var1 :=
    shr32 (mul32 (sub32 (shr32 raw_temp 3) (shl32 (dig_T !!! 1%nat) 1))
             (dig_T !!! 2%nat)) 11 in
  let var2 :=
    shr32 (mul32
             (shr32 (mul32 (sub32 (shr32 raw_temp 4) (dig_T !!! 1%nat))
                       (sub32 (shr32 raw_temp 4) (dig_T !!! 1%nat))) 12)
             (dig_T !!! 3%nat)) 14 in
  add32 var1 var2.

Definition read_bmp280_processed_temperature : M W (res Z) :=
  status <- read_bmp280_raw_temperature ;;
  match status with
  | Err e => ret (Err e)
  | Ok raw_temp =>
      let raw_temp := shr32 raw_temp 4 in
      bmp280 <- get_priv ;;
      ret (Ok (shr32 (add32 (mul32 (compute_bmp280_t_fine raw_temp
                                      (dig_T bmp280)) 5) 128) 8))
  end.

(** The divisor of the pressure formula: [var1] as it stands at the
    test [var1 == 0]. *)
Definition pressure_var1 (raw_temp : Z) (bmp280 : bmp280_ctx) : Z :=
  let P := dig_P bmp280 in
  let t_fine := compute_bmp280_t_fine raw_temp (dig_T bmp280) in
  let var1 := sub64 t_fine 128000 in
  let var1 :=
    add64 (shr64 (mul64 (mul64 var1 var1) (P !!! 3%nat)) 8)
          (shl64 (mul64 var1 (P !!! 2%nat)) 12) in
  shr64 (mul64 (add64 (shl64 1 47) var1) (P !!! 1%nat)) 33.

(** [var2] as it stands at the division. *)
Definition pressure_var2 (raw_temp : Z) (bmp280 : bmp280_ctx) : Z :=
  let P := dig_P bmp280 in
  let t_fine := compute_bmp280_t_fine raw_temp (dig_T bmp280) in
  let var1 := sub64 t_fine 128000 in
  let var2 := mul64 (mul64 var1 var1) (P !!! 6%nat) in
  let var2 := add64 var2 (shl64 (mul64 var1 (P !!! 5%nat)) 17) in
  add64 var2 (shl64 (P !!! 4%nat) 35).

Definition read_bmp280_processed_pressure : M W (res Z) :=
  reply <-
    i2c_smbus_read_i2c_block_data BMP280_PRESS_RAW_REG_ADDRESS 6
      (replicate 6 x00) ;;
  let '(read, values) := reply in
  if negb (read =? 6) then
    pr_err "Expected to read 6 temperature/pressure bytes. Read %d instead" ;;
    ret (Err EIO)
  else
    let raw_press :=
      register_triple (values !!! 0%nat) (values !!! 1%nat) (values !!! 2%nat) in
    let raw_temp :=
      register_triple (values !!! 3%nat) (values !!! 4%nat) (values !!! 5%nat) in
    let raw_press := shr32 raw_press 4 in
    let raw_temp := shr32 raw_temp 4 in
    bmp280 <- get_priv ;;
    let P := dig_P bmp280 in
    let var2 := pressure_var2 raw_temp bmp280 in
    let var1 := pressure_var1 raw_temp bmp280 in
    if var1 =? 0 then ret (Ok 0)
    else
      let p := sub32 1048576 raw_press in
      match div64 (mul64 (sub64 (shl64 p 31) var2) 3125) var1 with
      | None => crash DivideByZero
      | Some p =>
          let var1 :=
            shr64 (mul64 (mul64 (P !!! 9%nat) (shr64 p 13)) (shr64 p 13)) 25 in
          let var2 := shr64 (mul64 (P !!! 8%nat) p) 19 in
          let p :=
            add64 (shr64 (add64 (add64 p var1) var2) 8)
                  (shl64 (P !!! 7%nat) 4) in
          ret (Ok (to_u32 p))
      end.

(** ** bmp280-iio.c *)

Definition bmp280_iio_read_from_channel (chan : iio_chan_spec)
  : M W (res iio_val) :=
  match type chan with
  | IIO_TEMP =>
      if iio_channel_has_info chan IIO_CHAN_INFO_RAW && indexed chan &&
         (0 <=? channel chan) && (channel chan <? 3) then
        bmp280 <- get_priv ;;
        ret (Ok (IIO_VAL_INT (dig_T bmp280 !!! Z.to_nat (channel chan + 1))))
      else if iio_channel_has_info chan IIO_CHAN_INFO_RAW && indexed chan &&
              (channel chan =? 3) then
        status <- read_bmp280_raw_temperature ;;
        match status with
        | Err e => ret (Err e)
        | Ok raw_temp => ret (Ok (IIO_VAL_INT raw_temp))
        end
      else if iio_channel_has_info chan IIO_CHAN_INFO_PROCESSED then
        status <- read_bmp280_processed_temperature ;;
        match status with
        | Err e => ret (Err e)
        | Ok temp => ret (Ok (IIO_VAL_FRACTIONAL temp 100))
        end
      else
        pr_err "Unexpected temperature channel" ;;
        ret (Err EINVAL)
  | IIO_PRESSURE =>
      if iio_channel_has_info chan IIO_CHAN_INFO_RAW && indexed chan &&
         (0 <=? channel chan) && (channel chan <? 9) then
        bmp280 <- get_priv ;;
        ret (Ok (IIO_VAL_INT
                   (to_s32 (dig_P bmp280 !!! Z.to_nat (channel chan + 1)))))
      else if iio_channel_has_info chan IIO_CHAN_INFO_RAW && indexed chan &&
              (channel chan =? 9) then
        status <- read_bmp280_raw_pressure ;;
        match status with
        | Err e => ret (Err e)
        | Ok raw_press => ret (Ok (IIO_VAL_INT raw_press))
        end
      else if iio_channel_has_info chan IIO_CHAN_INFO_PROCESSED then
        status <- read_bmp280_processed_pressure ;;
        match status with
        | Err e => ret (Err e)
        | Ok press => ret (Ok (IIO_VAL_FRACTIONAL (to_s32 press) 256))
        end
      else
        pr_err "Unexpected pressure channel" ;;
        ret (Err EINVAL)
  | _ =>
      pr_err "Unexpected channel type: %d" ;;
      ret (Err EINVAL)
  end.

Definition bmp280_iio_read_raw (chan : iio_chan_spec) (mask : Z)
  : M W (res iio_val) :=
  bmp280_iio_read_from_channel chan.

(** An [n]-byte cell in the byte order of the host. *)
Definition cpu_bytes (n : nat) (v : Z) : list byte :=
  if cpu_big_endian then rev (le_bytes n v) else le_bytes n v.

Definition cpu_value (bs : list byte) : Z :=
  if cpu_big_endian then le_value (rev bs) else le_value bs.

Definition kzalloc (size : nat) : M W (option (list byte)) := fun w =>
  Done (if kzalloc_ok w then Some (replicate size x00) else None)
       (emit (Kzalloc size) w).

Definition kfree : M W unit := fun w => Done tt (emit Kfree w).

Definition iio_push_to_buffers (data : list byte) : M W Z := fun w =>
  Done (push_status w) (emit (PushToBuffers data) w).

Definition iio_trigger_notify_done : M W unit := fun w =>
  Done tt (emit TriggerNotifyDone w).

(** The body of the [for_each_set_bit] loop over the remaining set bits:
    [Some data] when the loop runs to its end, [None] on
    [goto free_data]. The test [status < 0] is the [Err] case: the codes
    of [Ok] are positive. *)
Fixpoint scan_channels (indio_dev : iio_dev) (bits : list nat)
    (data : list byte) (data_ptr : nat) : M W (option (list byte)) :=
  match bits with
  | [] => ret (Some data)
  | i :: bits =>
      match channels indio_dev !! i with
      | None => crash OutOfBounds
      | Some chan =>
          status <- bmp280_iio_read_from_channel chan ;;
          match status with
          | Err _ =>
              pr_err "Failed to read from channel #%d." ;;
              ret None
          | Ok v =>
              let val := iio_val_int v in
              if storagebits (scan_type chan) =? 16 then
                let cell :=
                  if Ascii.eqb (sign (scan_type chan)) "s"
                  then cpu_bytes 2 (to_s16 val)
                  else cpu_bytes 2 (to_u16 val) in
                match store data data_ptr cell with
                | None => crash OutOfBounds
                | Some data =>
                    scan_channels indio_dev bits data (data_ptr + 2)
                end
              else if storagebits (scan_type chan) =? 32 then
                let cell :=
                  if Ascii.eqb (sign (scan_type chan)) "s"
                  then cpu_bytes 4 (to_s32 val)
                  else cpu_bytes 4 (to_u32 val) in
                match store data data_ptr cell with
                | None => crash OutOfBounds
                | Some data =>
                    scan_channels indio_dev bits data (data_ptr + 4)
                end
              else
                pr_err "Unexpected channel storage bits %d." ;;
                ret None
          end
      end
  end.

Definition bmp280_iio_trigger_handler (indio_dev : iio_dev) : M W irqreturn :=
  data <- kzalloc (scan_bytes indio_dev) ;;
  match data with
  | None =>
      pr_err "Failed allocating memory during trigger handling." ;;
      iio_trigger_notify_done ;;
      ret IRQ_HANDLED
  | Some data =>
      filled <-
        scan_channels indio_dev
          (for_each_set_bit (active_scan_mask indio_dev)
             (num_channels indio_dev)) data 0 ;;
      match filled with
      | None => ret tt
      | Some data =>
          status <- iio_push_to_buffers data ;;
          if negb (status =? 0)
          then pr_err "Failed to push data to IIO buffers."
          else ret tt
      end ;;
      kfree ;;
      iio_trigger_notify_done ;;
      ret IRQ_HANDLED
  end.

End Driver.

(** ** A scripted transport

    A mock of the bus: the replies are served in the order of the calls,
    whatever the register. A reply of the wrong kind, or none left, is a
    bus error. *)

Inductive reply :=
| ReplyStatus (status : Z)
| ReplyBlock (r : block_reply).

Definition scripted_status (s : list reply) : Z * list reply :=
  match s with
  | ReplyStatus v :: s' => (v, s')
  | _ :: s' => (- errno_code EIO, s')
  | [] => (- errno_code EIO, [])
  end.

Definition scripted_block (s : list reply) : block_reply * list reply :=
  match s with
  | ReplyBlock r :: s' => (r, s')
  | _ :: s' => (BlockErrno 5, s')
  | [] => (BlockErrno 5, [])
  end.

#[export] Instance scripted_bus : I2cBus (list reply) := {
  bus_read_byte s _ := scripted_status s;
  bus_write_byte s _ _ := scripted_status s;
  bus_read_block s _ _ := scripted_block s;
}.

Definition scripted_world (s : list reply) (T P : list Z) : world (list reply) :=
  {| client_of := s; priv := {| dig_T := T; dig_P := P |}; trace := [];
     kzalloc_ok := true; push_status := 0 |}.

(** The calibration and the register contents of the worked example of
    the datasheet (section 3.12). *)
Definition datasheet_T : list Z := [0; 27504; 26435; -1000].
Definition datasheet_P : list Z :=
  [0; 36477; -10685; 3024; 2855; 140; -7; 15500; -14600; 6000].

(** ** The statements of the specification, in its own words *)

(** The intermediate temperature value as the specification declares it:
    the two datasheet terms, evaluated in [s64]. *)
Definition rawTemperatureTripleToFine (raw20 : Z) (calib : bmp280_ctx) : Z :=
  let dig_T1 := dig_T calib !!! 1%nat in
  let dig_T2 := dig_T calib !!! 2%nat in
  let dig_T3 := dig_T calib !!! 3%nat in
  let var1 :=
    shr64 (mul64 (sub64 (shr64 raw20 3) (shl64 dig_T1 1)) dig_T2) 11 in
  let var2 :=
    shr64 (mul64 (shr64 (mul64 (sub64 (shr64 raw20 4) dig_T1)
                           (sub64 (shr64 raw20 4) dig_T1)) 12) dig_T3) 14 in
  add64 var1 var2.

(** [(fine * 5 + 128) >> 8], returned as [s32]. *)
Definition processedTemperature (raw20 : Z) (calib : bmp280_ctx) : Z :=
  let fine := rawTemperatureTripleToFine raw20 calib in
  to_s32 (shr64 (add64 (mul64 fine 5) 128) 8).

(** The parsing rule for calibration value number [i] (from 1) of a group. *)
Definition parsed_calibration (i : nat) (v : Z) : Z :=
  if (i =? 1)%nat then v
  else if v <=? 32767 then v else v - 65536.

Definition fits_s32 (x : Z) : Prop := - 2 ^ 31 <= x < 2 ^ 31.

(** The products of the temperature formula stay within 32 bits. *)
Definition temperature_products_fit (raw20 : Z) (calib : bmp280_ctx) : Prop :=
  let dig_T1 := dig_T calib !!! 1%nat in
  let dig_T2 := dig_T calib !!! 2%nat in
  let dig_T3 := dig_T calib !!! 3%nat in
  let d := Z.shiftr raw20 4 - dig_T1 in
  fits_s32 ((Z.shiftr raw20 3 - Z.shiftl dig_T1 1) * dig_T2) /\
  fits_s32 (d * d) /\
  fits_s32 (Z.shiftr (d * d) 12 * dig_T3).

(** Calibration constants as the loader leaves them: 16-bit values, the
    first of the group unsigned and the others signed. *)
Definition temperature_calibration_loaded (calib : bmp280_ctx) : Prop :=
  0 <= dig_T calib !!! 1%nat <= 65535 /\
  - 32768 <= dig_T calib !!! 2%nat <= 32767 /\
  - 32768 <= dig_T calib !!! 3%nat <= 32767.

(** The channels of the table by position. *)
Definition channels_at (positions : list nat) : list iio_chan_spec :=
  omap (fun i => bmp280_iio_channels !! i) positions.

(** [in_temp{0-2}_raw] and [in_pressure{0-8}_raw] *)
Definition calibration_channels : list iio_chan_spec :=
  channels_at [0; 1; 2; 5; 6; 7; 8; 9; 10; 11; 12; 13]%nat.

(** [in_temp3_raw] and [in_pressure9_raw] *)
Definition raw_channels : list iio_chan_spec := channels_at [3; 14]%nat.

(** [in_temp_input] *)
Definition processed_temperature_channel : iio_chan_spec :=
  bmp280_processed_channel IIO_TEMP 4 "s".

(** The constant a calibration channel stands for, as an [int]. *)
Definition stored_constant (bmp280 : bmp280_ctx) (chan : iio_chan_spec) : Z :=
  match type chan with
  | IIO_TEMP => dig_T bmp280 !!! Z.to_nat (channel chan + 1)
  | IIO_PRESSURE => to_s32 (dig_P bmp280 !!! Z.to_nat (channel chan + 1))
  | _ => 0
  end.

Definition is_bus_access (e : event) : bool :=
  match e with
  | BusReadByte _ | BusWriteByte _ _ | BusReadBlock _ _ => true
  | _ => false
  end.

Definition bus_accesses (t : list event) : list event :=
  List.filter is_bus_access t.

Definition pushed_buffers (t : list event) : list (list byte) :=
  omap (fun e => match e with PushToBuffers d => Some d | _ => None end) t.

Definition notifications (t : list event) : nat :=
  length (List.filter
            (fun e => match e with TriggerNotifyDone => true | _ => false end) t).

Definition logged_errors (t : list event) : list string :=
  omap (fun e => match e with PrErr m => Some m | _ => None end) t.

(** The reply of the device to the next block read, and the world after
    that read. *)
Definition block_reply_of {client} `{I2cBus client} (w : world client)
    (reg len : Z) : block_reply :=
  fst (bus_read_block (client_of w) reg len).

Definition after_block_read {client} `{I2cBus client} (w : world client)
    (reg len : Z) : world client :=
  emit (BusReadBlock reg len)
       (set_client (snd (bus_read_block (client_of w) reg len)) w).

(** Resolving the values of a list of channels one after the other, up to
    the first failure. *)
Fixpoint read_channels {client} `{I2cBus client} (chans : list iio_chan_spec)
  : M (world client) (res (list Z)) :=
  match chans with
  | [] => ret (Ok [])
  | chan :: chans =>
      r <- bmp280_iio_read_from_channel chan ;;
      match r with
      | Err e => ret (Err e)
      | Ok v =>
          rs <- read_channels chans ;;
          match rs with
          | Err e => ret (Err e)
          | Ok vs => ret (Ok (iio_val_int v :: vs))
          end
      end
  end.

(** The cell of a channel in the sample: its value in as many bytes as its
    storage width, in the byte order of the host. *)
Definition sample_cell (cpu_big_endian : bool) (chan : iio_chan_spec)
    (val : Z) : list byte :=
  cpu_bytes cpu_big_endian (storage_bytes chan) val.

(** Bus traffic and log messages, as opposed to what reaches the IIO
    core. *)
Definition is_io (e : event) : bool :=
  match e with
  | BusReadByte _ | BusWriteByte _ _ | BusReadBlock _ _ | PrErr _ => true
  | _ => false
  end.

(** [w'] is [w] after some bus traffic and logging, and nothing else. *)
Definition io_step {client} (w w' : world client) : Prop :=
  priv w' = priv w /\
  kzalloc_ok w' = kzalloc_ok w /\
  push_status w' = push_status w /\
  exists evs, trace w' = trace w ++ evs /\ forallb is_io evs = true.

(** ** Registration and probe (bmp280-iio.c, main.c) *)

(** What the kernel answers to the device-managed calls of the
    registration: whether [devm_iio_device_alloc] returns a device, and
    the statuses of [devm_iio_triggered_buffer_setup] and
    [devm_iio_device_register]. *)
Record iio_core_replies := {
  device_alloc_ok : bool;
  triggered_buffer_setup_status : Z;
  device_register_status : Z;
}.

(** The private data of a freshly allocated IIO device: zeroed memory. *)
Definition zeroed_ctx : bmp280_ctx :=
  {| dig_T := replicate 4 0; dig_P := replicate 10 0 |}.

(** [register_bmp280_iio_device]. The context is the private data of the
    device just allocated; the assignments to [indio_dev] are those of
    [bmp280_indio_dev]. *)
Definition register_bmp280_iio_device {client} `{I2cBus client}
    (cpu_big_endian : bool) (env : iio_core_replies) : M (world client) Z :=
  if negb (device_alloc_ok env) then ret (- errno_code ENOMEM)
  else
    put_priv zeroed_ctx ;;
    status <- setup_bmp280 cpu_big_endian ;;
    if negb (status_of status =? 0) then
      pr_err "Failed to setup BMP280 device." ;;
      ret (status_of status)
    else
      let status := triggered_buffer_setup_status env in
      if negb (status =? 0) then
        pr_err "Failed to setup IIO triggered buffer support." ;;
        ret status
      else
        let status := device_register_status env in
        if negb (status =? 0) then
          pr_err "Failed to register with IIO subsystem." ;;
          ret status
        else ret 0.

(** [bmp280_iio_probe] for a client at address [addr], the module
    parameter being [bmp280_i2c_address]. The [pr_info] messages are not
    recorded. *)
Definition bmp280_iio_probe {client} `{I2cBus client}
    (cpu_big_endian : bool) (bmp280_i2c_address addr : Z)
    (env : iio_core_replies) : M (world client) Z :=
  if negb (addr =? bmp280_i2c_address) then
    pr_err "Probed with unexpected I2C address 0x%02x. Expecting 0x%02x" ;;
    ret (-1)
  else
    status <- register_bmp280_iio_device cpu_big_endian env ;;
    if negb (status =? 0) then ret status else ret 0.

(** ** Further notions for stating properties *)

(** The pressure a processed read returns, as a function of the two
    20-bit inputs and of the calibration: the computation of
    [read_bmp280_processed_pressure] after its block read. *)
Definition pressure_of (raw_press raw_temp : Z) (bmp280 : bmp280_ctx) : Z :=
  let P := dig_P bmp280 in
  let var2 := pressure_var2 raw_temp bmp280 in
  let var1 := pressure_var1 raw_temp bmp280 in
  if var1 =? 0 then 0
  else
    let p := sub32 1048576 raw_press in
    let p := to_s64 (Z.quot (mul64 (sub64 (shl64 p 31) var2) 3125) var1) in
    let var1 :=
      shr64 (mul64 (mul64 (P !!! 9%nat) (shr64 p 13)) (shr64 p 13)) 25 in
    let var2 := shr64 (mul64 (P !!! 8%nat) p) 19 in
    let p :=
      add64 (shr64 (add64 (add64 p var1) var2) 8) (shl64 (P !!! 7%nat) 4) in
    to_u32 p.

(** The temperature a processed read returns for a 20-bit input. *)
Definition temperature_of (raw_temp : Z) (bmp280 : bmp280_ctx) : Z :=
  shr32 (add32 (mul32 (compute_bmp280_t_fine raw_temp (dig_T bmp280)) 5) 128) 8.

(** Calibration constants as the loader leaves them, pressure group. *)
Definition pressure_calibration_loaded (calib : bmp280_ctx) : Prop :=
  0 <= dig_P calib !!! 1%nat <= 65535 /\
  forall i, (2 <= i <= 9)%nat -> - 32768 <= dig_P calib !!! i <= 32767.

(** The same world with another trace. *)
Definition with_trace {client} (t : list event) (w : world client)
  : world client :=
  {| client_of := client_of w; priv := priv w; trace := t;
     kzalloc_ok := kzalloc_ok w; push_status := push_status w |}.

(** A computation that only appends to the trace and never reads it. *)
Definition trace_blind {client A} (c : M (world client) A) : Prop :=
  forall (w : world client) (t : list event),
    match c w with
    | Done a w' =>
        exists evs,
          trace w' = trace w ++ evs /\
          c (with_trace t w) = Done a (with_trace (t ++ evs) w')
    | Crash f => c (with_trace t w) = Crash f
    end.

Definition allocations (t : list event) : nat :=
  length (List.filter
            (fun e => match e with Kzalloc _ => true | _ => false end) t).

Definition frees (t : list event) : nat :=
  length (List.filter
            (fun e => match e with Kfree => true | _ => false end) t).

(** The bus access that resolving a channel of the table costs: one block
    read for a processed or a raw channel (the raw ones are those with 20
    real bits), none for a calibration channel. *)
Definition expected_bus_access (chan : iio_chan_spec) : list event :=
  if iio_channel_has_info chan IIO_CHAN_INFO_PROCESSED then
    match type chan with
    | IIO_TEMP => [BusReadBlock BMP280_TEMP_RAW_REG_ADDRESS 3]
    | _ => [BusReadBlock BMP280_PRESS_RAW_REG_ADDRESS 6]
    end
  else if realbits (scan_type chan) =? 20 then
    [BusReadBlock (address chan) 3]
  else [].

(** ** Machine arithmetic *)

Lemma wrap_signed_id bits x :
  0 < bits -> - 2 ^ (bits - 1) <= x < 2 ^ (bits - 1) -> wrap_signed bits x = x.
Proof.
  intros Hb Hx. unfold wrap_signed.
  assert (2 ^ bits = 2 * 2 ^ (bits - 1)) as ->.
  { rewrite <- Z.pow_succ_r by lia. f_equal. lia. }
  rewrite Z.mod_small; lia.
Qed.

Lemma wrap_signed_range bits x :
  0 < bits -> - 2 ^ (bits - 1) <= wrap_signed bits x < 2 ^ (bits - 1).
Proof.
  intros Hb. unfold wrap_signed.
  assert (2 ^ bits = 2 * 2 ^ (bits - 1)) as E.
  { rewrite <- Z.pow_succ_r by lia. f_equal. lia. }
  assert (0 < 2 ^ (bits - 1)) by (apply Z.pow_pos_nonneg; lia).
  pose proof (Z.mod_pos_bound (x + 2 ^ (bits - 1)) (2 ^ bits)). lia.
Qed.

Lemma to_s32_id x : fits_s32 x -> to_s32 x = x.
Proof. intros H. apply wrap_signed_id; [lia | exact H]. Qed.

Lemma to_s32_fits x : fits_s32 (to_s32 x).
Proof. apply (wrap_signed_range 32); lia. Qed.

Lemma shr32_fits x n : 0 <= n -> fits_s32 x -> fits_s32 (shr32 x n).
Proof.
  intros Hn [Hlo Hhi]. unfold shr32, fits_s32.
  rewrite Z.shiftr_div_pow2 by lia.
  assert (0 < 2 ^ n) as Hp by (apply Z.pow_pos_nonneg; lia).
  assert (0 < 2 ^ 31) as Hq by (apply Z.pow_pos_nonneg; lia).
  split.
  - apply Z.div_le_lower_bound; [exact Hp | nia].
  - apply Z.div_lt_upper_bound; [exact Hp | nia].
Qed.

Lemma to_s64_id x : - 2 ^ 63 <= x < 2 ^ 63 -> to_s64 x = x.
Proof. intros H. apply wrap_signed_id; [lia | exact H]. Qed.

Lemma to_s32_small x : - 2147483648 <= x < 2147483648 -> to_s32 x = x.
Proof. intros H. apply to_s32_id. exact H. Qed.

Lemma to_s64_small x :
  - 9223372036854775808 <= x < 9223372036854775808 -> to_s64 x = x.
Proof. intros H. apply to_s64_id. exact H. Qed.

Lemma byte_val_range b : 0 <= byte_val b < 256.
Proof.
  unfold byte_val. pose proof (Byte.to_N_bounded b). lia.
Qed.

Lemma log2_below a n : 0 < n -> 0 <= a < 2 ^ n -> Z.log2 a < n.
Proof.
  intros Hn Ha. destruct (Z.eq_dec a 0) as [-> | Hne]; [simpl; lia |].
  apply Z.log2_lt_pow2; lia.
Qed.

Lemma lor_below a b n :
  0 <= n -> 0 <= a < 2 ^ n -> 0 <= b < 2 ^ n -> 0 <= Z.lor a b < 2 ^ n.
Proof.
  intros Hn Ha Hb.
  assert (0 <= Z.lor a b) as Hlor by (apply Z.lor_nonneg; lia).
  split; [exact Hlor |].
  destruct (Z.eq_dec n 0) as [-> | Hn0].
  { assert (a = 0) as -> by (simpl in Ha; lia).
    assert (b = 0) as -> by (simpl in Hb; lia). reflexivity. }
  destruct (Z.eq_dec (Z.lor a b) 0) as [-> | Hne].
  { apply Z.pow_pos_nonneg; lia. }
  apply Z.log2_lt_pow2; [lia |].
  rewrite Z.log2_lor by lia.
  pose proof (log2_below a n). pose proof (log2_below b n). lia.
Qed.

Lemma shl32_byte b n :
  0 <= n <= 16 -> shl32 (byte_val b) n = byte_val b * 2 ^ n.
Proof.
  intros Hn. unfold shl32. rewrite Z.shiftl_mul_pow2 by lia.
  apply to_s32_id. pose proof (byte_val_range b).
  assert (0 < 2 ^ n <= 2 ^ 16) by (split; [apply Z.pow_pos_nonneg | apply Z.pow_le_mono_r]; lia).
  unfold fits_s32. nia.
Qed.

Lemma register_triple_plain v1 v2 v3 :
  register_triple v1 v2 v3 =
  Z.lor (Z.lor (Z.shiftl (byte_val v1) 16) (Z.shiftl (byte_val v2) 8))
        (byte_val v3).
Proof.
  unfold register_triple.
  rewrite !shl32_byte by lia. rewrite !Z.shiftl_mul_pow2 by lia. reflexivity.
Qed.

Lemma register_triple_range v1 v2 v3 :
  0 <= register_triple v1 v2 v3 < 2 ^ 24.
Proof.
  unfold register_triple. rewrite !shl32_byte by lia.
  pose proof (byte_val_range v1). pose proof (byte_val_range v2).
  pose proof (byte_val_range v3).
  apply lor_below; [lia | | lia].
  apply lor_below; lia.
Qed.

Lemma register_triple_padding v1 v2 v3 :
  Z.land (register_triple v1 v2 v3) 15 = Z.land (byte_val v3) 15.
Proof.
  rewrite register_triple_plain.
  apply Z.bits_inj'. intros n Hn.
  rewrite !Z.land_spec, !Z.lor_spec.
  destruct (Z.testbit 15 n) eqn:E; [| rewrite !andb_false_r; reflexivity].
  assert (n < 4).
  { destruct (Z_lt_dec n 4); [assumption |].
    change 15 with (Z.ones 4) in E. rewrite Z.ones_spec_high in E by lia.
    discriminate. }
  rewrite !Z.shiftl_spec_low by lia. reflexivity.
Qed.

(** ** Cells of the sample buffer *)

Lemma byte_val_of_Z x : byte_val (byte_of_Z x) = x mod 256.
Proof.
  unfold byte_val, byte_of_Z, to_u8, wrap_unsigned. change (2 ^ 8) with 256.
  pose proof (Z.mod_pos_bound x 256 ltac:(lia)) as Hx.
  destruct (Byte.of_N (Z.to_N (x mod 256))) as [b|] eqn:E.
  - apply Byte.to_of_N in E. rewrite E. lia.
  - apply Byte.of_N_None_iff in E. lia.
Qed.

Lemma length_le_bytes n v : length (le_bytes n v) = n.
Proof. revert v. induction n; intros v; simpl; [reflexivity | f_equal; apply IHn]. Qed.

Lemma pow2_bytes_succ n :
  2 ^ (8 * Z.of_nat (S n)) = 2 ^ 8 * 2 ^ (8 * Z.of_nat n).
Proof. rewrite <- Z.pow_add_r by lia. f_equal. lia. Qed.

Lemma le_bytes_congr n a b :
  a mod 2 ^ (8 * Z.of_nat n) = b mod 2 ^ (8 * Z.of_nat n) ->
  le_bytes n a = le_bytes n b.
Proof.
  revert a b. induction n as [|n IH]; intros a b H; [reflexivity |].
  rewrite pow2_bytes_succ in H.
  assert (0 < 2 ^ (8 * Z.of_nat n)) as Hpos by (apply Z.pow_pos_nonneg; lia).
  assert (a mod 2 ^ 8 = b mod 2 ^ 8) as Hlow.
  { rewrite <- (Z.mod_mod_divide a (2 ^ 8 * 2 ^ (8 * Z.of_nat n)) (2 ^ 8)),
      <- (Z.mod_mod_divide b (2 ^ 8 * 2 ^ (8 * Z.of_nat n)) (2 ^ 8)), H;
      [reflexivity | |]; exists (2 ^ (8 * Z.of_nat n)); lia. }
  cbn [le_bytes]. f_equal.
  - unfold byte_of_Z, to_u8, wrap_unsigned. rewrite Hlow. reflexivity.
  - apply IH. rewrite !Z.shiftr_div_pow2 by lia.
    rewrite !Z.rem_mul_r in H by lia. lia.
Qed.

Lemma le_bytes_wrap_signed n v :
  le_bytes n (wrap_signed (8 * Z.of_nat n) v) = le_bytes n v.
Proof.
  apply le_bytes_congr. unfold wrap_signed.
  rewrite Zminus_mod_idemp_l. f_equal. lia.
Qed.

Lemma le_bytes_wrap_unsigned n v :
  le_bytes n (wrap_unsigned (8 * Z.of_nat n) v) = le_bytes n v.
Proof. apply le_bytes_congr. unfold wrap_unsigned. apply Z.mod_mod. 
  apply Z.pow_nonzero; lia. Qed.

Lemma le_value_le_bytes n v :
  le_value (le_bytes n v) = v mod 2 ^ (8 * Z.of_nat n).
Proof.
  revert v. induction n as [|n IH]; intros v.
  - simpl. rewrite Z.mod_1_r. reflexivity.
  - cbn [le_bytes le_value]. rewrite IH, byte_val_of_Z.
    apply Z.bits_inj'. intros i Hi.
    rewrite Z.lor_spec. change 256 with (2 ^ 8).
    rewrite !Z.testbit_mod_pow2 by lia.
    destruct (Z.ltb_spec i 8) as [Hlt | Hge].
    + rewrite Z.shiftl_spec_low by lia.
      destruct (Z.ltb_spec i (8 * Z.of_nat (S n))); [| lia].
      rewrite orb_false_r. reflexivity.
    + rewrite Z.shiftl_spec by lia.
      rewrite Z.testbit_mod_pow2 by lia.
      rewrite Z.shiftr_spec by lia.
      replace (i - 8 + 8) with i by lia. cbn [andb orb].
      destruct (Z.ltb_spec (i - 8) (8 * Z.of_nat n));
        destruct (Z.ltb_spec i (8 * Z.of_nat (S n))); try lia; reflexivity.
Qed.

Lemma length_cpu_bytes be n v : length (cpu_bytes be n v) = n.
Proof.
  unfold cpu_bytes. destruct be; rewrite ?length_rev; apply length_le_bytes.
Qed.

Lemma cpu_value_cpu_bytes be n v :
  cpu_value be (cpu_bytes be n v) = v mod 2 ^ (8 * Z.of_nat n).
Proof.
  unfold cpu_value, cpu_bytes. destruct be; rewrite ?rev_involutive;
    apply le_value_le_bytes.
Qed.

Lemma cpu_bytes_s16 be v : cpu_bytes be 2 (to_s16 v) = cpu_bytes be 2 v.
Proof.
  unfold cpu_bytes.
  change (to_s16 v) with (wrap_signed (8 * Z.of_nat 2) v).
  rewrite le_bytes_wrap_signed. reflexivity.
Qed.

Lemma cpu_bytes_u16 be v : cpu_bytes be 2 (to_u16 v) = cpu_bytes be 2 v.
Proof.
  unfold cpu_bytes.
  change (to_u16 v) with (wrap_unsigned (8 * Z.of_nat 2) v).
  rewrite le_bytes_wrap_unsigned. reflexivity.
Qed.

Lemma cpu_bytes_s32 be v : cpu_bytes be 4 (to_s32 v) = cpu_bytes be 4 v.
Proof.
  unfold cpu_bytes.
  change (to_s32 v) with (wrap_signed (8 * Z.of_nat 4) v).
  rewrite le_bytes_wrap_signed. reflexivity.
Qed.

Lemma cpu_bytes_u32 be v : cpu_bytes be 4 (to_u32 v) = cpu_bytes be 4 v.
Proof.
  unfold cpu_bytes.
  change (to_u32 v) with (wrap_unsigned (8 * Z.of_nat 4) v).
  rewrite le_bytes_wrap_unsigned. reflexivity.
Qed.

Lemma to_s32_mod v : to_s32 (v mod 2 ^ 32) = to_s32 v.
Proof.
  unfold to_s32, wrap_signed. rewrite Zplus_mod_idemp_l. reflexivity.
Qed.


(** ** Runs of the bus primitives and of the raw reads *)

Section Properties.

Context {client : Type} `{Bus : I2cBus client}.

Variable cpu_big_endian : bool.

Local Abbreviation W := (world client).

Lemma block_read_run (w : W) reg len values :
  i2c_smbus_read_i2c_block_data reg len values w =
  Done (block_status (block_reply_of w reg len),
        block_fill (block_reply_of w reg len) values)
       (after_block_read w reg len).
Proof.
  unfold i2c_smbus_read_i2c_block_data, block_reply_of, after_block_read.
  destruct (bus_read_block (client_of w) reg len); reflexivity.
Qed.

Lemma block_status_exact bs (n : nat) :
  (block_status (BlockBytes bs) =? Z.of_nat n) = true <-> length bs = n.
Proof. rewrite Z.eqb_eq. simpl. lia. Qed.

Lemma block_fill_exact bs values :
  length bs = length values -> block_fill (BlockBytes bs) values = bs.
Proof.
  intros E. simpl. rewrite E, drop_all, app_nil_r, <- E. apply firstn_all.
Qed.

Lemma block_status_errno e n : 0 <= n -> (block_status (BlockErrno e) =? n) = false.
Proof. intros Hn. apply Z.eqb_neq. simpl. lia. Qed.

Ltac run_raw_read :=
  unfold bind; rewrite block_read_run;
  match goal with
  | |- context [block_reply_of ?w ?reg ?len] =>
      destruct (block_reply_of w reg len) as [[|v1 [|v2 [|v3 [|v4 bs]]]] | e]
  end;
  cbn [block_status block_fill length Z.of_nat];
  try (eexists; reflexivity);
  try reflexivity.

Lemma read_bmp280_raw_temperature_run (w : W) :
  let w1 := after_block_read w BMP280_TEMP_RAW_REG_ADDRESS 3 in
  match block_reply_of w BMP280_TEMP_RAW_REG_ADDRESS 3 with
  | BlockBytes [v1; v2; v3] =>
      read_bmp280_raw_temperature w = Done (Ok (register_triple v1 v2 v3)) w1
  | _ =>
      exists m, read_bmp280_raw_temperature w = Done (Err EIO) (emit (PrErr m) w1)
  end.
Proof.
  intros w1. subst w1. unfold read_bmp280_raw_temperature. run_raw_read.
  assert ((Z.of_nat (S (S (S (S (length bs))))) =? 3) = false) as E
    by (apply Z.eqb_neq; lia).
  cbn [length]. rewrite E. eexists; reflexivity.
Qed.

Lemma read_bmp280_raw_pressure_run (w : W) :
  let w1 := after_block_read w BMP280_PRESS_RAW_REG_ADDRESS 3 in
  match block_reply_of w BMP280_PRESS_RAW_REG_ADDRESS 3 with
  | BlockBytes [v1; v2; v3] =>
      read_bmp280_raw_pressure w = Done (Ok (register_triple v1 v2 v3)) w1
  | _ =>
      exists m, read_bmp280_raw_pressure w = Done (Err EIO) (emit (PrErr m) w1)
  end.
Proof.
  intros w1. subst w1. unfold read_bmp280_raw_pressure. run_raw_read.
  assert ((Z.of_nat (S (S (S (S (length bs))))) =? 3) = false) as E
    by (apply Z.eqb_neq; lia).
  cbn [length]. rewrite E. eexists; reflexivity.
Qed.


(** ** The value resolver *)

Lemma bus_accesses_emit (w : W) e :
  bus_accesses (trace (emit e w)) =
  bus_accesses (trace w) ++ (if is_bus_access e then [e] else []).
Proof.
  unfold bus_accesses. simpl. rewrite List.filter_app. simpl.
  destruct (is_bus_access e); reflexivity.
Qed.

Lemma resolve_calibration_channel (chan : iio_chan_spec) (w : W) :
  In chan calibration_channels ->
  bmp280_iio_read_from_channel chan w =
  Done (Ok (IIO_VAL_INT (stored_constant (priv w) chan))) w.
Proof.
  intros Hin. cbv [calibration_channels channels_at omap list_omap] in Hin.
  simpl in Hin.
  repeat (destruct Hin as [<- | Hin]; [reflexivity |]).
  destruct Hin.
Qed.

Ltac open_run R :=
  lazymatch type of R with
  | ex _ => let m := fresh "m" in destruct R as [m R]
  | _ => idtac
  end.

Lemma resolve_raw_channel (chan : iio_chan_spec) (w : W) :
  In chan raw_channels ->
  exists r w',
    bmp280_iio_read_from_channel chan w = Done r w' /\
    priv w' = priv w /\
    bus_accesses (trace w') =
      bus_accesses (trace w) ++ [BusReadBlock (address chan) 3] /\
    match block_reply_of w (address chan) 3 with
    | BlockBytes [b0; b1; b2] => r = Ok (IIO_VAL_INT (register_triple b0 b1 b2))
    | _ => r = Err EIO
    end.
Proof.
  intros Hin. cbv [raw_channels channels_at omap list_omap] in Hin.
  simpl in Hin. destruct Hin as [<- | [<- | []]].
  - pose proof (read_bmp280_raw_temperature_run w) as R. cbv zeta in R.
    change (address _) with BMP280_TEMP_RAW_REG_ADDRESS.
    change (bmp280_iio_read_from_channel _ w) with
      ((status <- read_bmp280_raw_temperature ;;
        match status with
        | Err e => ret (Err e)
        | Ok raw_temp => ret (Ok (IIO_VAL_INT raw_temp))
        end) w).
    unfold bind.
    destruct (block_reply_of w BMP280_TEMP_RAW_REG_ADDRESS 3)
      as [[|v1 [|v2 [|v3 [|v4 bs]]]] | e];
      open_run R; rewrite R; cbn [ret];
      do 2 eexists; (split; [reflexivity |]);
      (split; [reflexivity |]);
      rewrite ?bus_accesses_emit; cbn [is_bus_access];
      rewrite ?app_nil_r; unfold after_block_read;
      rewrite bus_accesses_emit; auto.
  - pose proof (read_bmp280_raw_pressure_run w) as R. cbv zeta in R.
    change (address _) with BMP280_PRESS_RAW_REG_ADDRESS.
    change (bmp280_iio_read_from_channel _ w) with
      ((status <- read_bmp280_raw_pressure ;;
        match status with
        | Err e => ret (Err e)
        | Ok raw_press => ret (Ok (IIO_VAL_INT raw_press))
        end) w).
    unfold bind.
    destruct (block_reply_of w BMP280_PRESS_RAW_REG_ADDRESS 3)
      as [[|v1 [|v2 [|v3 [|v4 bs]]]] | e];
      open_run R; rewrite R; cbn [ret];
      do 2 eexists; (split; [reflexivity |]);
      (split; [reflexivity |]);
      rewrite ?bus_accesses_emit; cbn [is_bus_access];
      rewrite ?app_nil_r; unfold after_block_read;
      rewrite bus_accesses_emit; auto.
Qed.

(** ** The compensation engine *)

Lemma read_bmp280_processed_temperature_run (w : W) :
  let w1 := after_block_read w BMP280_TEMP_RAW_REG_ADDRESS 3 in
  match block_reply_of w BMP280_TEMP_RAW_REG_ADDRESS 3 with
  | BlockBytes [v1; v2; v3] =>
      read_bmp280_processed_temperature w =
      Done (Ok (shr32 (add32 (mul32 (compute_bmp280_t_fine
                                       (shr32 (register_triple v1 v2 v3) 4)
                                       (dig_T (priv w))) 5) 128) 8)) w1
  | _ =>
      exists m,
        read_bmp280_processed_temperature w = Done (Err EIO) (emit (PrErr m) w1)
  end.
Proof.
  intros w1. subst w1.
  pose proof (read_bmp280_raw_temperature_run w) as R. cbv zeta in R.
  unfold read_bmp280_processed_temperature, bind.
  destruct (block_reply_of w BMP280_TEMP_RAW_REG_ADDRESS 3)
    as [[|v1 [|v2 [|v3 [|v4 bs]]]] | e];
    open_run R; rewrite R; try (eexists; reflexivity); reflexivity.
Qed.

Ltac zlia := Z.div_mod_to_equations; lia.

Lemma temperature_exact (raw20 : Z) (calib : bmp280_ctx) :
  0 <= raw20 < 2 ^ 20 ->
  temperature_calibration_loaded calib ->
  temperature_products_fit raw20 calib ->
  compute_bmp280_t_fine raw20 (dig_T calib) =
    rawTemperatureTripleToFine raw20 calib /\
  shr32 (add32 (mul32 (compute_bmp280_t_fine raw20 (dig_T calib)) 5) 128) 8 =
    processedTemperature raw20 calib.
Proof.
  unfold temperature_calibration_loaded, temperature_products_fit,
    processedTemperature, rawTemperatureTripleToFine, compute_bmp280_t_fine.
  set (T1 := dig_T calib !!! 1%nat). set (T2 := dig_T calib !!! 2%nat).
  set (T3 := dig_T calib !!! 3%nat). cbv zeta.
  unfold fits_s32, add32, sub32, mul32, shl32, shr32,
    add64, sub64, mul64, shl64, shr64.
  rewrite !Z.shiftr_div_pow2, !Z.shiftl_mul_pow2 by lia.
  change (2 ^ 1) with 2. change (2 ^ 3) with 8. change (2 ^ 4) with 16.
  change (2 ^ 8) with 256. change (2 ^ 11) with 2048.
  change (2 ^ 12) with 4096. change (2 ^ 14) with 16384.
  change (2 ^ 20) with 1048576. change (2 ^ 31) with 2147483648.
  intros Hraw (HT1 & HT2 & HT3) (HA & HB & HC).
  set (A := (raw20 / 8 - T1 * 2) * T2) in *.
  set (d := raw20 / 16 - T1) in *.
  set (B := d * d) in *.
  set (C := B / 4096 * T3) in *.
  assert (to_s32 (T1 * 2) = T1 * 2) as E1 by (apply to_s32_small; zlia).
  assert (to_s64 (T1 * 2) = T1 * 2) as E1' by (apply to_s64_small; zlia).
  rewrite E1, E1'.
  assert (to_s32 (raw20 / 8 - T1 * 2) = raw20 / 8 - T1 * 2) as E2
    by (apply to_s32_small; zlia).
  assert (to_s64 (raw20 / 8 - T1 * 2) = raw20 / 8 - T1 * 2) as E2'
    by (apply to_s64_small; zlia).
  rewrite E2, E2'. fold A.
  assert (to_s32 d = d) as E3 by (apply to_s32_small; unfold d; zlia).
  assert (to_s64 d = d) as E3' by (apply to_s64_small; unfold d; zlia).
  rewrite E3, E3'. fold B.
  rewrite (to_s32_small A), (to_s64_small A) by zlia.
  rewrite (to_s32_small B), (to_s64_small B) by zlia.
  fold C.
  rewrite (to_s32_small C), (to_s64_small C) by zlia.
  rewrite (to_s32_small (A / 2048 + C / 16384)),
    (to_s64_small (A / 2048 + C / 16384)) by zlia.
  split; [reflexivity |].
  set (t := A / 2048 + C / 16384).
  assert (- 1200000 <= t <= 1200000) by (subst t; zlia).
  rewrite (to_s32_small (t * 5)), (to_s64_small (t * 5)) by zlia.
  rewrite (to_s32_small (t * 5 + 128)), (to_s64_small (t * 5 + 128)) by zlia.
  symmetry. apply to_s32_small. zlia.
Qed.

Lemma div64_nonzero a b : b <> 0 -> exists q, div64 a b = Some q.
Proof.
  intros Hb. unfold div64. destruct (Z.eqb_spec b 0); [contradiction |].
  eexists; reflexivity.
Qed.

Lemma read_bmp280_processed_pressure_run (w : W) :
  let w1 := after_block_read w BMP280_PRESS_RAW_REG_ADDRESS 6 in
  match block_reply_of w BMP280_PRESS_RAW_REG_ADDRESS 6 with
  | BlockBytes [p1; p2; p3; t1; t2; t3] =>
      exists press,
        read_bmp280_processed_pressure w = Done (Ok press) w1 /\
        (pressure_var1 (Z.shiftr (register_triple t1 t2 t3) 4) (priv w) = 0 ->
         press = 0)
  | _ =>
      exists m,
        read_bmp280_processed_pressure w = Done (Err EIO) (emit (PrErr m) w1)
  end.
Proof.
  intros w1. subst w1. unfold read_bmp280_processed_pressure, bind.
  rewrite block_read_run.
  destruct (block_reply_of w BMP280_PRESS_RAW_REG_ADDRESS 6)
    as [[|p1 [|p2 [|p3 [|t1 [|t2 [|t3 [|x bs]]]]]]] | e];
    cbn [block_status block_fill length Z.of_nat];
    try (eexists; reflexivity).
  - change (Z.of_nat 6 =? 6) with true. cbn [negb]. cbv beta.
    unfold get_priv.
    change (priv (after_block_read w BMP280_PRESS_RAW_REG_ADDRESS 6))
      with (priv w).
    cbn [replicate length take drop app lookup_total list_lookup_total].
    unfold shr32.
    set (raw_temp := Z.shiftr (register_triple t1 t2 t3) 4).
    destruct (Z.eqb_spec (pressure_var1 raw_temp (priv w)) 0) as [E0 | Hne].
    + exists 0. split; [reflexivity | auto].
    + match goal with
      | |- context [div64 ?a ?b] =>
          destruct (div64_nonzero a b Hne) as [q Eq]; rewrite Eq
      end.
      eexists. split; [reflexivity | intros E0; contradiction].
  - assert ((Z.of_nat (S (S (S (S (S (S (S (length bs)))))))) =? 6) = false)
      as E by (apply Z.eqb_neq; lia).
    rewrite E. eexists; reflexivity.
Qed.


(** ** The calibration loader *)

Lemma load_u16_range (buf : list byte) (k : nat) :
  0 <= load_u16 cpu_big_endian buf k < 65536.
Proof.
  unfold load_u16.
  pose proof (byte_val_range (buf !!! (2 * k)%nat)) as H0.
  pose proof (byte_val_range (buf !!! (2 * k + 1)%nat)) as H1.
  change 65536 with (2 ^ 16).
  destruct cpu_big_endian; apply lor_below; try lia;
    rewrite Z.shiftl_mul_pow2 by lia; lia.
Qed.

Lemma calib_step_T_parsed (buf : list byte) (dig : list Z) (i : nat) :
  (i < length dig)%nat ->
  calib_step_T cpu_big_endian buf dig i =
  <[i := parsed_calibration i (load_u16 cpu_big_endian buf (i - 1))]> dig.
Proof.
  intros Hi. unfold calib_step_T, parsed_calibration.
  pose proof (load_u16_range buf (i - 1)) as Hv.
  set (v := load_u16 cpu_big_endian buf (i - 1)) in *.
  rewrite list_lookup_total_insert_eq by exact Hi.
  destruct (i =? 1)%nat; cbn [negb andb]; [reflexivity |].
  destruct (Z.gtb_spec v 32767) as [Hgt | Hle].
  - rewrite list_insert_insert_eq.
    destruct (Z.leb_spec v 32767); [lia |].
    unfold sub32. rewrite to_s32_small by lia. reflexivity.
  - destruct (Z.leb_spec v 32767); [reflexivity | lia].
Qed.

Lemma calib_step_P_parsed (buf : list byte) (dig : list Z) (i : nat) :
  (i < length dig)%nat ->
  calib_step_P cpu_big_endian buf dig i =
  <[i := parsed_calibration i (load_u16 cpu_big_endian buf (i - 1))]> dig.
Proof.
  intros Hi. unfold calib_step_P, parsed_calibration.
  pose proof (load_u16_range buf (i - 1)) as Hv.
  set (v := load_u16 cpu_big_endian buf (i - 1)) in *.
  rewrite list_lookup_total_insert_eq by exact Hi.
  destruct (i =? 1)%nat; cbn [negb andb]; [reflexivity |].
  destruct (Z.gtb_spec v 32767) as [Hgt | Hle].
  - rewrite list_insert_insert_eq.
    destruct (Z.leb_spec v 32767); [lia |].
    unfold sub64. rewrite to_s64_small by lia. reflexivity.
  - destruct (Z.leb_spec v 32767); [reflexivity | lia].
Qed.

Lemma calib_step_T_length (buf : list byte) (dig : list Z) (i : nat) :
  length (calib_step_T cpu_big_endian buf dig i) = length dig.
Proof.
  unfold calib_step_T.
  destruct (negb (i =? 1)%nat && _); rewrite !length_insert; reflexivity.
Qed.

Lemma calib_step_P_length (buf : list byte) (dig : list Z) (i : nat) :
  length (calib_step_P cpu_big_endian buf dig i) = length dig.
Proof.
  unfold calib_step_P.
  destruct (negb (i =? 1)%nat && _); rewrite !length_insert; reflexivity.
Qed.

Lemma calib_loop_T (buf : list byte) (x0 x1 x2 x3 : Z) :
  let v i := parsed_calibration i (load_u16 cpu_big_endian buf (i - 1)) in
  foldl (calib_step_T cpu_big_endian buf) (<[0%nat := 0]> [x0; x1; x2; x3])
        (seq 1 3) =
  [0; v 1%nat; v 2%nat; v 3%nat].
Proof.
  intros v. cbn [seq foldl].
  rewrite !calib_step_T_parsed; [reflexivity | ..];
    rewrite ?calib_step_T_length, ?length_insert; simpl; lia.
Qed.

Lemma calib_loop_P (buf : list byte) (x0 x1 x2 x3 x4 x5 x6 x7 x8 x9 : Z) :
  let v i := parsed_calibration i (load_u16 cpu_big_endian buf (i - 1)) in
  foldl (calib_step_P cpu_big_endian buf)
        (<[0%nat := 0]> [x0; x1; x2; x3; x4; x5; x6; x7; x8; x9]) (seq 1 9) =
  [0; v 1%nat; v 2%nat; v 3%nat; v 4%nat; v 5%nat; v 6%nat; v 7%nat;
   v 8%nat; v 9%nat].
Proof.
  intros v. cbn [seq foldl].
  rewrite !calib_step_P_parsed; [reflexivity | ..];
    rewrite ?calib_step_P_length, ?length_insert; simpl; lia.
Qed.

Lemma length_4 {A} (l : list A) :
  length l = 4%nat -> exists a b c d, l = [a; b; c; d].
Proof.
  destruct l as [|a [|b [|c [|d [|e l]]]]]; try discriminate. eauto.
Qed.

Lemma length_10 {A} (l : list A) :
  length l = 10%nat ->
  exists a b c d e f g h i j, l = [a; b; c; d; e; f; g; h; i; j].
Proof.
  destruct l as [|a [|b [|c [|d [|e [|f [|g [|h [|i [|j [|k l]]]]]]]]]]];
    try discriminate.
  intros _. do 10 eexists. reflexivity.
Qed.

Lemma read_bmp280_calibration_values_run (w : W) (tb pb : list byte) :
  let w1 := after_block_read w BMP280_TEMP_CALIBRATION_BASE_REG_ADDRESS 6 in
  let w2 := after_block_read w1 BMP280_PRESS_CALIBRATION_BASE_REG_ADDRESS 18 in
  let t i := parsed_calibration i (load_u16 cpu_big_endian tb (i - 1)) in
  let p i := parsed_calibration i (load_u16 cpu_big_endian pb (i - 1)) in
  length (dig_T (priv w)) = 4%nat ->
  length (dig_P (priv w)) = 10%nat ->
  block_reply_of w BMP280_TEMP_CALIBRATION_BASE_REG_ADDRESS 6 = BlockBytes tb ->
  length tb = 6%nat ->
  block_reply_of w1 BMP280_PRESS_CALIBRATION_BASE_REG_ADDRESS 18 = BlockBytes pb ->
  length pb = 18%nat ->
  read_bmp280_calibration_values cpu_big_endian w =
  Done (Ok tt)
    (set_priv {| dig_T := [0; t 1%nat; t 2%nat; t 3%nat];
                 dig_P := [0; p 1%nat; p 2%nat; p 3%nat; p 4%nat; p 5%nat;
                           p 6%nat; p 7%nat; p 8%nat; p 9%nat] |} w2).
Proof.
  intros w1 w2 t p HT HP Et Ht Ep Hp.
  destruct (length_4 _ HT) as (x0 & x1 & x2 & x3 & ET).
  destruct (length_10 _ HP) as (y0 & y1 & y2 & y3 & y4 & y5 & y6 & y7 & y8 & y9 & EP).
  unfold read_bmp280_calibration_values, bind.
  change (3 * 2) with 6. change (9 * 2) with 18.
  rewrite block_read_run, Et.
  rewrite block_fill_exact by (rewrite length_replicate; exact Ht).
  cbn [block_status]. rewrite Ht. change (Z.of_nat 6 =? 6) with true.
  cbn [negb]. fold w1.
  rewrite block_read_run, Ep.
  rewrite block_fill_exact by (rewrite length_replicate; exact Hp).
  cbn [block_status]. rewrite Hp. change (Z.of_nat 18 =? 18) with true.
  cbn [negb]. fold w2.
  unfold get_priv, put_priv, ret.
  change (priv w2) with (priv w). rewrite ET, EP.
  cbn [dig_T dig_P].
  rewrite calib_loop_T, calib_loop_P. reflexivity.
Qed.

(** ** Resolution only talks to the bus and to the log *)

Lemma io_step_refl (w : W) : io_step w w.
Proof.
  repeat split. exists []. rewrite app_nil_r. split; reflexivity.
Qed.

Lemma io_step_trans (w1 w2 w3 : W) :
  io_step w1 w2 -> io_step w2 w3 -> io_step w1 w3.
Proof.
  intros (Hp & Hk & Hs & evs & Ht & Hio) (Hp' & Hk' & Hs' & evs' & Ht' & Hio').
  repeat split; try congruence.
  exists (evs ++ evs'). rewrite Ht', Ht, app_assoc. split; [reflexivity |].
  rewrite forallb_app, Hio, Hio'. reflexivity.
Qed.

Lemma io_step_emit (w : W) e : is_io e = true -> io_step w (emit e w).
Proof.
  intros He. repeat split. exists [e]. split; [reflexivity |].
  simpl. rewrite He. reflexivity.
Qed.

Lemma io_step_block_read (w : W) reg len :
  io_step w (after_block_read w reg len).
Proof.
  repeat split. exists [BusReadBlock reg len]. split; reflexivity.
Qed.

Lemma io_step_block_read_err (w : W) reg len m :
  io_step w (emit (PrErr m) (after_block_read w reg len)).
Proof.
  eapply io_step_trans; [apply io_step_block_read | apply io_step_emit].
  reflexivity.
Qed.

Lemma read_bmp280_raw_temperature_io (w : W) :
  exists r w', read_bmp280_raw_temperature w = Done r w' /\ io_step w w'.
Proof.
  pose proof (read_bmp280_raw_temperature_run w) as R. cbv zeta in R.
  destruct (block_reply_of w BMP280_TEMP_RAW_REG_ADDRESS 3)
    as [[|v1 [|v2 [|v3 [|v4 bs]]]] | e];
    open_run R; rewrite R; do 2 eexists; (split; [reflexivity |]);
    auto using io_step_block_read, io_step_block_read_err.
Qed.

Lemma read_bmp280_raw_pressure_io (w : W) :
  exists r w', read_bmp280_raw_pressure w = Done r w' /\ io_step w w'.
Proof.
  pose proof (read_bmp280_raw_pressure_run w) as R. cbv zeta in R.
  destruct (block_reply_of w BMP280_PRESS_RAW_REG_ADDRESS 3)
    as [[|v1 [|v2 [|v3 [|v4 bs]]]] | e];
    open_run R; rewrite R; do 2 eexists; (split; [reflexivity |]);
    auto using io_step_block_read, io_step_block_read_err.
Qed.

Lemma read_bmp280_processed_temperature_io (w : W) :
  exists r w', read_bmp280_processed_temperature w = Done r w' /\ io_step w w'.
Proof.
  pose proof (read_bmp280_processed_temperature_run w) as R. cbv zeta in R.
  destruct (block_reply_of w BMP280_TEMP_RAW_REG_ADDRESS 3)
    as [[|v1 [|v2 [|v3 [|v4 bs]]]] | e];
    open_run R; rewrite R; do 2 eexists; (split; [reflexivity |]);
    auto using io_step_block_read, io_step_block_read_err.
Qed.

Lemma read_bmp280_processed_pressure_io (w : W) :
  exists r w', read_bmp280_processed_pressure w = Done r w' /\ io_step w w'.
Proof.
  pose proof (read_bmp280_processed_pressure_run w) as R. cbv zeta in R.
  destruct (block_reply_of w BMP280_PRESS_RAW_REG_ADDRESS 6)
    as [[|p1 [|p2 [|p3 [|t1 [|t2 [|t3 [|x bs]]]]]]] | e];
    try (destruct R as [m R]; rewrite R; do 2 eexists;
         split; [reflexivity | apply io_step_block_read_err]).
  destruct R as (press & R & _). rewrite R. do 2 eexists.
  split; [reflexivity | apply io_step_block_read].
Qed.

Ltac resolve_with L :=
  unfold bind;
  let r := fresh "r" in
  let w' := fresh "w'" in
  let R := fresh "R" in
  let Hio := fresh "Hio" in
  destruct L as (r & w' & R & Hio); rewrite R;
  destruct r; do 2 eexists; (split; [reflexivity | exact Hio]).

Lemma bmp280_iio_read_from_channel_io (chan : iio_chan_spec) (w : W) :
  exists r w', bmp280_iio_read_from_channel chan w = Done r w' /\ io_step w w'.
Proof.
  unfold bmp280_iio_read_from_channel.
  destruct (type chan).
  - do 2 eexists. split; [reflexivity |]. apply io_step_emit. reflexivity.
  - destruct (_ && _ && _ && _).
    { do 2 eexists. split; [reflexivity | apply io_step_refl]. }
    destruct (_ && _ && _).
    { resolve_with (read_bmp280_raw_temperature_io w). }
    destruct (iio_channel_has_info chan IIO_CHAN_INFO_PROCESSED).
    { resolve_with (read_bmp280_processed_temperature_io w). }
    do 2 eexists. split; [reflexivity |]. apply io_step_emit. reflexivity.
  - destruct (_ && _ && _ && _).
    { do 2 eexists. split; [reflexivity | apply io_step_refl]. }
    destruct (_ && _ && _).
    { resolve_with (read_bmp280_raw_pressure_io w). }
    destruct (iio_channel_has_info chan IIO_CHAN_INFO_PROCESSED).
    { resolve_with (read_bmp280_processed_pressure_io w). }
    do 2 eexists. split; [reflexivity |]. apply io_step_emit. reflexivity.
Qed.

Lemma read_channels_io (chans : list iio_chan_spec) (w : W) :
  exists r w',
    read_channels chans w = Done r w' /\ io_step w w' /\
    forall vals, r = Ok vals -> length vals = length chans.
Proof.
  revert w. induction chans as [|chan chans IH]; intros w.
  - exists (Ok []), w. repeat split; [apply io_step_refl |].
    intros vals [= <-]. reflexivity.
  - cbn [read_channels]. unfold bind.
    destruct (bmp280_iio_read_from_channel_io chan w) as (r & w1 & R & Hio).
    rewrite R. destruct r as [v | e].
    + destruct (IH w1) as (rs & w2 & Rs & Hio' & Hlen). rewrite Rs.
      destruct rs as [vs | e]; do 2 eexists;
        (split; [reflexivity |]);
        (split; [eapply io_step_trans; eassumption |]).
      * intros vals [= <-]. cbn [length]. f_equal. apply Hlen. reflexivity.
      * intros vals [=].
    + do 2 eexists. split; [reflexivity |]. split; [exact Hio |].
      intros vals [=].
Qed.

(** ** The loop of the trigger handler *)

Lemma table_channel_shape (i : nat) (chan : iio_chan_spec) :
  bmp280_iio_channels !! i = Some chan ->
  (storagebits (scan_type chan) = 16 /\ storage_bytes chan = 2%nat) \/
  (storagebits (scan_type chan) = 32 /\ storage_bytes chan = 4%nat).
Proof.
  do 16 (destruct i as [|i]; [intros [= <-]; auto |]). discriminate.
Qed.

Lemma store_in_bounds (data : list byte) (ptr : nat) (cell : list byte) :
  (ptr + length cell <= length data)%nat ->
  store data ptr cell =
  Some (take ptr data ++ cell ++ drop (ptr + length cell) data).
Proof.
  intros H. unfold store. destruct (Nat.leb_spec (ptr + length cell) (length data)); [reflexivity | lia].
Qed.

Lemma stored_shape (data : list byte) (ptr : nat) (cell : list byte) :
  (ptr + length cell <= length data)%nat ->
  let data' := take ptr data ++ cell ++ drop (ptr + length cell) data in
  length data' = length data /\
  take (ptr + length cell) data' = take ptr data ++ cell /\
  forall n, drop (ptr + length cell + n) data' =
            drop (ptr + length cell + n) data.
Proof.
  intros H data'. subst data'.
  assert (length (take ptr data) = ptr) as Htake
    by (rewrite length_take; lia).
  split; [| split].
  - rewrite !length_app, Htake, length_drop. lia.
  - rewrite app_assoc. apply take_app_length'.
    rewrite length_app, Htake. reflexivity.
  - intros n. rewrite app_assoc.
    rewrite drop_app_ge by (rewrite length_app, Htake; lia).
    rewrite length_app, Htake, drop_drop. f_equal. lia.
Qed.

Lemma scan_channels_cons (mask : Z) (sb i : nat) (bits : list nat)
    (chan : iio_chan_spec) (data : list byte) (ptr : nat) (w w1 : W)
    (r1 : res iio_val) :
  bmp280_iio_channels !! i = Some chan ->
  bmp280_iio_read_from_channel chan w = Done r1 w1 ->
  (ptr + storage_bytes chan <= length data)%nat ->
  scan_channels cpu_big_endian (bmp280_indio_dev mask sb) (i :: bits) data ptr w =
  match r1 with
  | Err _ => Done None (emit (PrErr "Failed to read from channel #%d.") w1)
  | Ok v =>
      let cell := sample_cell cpu_big_endian chan (iio_val_int v) in
      scan_channels cpu_big_endian (bmp280_indio_dev mask sb) bits
        (take ptr data ++ cell ++ drop (ptr + storage_bytes chan) data)
        (ptr + storage_bytes chan) w1
  end.
Proof.
  intros Hchan R Hroom.
  cbn [scan_channels channels bmp280_indio_dev]. rewrite Hchan.
  unfold bind at 1. rewrite R. destruct r1 as [v | e]; [| reflexivity].
  cbv zeta. unfold sample_cell.
  destruct (table_channel_shape i chan Hchan) as [[Hbits Hb] | [Hbits Hb]];
    rewrite Hbits, Hb in *.
  - change (16 =? 16) with true. cbv iota.
    rewrite cpu_bytes_s16, cpu_bytes_u16.
    destruct (Ascii.eqb _ _);
      rewrite store_in_bounds by (rewrite length_cpu_bytes; lia);
      rewrite length_cpu_bytes; reflexivity.
  - change (32 =? 16) with false. change (32 =? 32) with true. cbv iota.
    rewrite cpu_bytes_s32, cpu_bytes_u32.
    destruct (Ascii.eqb _ _);
      rewrite store_in_bounds by (rewrite length_cpu_bytes; lia);
      rewrite length_cpu_bytes; reflexivity.
Qed.

Lemma scan_channels_run (mask : Z) (sb : nat) (bits : list nat) :
  forall (data : list byte) (ptr : nat) (w : W),
    Forall (fun i => (i < 16)%nat) bits ->
    (ptr + sum_list (storage_bytes <$> channels_at bits) <= length data)%nat ->
    exists r w1,
      read_channels (channels_at bits) w = Done r w1 /\
      match r with
      | Ok vals =>
          scan_channels cpu_big_endian (bmp280_indio_dev mask sb) bits data ptr w =
          Done (Some (take ptr data ++
                      concat (zip_with (sample_cell cpu_big_endian)
                                (channels_at bits) vals) ++
                      drop (ptr + sum_list (storage_bytes <$> channels_at bits))
                           data)) w1
      | Err e =>
          exists m,
            scan_channels cpu_big_endian (bmp280_indio_dev mask sb) bits data ptr w =
            Done None (emit (PrErr m) w1)
      end.
Proof.
  induction bits as [|i bits IH]; intros data ptr w Hbits Hroom.
  - exists (Ok []), w. split; [reflexivity |].
    cbn. rewrite Nat.add_0_r, take_drop. reflexivity.
  - apply Forall_cons in Hbits as [Hi Hbits].
    destruct (lookup_lt_is_Some_2 bmp280_iio_channels i Hi) as [chan Hchan].
    assert (channels_at (i :: bits) = chan :: channels_at bits) as Hat.
    { unfold channels_at. cbn [omap list_omap]. rewrite Hchan. reflexivity. }
    rewrite Hat in *. cbn [fmap list_fmap sum_list sum_list_with id] in Hroom |- *.
    destruct (bmp280_iio_read_from_channel_io chan w) as (r1 & w1 & R & _).
    rewrite (scan_channels_cons mask sb i bits chan data ptr w w1 r1 Hchan R)
      by lia.
    cbn [read_channels]. unfold bind at 1. rewrite R.
    destruct r1 as [v | e].
    2: { exists (Err e), w1. split; [reflexivity |]. eexists; reflexivity. }
    cbv zeta. set (cell := sample_cell cpu_big_endian chan (iio_val_int v)).
    assert (length cell = storage_bytes chan) as Hlen
      by apply length_cpu_bytes.
    rewrite <- Hlen in *.
    destruct (stored_shape data ptr cell ltac:(lia)) as (Hlen' & Htake & Hdrop).
    cbv zeta in Hlen', Htake, Hdrop.
    destruct (IH (take ptr data ++ cell ++ drop (ptr + length cell) data)
                (ptr + length cell)%nat w1 Hbits ltac:(lia))
      as (rs & w2 & Rs & Hrest).
    unfold bind. rewrite Rs.
    destruct rs as [vals | e].
    + exists (Ok (iio_val_int v :: vals)), w2. split; [reflexivity |].
      rewrite Hrest, Htake, Hdrop.
      cbn [zip_with concat]. fold cell.
      rewrite <- !app_assoc, Nat.add_assoc. reflexivity.
    + exists (Err e), w2. split; [reflexivity |]. exact Hrest.
Qed.

(** ** The trigger handler *)

Lemma for_each_set_bit_below (mask : Z) (size : nat) :
  Forall (fun i => (i < size)%nat) (for_each_set_bit mask size).
Proof.
  apply Forall_forall. intros i Hi. apply list_elem_of_In in Hi.
  unfold for_each_set_bit in Hi. apply List.filter_In in Hi as [Hi _].
  apply List.in_seq in Hi. lia.
Qed.

Lemma active_channels_table (mask : Z) :
  active_channels bmp280_iio_channels mask =
  channels_at (for_each_set_bit mask 16).
Proof. reflexivity. Qed.

Lemma handler_without_memory (indio_dev : iio_dev) (w : W) :
  kzalloc_ok w = false ->
  exists m,
    bmp280_iio_trigger_handler cpu_big_endian indio_dev w =
    Done IRQ_HANDLED
      (emit TriggerNotifyDone
         (emit (PrErr m) (emit (Kzalloc (scan_bytes indio_dev)) w))).
Proof.
  intros H. unfold bmp280_iio_trigger_handler, bind, kzalloc.
  rewrite H. eexists; reflexivity.
Qed.

Lemma handler_with_memory (indio_dev : iio_dev) (w : W) :
  kzalloc_ok w = true ->
  bmp280_iio_trigger_handler cpu_big_endian indio_dev w =
  match
    scan_channels cpu_big_endian indio_dev
      (for_each_set_bit (active_scan_mask indio_dev) (num_channels indio_dev))
      (replicate (scan_bytes indio_dev) x00) 0
      (emit (Kzalloc (scan_bytes indio_dev)) w)
  with
  | Done (Some data) w1 =>
      let w2 := emit (PushToBuffers data) w1 in
      let w3 :=
        if negb (push_status w1 =? 0)
        then emit (PrErr "Failed to push data to IIO buffers.") w2
        else w2 in
      Done IRQ_HANDLED (emit TriggerNotifyDone (emit Kfree w3))
  | Done None w1 =>
      Done IRQ_HANDLED (emit TriggerNotifyDone (emit Kfree w1))
  | Crash f => Crash f
  end.
Proof.
  intros Hmem. unfold bmp280_iio_trigger_handler. unfold bind at 1.
  unfold kzalloc. rewrite Hmem. unfold bind at 1.
  destruct (scan_channels _ _ _ _ _ _) as [[data |] w1 | f];
    [| reflexivity | reflexivity].
  unfold bind, iio_push_to_buffers, kfree, iio_trigger_notify_done, ret, pr_err.
  cbv zeta. destruct (negb (push_status w1 =? 0)); reflexivity.
Qed.

Lemma handler_run (mask : Z) (sb : nat) (w : W) :
  let w0 := emit (Kzalloc sb) w in
  let active := active_channels bmp280_iio_channels mask in
  kzalloc_ok w = true ->
  (sum_storage_bytes bmp280_iio_channels mask <= sb)%nat ->
  exists r w1,
    read_channels active w0 = Done r w1 /\
    io_step w0 w1 /\
    match r with
    | Ok vals =>
        let data :=
          concat (zip_with (sample_cell cpu_big_endian) active vals) ++
          replicate (sb - sum_storage_bytes bmp280_iio_channels mask) x00 in
        length vals = length active /\
        exists w' log,
          bmp280_iio_trigger_handler cpu_big_endian
            (bmp280_indio_dev mask sb) w = Done IRQ_HANDLED w' /\
          trace w' =
            trace w1 ++
            PushToBuffers data :: log ++ [Kfree; TriggerNotifyDone] /\
          forallb is_io log = true
    | Err e =>
        exists w' m,
          bmp280_iio_trigger_handler cpu_big_endian
            (bmp280_indio_dev mask sb) w = Done IRQ_HANDLED w' /\
          trace w' = trace w1 ++ [PrErr m; Kfree; TriggerNotifyDone]
    end.
Proof.
  intros w0 active Hmem Hroom. subst active.
  unfold sum_storage_bytes in *. rewrite active_channels_table in *.
  set (bits := for_each_set_bit mask 16) in *.
  assert (0 + sum_list (storage_bytes <$> channels_at bits)
          <= length (replicate sb x00))%nat as Hroom0
      by (rewrite length_replicate; lia).
  destruct (scan_channels_run mask sb bits (replicate sb x00) 0%nat w0
              (for_each_set_bit_below mask 16) Hroom0)
    as (r & w1 & R & Hscan).
  destruct (read_channels_io (channels_at bits) w0)
    as (r' & w1' & R' & Hio & Hlen).
  rewrite R in R'. injection R' as <- <-.
  exists r, w1. split; [exact R |]. split; [exact Hio |].
  rewrite (handler_with_memory (bmp280_indio_dev mask sb) w Hmem).
  change (num_channels (bmp280_indio_dev mask sb)) with 16%nat.
  change (active_scan_mask (bmp280_indio_dev mask sb)) with mask.
  change (scan_bytes (bmp280_indio_dev mask sb)) with sb.
  fold bits. fold w0.
  destruct r as [vals | e].
  - rewrite Hscan. cbv zeta. split; [apply Hlen; reflexivity |].
    rewrite take_0, Nat.add_0_l, drop_replicate. cbn [app].
    set (data := concat _ ++ replicate _ _).
    destruct (negb (push_status w1 =? 0)).
    + eexists. exists [PrErr "Failed to push data to IIO buffers."].
      split; [reflexivity |]. split; [| reflexivity].
      cbn [trace emit]. rewrite <- !app_assoc. reflexivity.
    + eexists. exists []. split; [reflexivity |]. split; [| reflexivity].
      cbn [trace emit]. rewrite <- !app_assoc. reflexivity.
  - destruct Hscan as [m Hscan]. rewrite Hscan.
    eexists. exists m. split; [reflexivity |].
    cbn [trace emit]. rewrite <- !app_assoc. reflexivity.
Qed.

(** ** What a trace shows of a trigger *)

Lemma pushed_buffers_app (a b : list event) :
  pushed_buffers (a ++ b) = pushed_buffers a ++ pushed_buffers b.
Proof. apply omap_app. Qed.

Lemma logged_errors_app (a b : list event) :
  logged_errors (a ++ b) = logged_errors a ++ logged_errors b.
Proof. apply omap_app. Qed.

Lemma notifications_app (a b : list event) :
  notifications (a ++ b) = (notifications a + notifications b)%nat.
Proof. unfold notifications. rewrite List.filter_app, length_app. reflexivity. Qed.

Lemma io_only_silent (evs : list event) :
  forallb is_io evs = true ->
  pushed_buffers evs = [] /\ notifications evs = 0%nat.
Proof.
  induction evs as [|e evs IH]; [split; reflexivity |].
  cbn [forallb]. intros H. apply andb_prop in H as [He Hevs].
  destruct (IH Hevs) as [IHp IHn].
  change (e :: evs) with ([e] ++ evs).
  rewrite pushed_buffers_app, notifications_app, IHp, IHn.
  destruct e; try discriminate He; split; reflexivity.
Qed.

Lemma for_each_set_bit_sorted (mask : Z) (size : nat) :
  StronglySorted lt (for_each_set_bit mask size).
Proof.
  unfold for_each_set_bit. generalize 0%nat as a.
  induction size as [|n IH]; intros a; cbn [seq List.filter]; [constructor |].
  destruct (Z.testbit mask (Z.of_nat a)); [| apply IH].
  constructor; [apply IH |].
  apply Forall_forall. intros i Hi. apply list_elem_of_In in Hi.
  apply List.filter_In in Hi as [Hi _]. apply List.in_seq in Hi. lia.
Qed.

Lemma table_scan_index (i : nat) (chan : iio_chan_spec) :
  bmp280_iio_channels !! i = Some chan -> scan_index chan = Z.of_nat i.
Proof.
  do 16 (destruct i as [|i]; [intros [= <-]; reflexivity |]). discriminate.
Qed.

Lemma channels_at_positions (bits : list nat) :
  Forall (fun i => (i < 16)%nat) bits ->
  map scan_index (channels_at bits) = map Z.of_nat bits /\
  Forall (fun chan => storage_bytes chan = 2%nat \/ storage_bytes chan = 4%nat)
         (channels_at bits) /\
  Forall (fun chan =>
            Z.of_nat (storage_bytes chan) * 8 = storagebits (scan_type chan))
         (channels_at bits).
Proof.
  induction bits as [|i bits IH]; intros H.
  - repeat split; constructor.
  - apply Forall_cons in H as [Hi H]. destruct (IH H) as (IH1 & IH2 & IH3).
    destruct (lookup_lt_is_Some_2 bmp280_iio_channels i Hi) as [chan Hchan].
    assert (channels_at (i :: bits) = chan :: channels_at bits) as ->.
    { unfold channels_at. cbn [omap list_omap]. rewrite Hchan. reflexivity. }
    cbn [map]. rewrite IH1, (table_scan_index i chan Hchan).
    split; [reflexivity |].
    destruct (table_channel_shape i chan Hchan) as [[Hs Hb] | [Hs Hb]];
      split; constructor; auto; rewrite Hs, Hb; reflexivity.
Qed.

Lemma sample_cells_shape (chans : list iio_chan_spec) :
  forall vals : list Z,
    length vals = length chans ->
    Forall2 (fun chan cell => length cell = storage_bytes chan) chans
            (zip_with (sample_cell cpu_big_endian) chans vals) /\
    length (concat (zip_with (sample_cell cpu_big_endian) chans vals)) =
      sum_list (storage_bytes <$> chans).
Proof.
  induction chans as [|chan chans IH]; intros [|v vals] Hlen;
    try discriminate Hlen.
  - split; [constructor | reflexivity].
  - injection Hlen as Hlen. destruct (IH vals Hlen) as [IH1 IH2].
    cbn [zip_with concat fmap list_fmap sum_list sum_list_with id].
    split.
    + constructor; [apply length_cpu_bytes | exact IH1].
    + rewrite length_app, IH2. unfold sample_cell at 1.
      rewrite length_cpu_bytes. reflexivity.
Qed.

(** ** Initialization and setup *)

Lemma bus_accesses_app (a b : list event) :
  bus_accesses (a ++ b) = bus_accesses a ++ bus_accesses b.
Proof. apply List.filter_app. Qed.

Lemma initialize_bmp280_run (w : W) :
  let r := fst (bus_read_byte (client_of w) BMP280_ID_REG) in
  let c := snd (bus_read_byte (client_of w) BMP280_ID_REG) in
  let w1 := emit (BusReadByte BMP280_ID_REG) (set_client c w) in
  let c1 := snd (bus_write_byte c BMP280_CONFIG_REG_ADDRESS 0xa0) in
  let w2 := emit (BusWriteByte BMP280_CONFIG_REG_ADDRESS 0xa0)
                 (set_client c1 w1) in
  let c2 := snd (bus_write_byte c1 BMP280_CTRL_MEAS_REG_ADDRESS 0xb7) in
  let w3 := emit (BusWriteByte BMP280_CTRL_MEAS_REG_ADDRESS 0xb7)
                 (set_client c2 w2) in
  if to_u8 r =? BMP280_ID
  then initialize_bmp280 w = Done (Ok tt) w3
  else exists m, initialize_bmp280 w = Done (Err ENODEV) (emit (PrErr m) w1).
Proof.
  cbv zeta. unfold initialize_bmp280, bind, i2c_smbus_read_byte_data.
  destruct (bus_read_byte (client_of w) BMP280_ID_REG) as [r c]. cbn [fst snd].
  destruct (to_u8 r =? BMP280_ID); cbn [negb]; [| eexists; reflexivity].
  cbv zeta. unfold i2c_smbus_write_byte_data.
  change (to_u8 (Z.lor (Z.lor (Z.shiftl 5 5) (Z.shiftl 0 2)) 0)) with 0xa0.
  change (to_u8 (Z.lor (Z.lor (Z.shiftl 5 5) (Z.shiftl 5 2)) 3)) with 0xb7.
  cbn [client_of set_client emit].
  destruct (bus_write_byte c BMP280_CONFIG_REG_ADDRESS 160) as [r1 c1].
  cbn [fst snd client_of set_client emit].
  destruct (bus_write_byte c1 BMP280_CTRL_MEAS_REG_ADDRESS 183) as [r2 c2].
  reflexivity.
Qed.

(** ** Failure and success of the calibration load *)

Lemma calibration_first_read_fails (w : W) :
  block_status
    (block_reply_of w BMP280_TEMP_CALIBRATION_BASE_REG_ADDRESS 6) <> 6 ->
  exists m,
    read_bmp280_calibration_values cpu_big_endian w =
    Done (Err EIO)
      (emit (PrErr m)
         (after_block_read w BMP280_TEMP_CALIBRATION_BASE_REG_ADDRESS 6)).
Proof.
  intros H. apply Z.eqb_neq in H.
  unfold read_bmp280_calibration_values, bind.
  change (3 * 2) with 6. rewrite block_read_run.
  cbv beta iota. rewrite H. eexists; reflexivity.
Qed.

Lemma calibration_second_read_fails (w : W) :
  let w1 := after_block_read w BMP280_TEMP_CALIBRATION_BASE_REG_ADDRESS 6 in
  block_status
    (block_reply_of w BMP280_TEMP_CALIBRATION_BASE_REG_ADDRESS 6) = 6 ->
  block_status
    (block_reply_of w1 BMP280_PRESS_CALIBRATION_BASE_REG_ADDRESS 18) <> 18 ->
  exists m,
    read_bmp280_calibration_values cpu_big_endian w =
    Done (Err EIO)
      (emit (PrErr m)
         (after_block_read w1 BMP280_PRESS_CALIBRATION_BASE_REG_ADDRESS 18)).
Proof.
  intros w1 H1 H2. apply Z.eqb_eq in H1. apply Z.eqb_neq in H2.
  unfold read_bmp280_calibration_values, bind.
  change (3 * 2) with 6. change (9 * 2) with 18. rewrite block_read_run.
  cbv beta iota. rewrite H1. cbn [negb]. rewrite block_read_run.
  cbv beta iota. fold w1. rewrite H2. eexists; reflexivity.
Qed.

Lemma block_status_bytes (reply : block_reply) (n : nat) :
  block_status reply = Z.of_nat n ->
  exists bs, reply = BlockBytes bs /\ length bs = n.
Proof.
  destruct reply as [bs | e]; cbn [block_status]; intros H.
  - exists bs. split; [reflexivity | lia].
  - lia.
Qed.

Lemma calibration_success_inv (w w' : W) :
  let w1 := after_block_read w BMP280_TEMP_CALIBRATION_BASE_REG_ADDRESS 6 in
  read_bmp280_calibration_values cpu_big_endian w = Done (Ok tt) w' ->
  exists tb pb,
    block_reply_of w BMP280_TEMP_CALIBRATION_BASE_REG_ADDRESS 6 =
      BlockBytes tb /\ length tb = 6%nat /\
    block_reply_of w1 BMP280_PRESS_CALIBRATION_BASE_REG_ADDRESS 18 =
      BlockBytes pb /\ length pb = 18%nat.
Proof.
  intros w1 Hok.
  destruct (Z.eq_dec
              (block_status
                 (block_reply_of w BMP280_TEMP_CALIBRATION_BASE_REG_ADDRESS 6))
              6) as [E1 | N1].
  2: { destruct (calibration_first_read_fails w N1) as [m R].
       rewrite R in Hok. discriminate Hok. }
  destruct (Z.eq_dec
              (block_status
                 (block_reply_of w1 BMP280_PRESS_CALIBRATION_BASE_REG_ADDRESS 18))
              18) as [E2 | N2].
  2: { destruct (calibration_second_read_fails w E1 N2) as [m R].
       rewrite R in Hok. discriminate Hok. }
  destruct (block_status_bytes _ 6 E1) as (tb & Et & Ht).
  destruct (block_status_bytes _ 18 E2) as (pb & Ep & Hp).
  exists tb, pb. auto.
Qed.

Lemma parsed_calibration_range (i : nat) (v : Z) :
  0 <= v < 65536 ->
  if (i =? 1)%nat then 0 <= parsed_calibration i v <= 65535
  else - 32768 <= parsed_calibration i v <= 32767.
Proof.
  intros Hv. unfold parsed_calibration.
  destruct (i =? 1)%nat; [lia |].
  destruct (Z.leb_spec v 32767); lia.
Qed.

Lemma calibration_loaded_after (w w' : W) :
  length (dig_T (priv w)) = 4%nat ->
  length (dig_P (priv w)) = 10%nat ->
  read_bmp280_calibration_values cpu_big_endian w = Done (Ok tt) w' ->
  length (dig_T (priv w')) = 4%nat /\
  length (dig_P (priv w')) = 10%nat /\
  dig_T (priv w') !!! 0%nat = 0 /\
  dig_P (priv w') !!! 0%nat = 0 /\
  temperature_calibration_loaded (priv w') /\
  pressure_calibration_loaded (priv w') /\
  bus_accesses (trace w') =
    bus_accesses (trace w) ++
    [BusReadBlock BMP280_TEMP_CALIBRATION_BASE_REG_ADDRESS 6;
     BusReadBlock BMP280_PRESS_CALIBRATION_BASE_REG_ADDRESS 18].
Proof.
  intros HT HP Hok.
  destruct (calibration_success_inv w w' Hok) as (tb & pb & Et & Ht & Ep & Hp).
  rewrite (read_bmp280_calibration_values_run w tb pb HT HP Et Ht Ep Hp) in Hok.
  injection Hok as <-. cbn [priv set_priv dig_T dig_P].
  pose proof (fun i => parsed_calibration_range i _
                         (load_u16_range tb (i - 1))) as RT.
  pose proof (fun i => parsed_calibration_range i _
                         (load_u16_range pb (i - 1))) as RP.
  repeat split; try reflexivity.
  - apply (RT 1%nat).
  - apply (RT 1%nat).
  - apply (RT 2%nat).
  - apply (RT 2%nat).
  - apply (RT 3%nat).
  - apply (RT 3%nat).
  - apply (RP 1%nat).
  - apply (RP 1%nat).
  - destruct i as [|[|[|[|[|[|[|[|[|[|i]]]]]]]]]]; try lia;
      cbn [lookup_total list_lookup_total];
      first [apply (RP 2%nat) | apply (RP 3%nat) | apply (RP 4%nat)
            | apply (RP 5%nat) | apply (RP 6%nat) | apply (RP 7%nat)
            | apply (RP 8%nat) | apply (RP 9%nat)].
  - destruct i as [|[|[|[|[|[|[|[|[|[|i]]]]]]]]]]; try lia;
      cbn [lookup_total list_lookup_total];
      first [apply (RP 2%nat) | apply (RP 3%nat) | apply (RP 4%nat)
            | apply (RP 5%nat) | apply (RP 6%nat) | apply (RP 7%nat)
            | apply (RP 8%nat) | apply (RP 9%nat)].
  - cbn [trace emit set_client set_priv after_block_read].
    rewrite !bus_accesses_app, <- !app_assoc. reflexivity.
Qed.

(** ** Values of the processed reads *)

Lemma read_bmp280_processed_pressure_value (w : W) (p1 p2 p3 t1 t2 t3 : byte) :
  block_reply_of w BMP280_PRESS_RAW_REG_ADDRESS 6 =
    BlockBytes [p1; p2; p3; t1; t2; t3] ->
  read_bmp280_processed_pressure w =
  Done (Ok (pressure_of (Z.shiftr (register_triple p1 p2 p3) 4)
                        (Z.shiftr (register_triple t1 t2 t3) 4) (priv w)))
       (after_block_read w BMP280_PRESS_RAW_REG_ADDRESS 6).
Proof.
  intros E. unfold read_bmp280_processed_pressure, bind.
  rewrite block_read_run, E.
  cbn [block_status block_fill length Z.of_nat].
  change (Z.of_nat 6 =? 6) with true. cbn [negb]. cbv beta.
  unfold get_priv.
  change (priv (after_block_read w BMP280_PRESS_RAW_REG_ADDRESS 6))
    with (priv w).
  cbn [replicate length take drop app lookup_total list_lookup_total].
  unfold shr32, pressure_of.
  set (raw_temp := Z.shiftr (register_triple t1 t2 t3) 4).
  set (raw_press := Z.shiftr (register_triple p1 p2 p3) 4).
  cbv zeta. unfold div64.
  destruct (pressure_var1 raw_temp (priv w) =? 0); reflexivity.
Qed.

Lemma read_bmp280_processed_temperature_value (w : W) (b0 b1 b2 : byte) :
  block_reply_of w BMP280_TEMP_RAW_REG_ADDRESS 3 = BlockBytes [b0; b1; b2] ->
  read_bmp280_processed_temperature w =
  Done (Ok (temperature_of (Z.shiftr (register_triple b0 b1 b2) 4) (priv w)))
       (after_block_read w BMP280_TEMP_RAW_REG_ADDRESS 3).
Proof.
  intros E. pose proof (read_bmp280_processed_temperature_run w) as R.
  cbv zeta in R. rewrite E in R. exact R.
Qed.

Lemma register_triple_shifted (b0 b1 b2 b2' : byte) :
  byte_val b2 / 16 = byte_val b2' / 16 ->
  Z.shiftr (register_triple b0 b1 b2) 4 = Z.shiftr (register_triple b0 b1 b2') 4.
Proof.
  intros H. rewrite !register_triple_plain.
  apply Z.bits_inj'. intros n Hn.
  rewrite !Z.shiftr_spec, !Z.lor_spec by lia. f_equal.
  change 16 with (2 ^ 4) in H. rewrite <- !Z.shiftr_div_pow2 in H by lia.
  apply (f_equal (fun x => Z.testbit x n)) in H.
  rewrite !Z.shiftr_spec in H by lia. exact H.
Qed.

Lemma pressure_var1_without_P1 (raw_temp : Z) (bmp280 : bmp280_ctx) :
  dig_P bmp280 !!! 1%nat = 0 -> pressure_var1 raw_temp bmp280 = 0.
Proof.
  intros H. unfold pressure_var1. cbv zeta. rewrite H.
  unfold mul64 at 1. rewrite Z.mul_0_r. reflexivity.
Qed.

(** ** Outcomes of the reads and of the resolver *)

Lemma read_bmp280_raw_temperature_eio (w : W) :
  exists r w',
    read_bmp280_raw_temperature w = Done r w' /\
    (r = Err EIO \/ exists v, r = Ok v).
Proof.
  pose proof (read_bmp280_raw_temperature_run w) as R. cbv zeta in R.
  destruct (block_reply_of w BMP280_TEMP_RAW_REG_ADDRESS 3)
    as [[|v1 [|v2 [|v3 [|v4 bs]]]] | e];
    open_run R; rewrite R; do 2 eexists; (split; [reflexivity |]); eauto.
Qed.

Lemma read_bmp280_raw_pressure_eio (w : W) :
  exists r w',
    read_bmp280_raw_pressure w = Done r w' /\
    (r = Err EIO \/ exists v, r = Ok v).
Proof.
  pose proof (read_bmp280_raw_pressure_run w) as R. cbv zeta in R.
  destruct (block_reply_of w BMP280_PRESS_RAW_REG_ADDRESS 3)
    as [[|v1 [|v2 [|v3 [|v4 bs]]]] | e];
    open_run R; rewrite R; do 2 eexists; (split; [reflexivity |]); eauto.
Qed.

Lemma read_bmp280_processed_temperature_eio (w : W) :
  exists r w',
    read_bmp280_processed_temperature w = Done r w' /\
    (r = Err EIO \/ exists v, r = Ok v).
Proof.
  pose proof (read_bmp280_processed_temperature_run w) as R. cbv zeta in R.
  destruct (block_reply_of w BMP280_TEMP_RAW_REG_ADDRESS 3)
    as [[|v1 [|v2 [|v3 [|v4 bs]]]] | e];
    open_run R; rewrite R; do 2 eexists; (split; [reflexivity |]); eauto.
Qed.

Lemma read_bmp280_processed_pressure_eio (w : W) :
  exists r w',
    read_bmp280_processed_pressure w = Done r w' /\
    (r = Err EIO \/ exists v, r = Ok v).
Proof.
  pose proof (read_bmp280_processed_pressure_run w) as R. cbv zeta in R.
  destruct (block_reply_of w BMP280_PRESS_RAW_REG_ADDRESS 6)
    as [[|p1 [|p2 [|p3 [|t1 [|t2 [|t3 [|x bs]]]]]]] | e];
    try (destruct R as [m R]; rewrite R; do 2 eexists;
         split; [reflexivity | left; reflexivity]).
  destruct R as (press & R & _). rewrite R. do 2 eexists.
  split; [reflexivity | right; eauto].
Qed.

Ltac resolve_kind L :=
  unfold bind;
  let r := fresh "r" in
  let w' := fresh "w'" in
  let R := fresh "R" in
  let v := fresh "v" in
  destruct L as (r & w' & R & [-> | [v ->]]); rewrite R;
  do 2 eexists; (split; [reflexivity |]).

(** ** The driver never reads the trace *)

Lemma blind_ret {A} (a : A) : trace_blind (ret a : M W A).
Proof.
  intros w t. cbn. exists []. rewrite !app_nil_r. split; reflexivity.
Qed.

Lemma blind_bind {A B} (c : M W A) (k : A -> M W B) :
  trace_blind c -> (forall a, trace_blind (k a)) -> trace_blind (bind c k).
Proof.
  intros Hc Hk w t. unfold bind. specialize (Hc w t).
  destruct (c w) as [a w' | f].
  - destruct Hc as (evs & Ht & Hc). rewrite Hc.
    specialize (Hk a w' (t ++ evs)).
    destruct (k a w') as [b w'' | f]; [| exact Hk].
    destruct Hk as (evs' & Ht' & Hk). exists (evs ++ evs').
    rewrite Ht', Ht, Hk, !app_assoc. split; reflexivity.
  - rewrite Hc. reflexivity.
Qed.

Lemma blind_get_priv : trace_blind (get_priv : M W bmp280_ctx).
Proof.
  intros w t. cbn. exists []. rewrite !app_nil_r. split; reflexivity.
Qed.

Lemma blind_pr_err m : trace_blind (pr_err m : M W unit).
Proof. intros w t. cbn. exists [PrErr m]. split; reflexivity. Qed.

Lemma blind_block_read reg len values :
  trace_blind (i2c_smbus_read_i2c_block_data reg len values : M W _).
Proof.
  intros w t. unfold i2c_smbus_read_i2c_block_data. cbn [client_of with_trace].
  destruct (bus_read_block (client_of w) reg len) as [reply c].
  exists [BusReadBlock reg len]. split; reflexivity.
Qed.

Ltac blind :=
  repeat first
    [ apply blind_ret
    | apply blind_get_priv
    | apply blind_pr_err
    | apply blind_block_read
    | assumption
    | apply blind_bind; [| intros ?]
    | match goal with
      | |- trace_blind (match ?x with _ => _ end) => destruct x
      end ].

Lemma blind_raw_temperature : trace_blind (read_bmp280_raw_temperature : M W _).
Proof. unfold read_bmp280_raw_temperature. blind. Qed.

Lemma blind_raw_pressure : trace_blind (read_bmp280_raw_pressure : M W _).
Proof. unfold read_bmp280_raw_pressure. blind. Qed.

Lemma blind_processed_temperature :
  trace_blind (read_bmp280_processed_temperature : M W _).
Proof.
  pose proof blind_raw_temperature.
  unfold read_bmp280_processed_temperature. blind.
Qed.

Lemma blind_crash {A} f : trace_blind (crash f : M W A).
Proof. intros w t. reflexivity. Qed.

Lemma blind_processed_pressure :
  trace_blind (read_bmp280_processed_pressure : M W _).
Proof.
  unfold read_bmp280_processed_pressure. blind. apply blind_crash.
Qed.

Lemma blind_resolver (chan : iio_chan_spec) :
  trace_blind (bmp280_iio_read_from_channel chan : M W _).
Proof.
  pose proof blind_raw_temperature. pose proof blind_raw_pressure.
  pose proof blind_processed_temperature.
  pose proof blind_processed_pressure.
  unfold bmp280_iio_read_from_channel.
  destruct (type chan); blind.
Qed.

Lemma resolver_after_emit (chan : iio_chan_spec) (e : event) (w w1 : W)
    (r : res iio_val) :
  bmp280_iio_read_from_channel chan w = Done r w1 ->
  exists w1', bmp280_iio_read_from_channel chan (emit e w) = Done r w1'.
Proof.
  intros R. pose proof (blind_resolver chan w (trace w ++ [e])) as H.
  rewrite R in H. destruct H as (evs & _ & H).
  eexists. exact H.
Qed.

(** ** More on the trigger handler *)

Lemma for_each_set_bit_single (i : nat) :
  (i < 16)%nat -> for_each_set_bit (BIT (Z.of_nat i)) 16 = [i].
Proof.
  intros Hi. do 16 (destruct i as [|i]; [reflexivity |]). lia.
Qed.

Lemma for_each_set_bit_none (mask : Z) (size : nat) :
  Z.land mask (Z.ones (Z.of_nat size)) = 0 -> for_each_set_bit mask size = [].
Proof.
  intros H. unfold for_each_set_bit.
  assert (forall i, In i (seq 0 size) -> Z.testbit mask (Z.of_nat i) = false)
    as Hbits.
  { intros i Hi. apply List.in_seq in Hi.
    apply (f_equal (fun x => Z.testbit x (Z.of_nat i))) in H.
    rewrite Z.land_spec, Z.testbit_ones_nonneg, Z.bits_0 in H by lia.
    destruct (Z.ltb_spec (Z.of_nat i) (Z.of_nat size)); [| lia].
    rewrite andb_true_r in H. exact H. }
  induction (seq 0 size) as [|a l IH]; [reflexivity |].
  cbn [List.filter]. rewrite (Hbits a) by (left; reflexivity).
  apply IH. intros i Hi. apply Hbits. right. exact Hi.
Qed.

Lemma io_only_no_memory (evs : list event) :
  forallb is_io evs = true -> allocations evs = 0%nat /\ frees evs = 0%nat.
Proof.
  induction evs as [|e evs IH]; [split; reflexivity |].
  cbn [forallb]. intros H. apply andb_prop in H as [He Hevs].
  destruct (IH Hevs) as [IHa IHf].
  unfold allocations, frees in *. cbn [List.filter].
  destruct e; try discriminate He; split; assumption.
Qed.

Lemma allocations_app (a b : list event) :
  allocations (a ++ b) = (allocations a + allocations b)%nat.
Proof. unfold allocations. rewrite List.filter_app, length_app. reflexivity. Qed.

Lemma frees_app (a b : list event) :
  frees (a ++ b) = (frees a + frees b)%nat.
Proof. unfold frees. rewrite List.filter_app, length_app. reflexivity. Qed.

Lemma scan_channels_frame (mask : Z) (sb : nat) (bits : list nat)
    (data : list byte) (ptr : nat) (w : W) :
  Forall (fun i => (i < 16)%nat) bits ->
  (ptr + sum_list (storage_bytes <$> channels_at bits) <= length data)%nat ->
  exists filled w1,
    scan_channels cpu_big_endian (bmp280_indio_dev mask sb) bits data ptr w =
      Done filled w1 /\
    io_step w w1.
Proof.
  intros Hbits Hroom.
  destruct (scan_channels_run mask sb bits data ptr w Hbits Hroom)
    as (r & w1 & R & Hscan).
  destruct (read_channels_io (channels_at bits) w) as (r' & w1' & R' & Hio & _).
  rewrite R in R'. injection R' as <- <-.
  destruct r as [vals | e].
  - do 2 eexists. split; [exact Hscan | exact Hio].
  - destruct Hscan as [m Hscan]. do 2 eexists. split; [exact Hscan |].
    eapply io_step_trans; [exact Hio | apply io_step_emit; reflexivity].
Qed.

Lemma scan_channels_cons_overflow (mask : Z) (sb i : nat) (bits : list nat)
    (chan : iio_chan_spec) (data : list byte) (ptr : nat) (w w1 : W)
    (v : iio_val) :
  bmp280_iio_channels !! i = Some chan ->
  bmp280_iio_read_from_channel chan w = Done (Ok v) w1 ->
  (length data < ptr + storage_bytes chan)%nat ->
  scan_channels cpu_big_endian (bmp280_indio_dev mask sb) (i :: bits) data ptr w =
  Crash OutOfBounds.
Proof.
  intros Hchan R Hroom.
  cbn [scan_channels channels bmp280_indio_dev]. rewrite Hchan.
  unfold bind at 1. rewrite R.
  assert (forall cell, length cell = storage_bytes chan ->
                       store data ptr cell = None) as Hstore.
  { intros cell Hlen. unfold store. rewrite Hlen.
    destruct (Nat.leb_spec (ptr + storage_bytes chan) (length data));
      [lia | reflexivity]. }
  destruct (table_channel_shape i chan Hchan) as [[Hbits Hb] | [Hbits Hb]];
    rewrite Hbits.
  - change (16 =? 16) with true. cbv iota.
    destruct (Ascii.eqb _ _);
      rewrite Hstore by (rewrite length_cpu_bytes; congruence); reflexivity.
  - change (32 =? 16) with false. change (32 =? 32) with true. cbv iota.
    destruct (Ascii.eqb _ _);
      rewrite Hstore by (rewrite length_cpu_bytes; congruence); reflexivity.
Qed.

Lemma scan_channels_overflow (mask : Z) (sb : nat) (bits : list nat) :
  forall (data : list byte) (ptr : nat) (w w1 : W) (vals : list Z),
    Forall (fun i => (i < 16)%nat) bits ->
    read_channels (channels_at bits) w = Done (Ok vals) w1 ->
    (ptr <= length data)%nat ->
    (length data < ptr + sum_list (storage_bytes <$> channels_at bits))%nat ->
    scan_channels cpu_big_endian (bmp280_indio_dev mask sb) bits data ptr w =
    Crash OutOfBounds.
Proof.
  induction bits as [|i bits IH];
    intros data ptr w w1 vals Hbits Hread Hptr Hroom.
  - cbn in Hroom. lia.
  - apply Forall_cons in Hbits as [Hi Hbits].
    destruct (lookup_lt_is_Some_2 bmp280_iio_channels i Hi) as [chan Hchan].
    assert (channels_at (i :: bits) = chan :: channels_at bits) as Hat.
    { unfold channels_at. cbn [omap list_omap]. rewrite Hchan. reflexivity. }
    rewrite Hat in *. cbn [fmap list_fmap sum_list sum_list_with id] in Hroom.
    cbn [read_channels] in Hread. unfold bind at 1 in Hread.
    destruct (bmp280_iio_read_from_channel chan w) as [[v | e] w2 | f] eqn:R;
      try discriminate Hread.
    unfold bind in Hread.
    destruct (read_channels (channels_at bits) w2) as [[vs | e] w3 | f] eqn:Rs;
      try discriminate Hread.
    destruct (Nat.le_gt_cases (ptr + storage_bytes chan) (length data))
      as [Hfit | Hover].
    + rewrite (scan_channels_cons mask sb i bits chan data ptr w w2 (Ok v)
                 Hchan R Hfit).
      cbv zeta. eapply IH; [exact Hbits | exact Rs | |];
        rewrite !length_app, length_take, length_drop;
        unfold sample_cell; rewrite length_cpu_bytes; lia.
    + apply (scan_channels_cons_overflow mask sb i bits chan data ptr w w2 v
               Hchan R Hover).
Qed.

(** ** Setup, registration and probe *)

Lemma setup_success_inv (w w' : W) :
  setup_bmp280 cpu_big_endian w = Done (Ok tt) w' ->
  exists w1,
    initialize_bmp280 w = Done (Ok tt) w1 /\
    read_bmp280_calibration_values cpu_big_endian w1 = Done (Ok tt) w'.
Proof.
  unfold setup_bmp280, bind. intros H.
  destruct (initialize_bmp280 w) as [[[] | e] w1 | f] eqn:Hinit;
    try discriminate H.
  destruct (read_bmp280_calibration_values cpu_big_endian w1)
    as [[[] | e] w2 | f] eqn:Hcal; try discriminate H.
  injection H as <-. exists w1. split; [reflexivity | exact Hcal].
Qed.

Lemma initialize_success_inv (w w1 : W) :
  initialize_bmp280 w = Done (Ok tt) w1 ->
  priv w1 = priv w /\
  bus_accesses (trace w1) =
    bus_accesses (trace w) ++
    [BusReadByte BMP280_ID_REG;
     BusWriteByte BMP280_CONFIG_REG_ADDRESS 0xa0;
     BusWriteByte BMP280_CTRL_MEAS_REG_ADDRESS 0xb7].
Proof.
  intros H. pose proof (initialize_bmp280_run w) as R. cbv zeta in R.
  destruct (to_u8 _ =? BMP280_ID).
  - rewrite R in H. injection H as <-. split; [reflexivity |].
    cbn [trace emit set_client]. rewrite !bus_accesses_app, <- !app_assoc.
    reflexivity.
  - destruct R as [m R]. rewrite R in H. discriminate H.
Qed.

Lemma status_of_zero {A} (r : res A) : status_of r = 0 -> exists a, r = Ok a.
Proof.
  destruct r as [a | e]; [eauto |]. destruct e; cbn; lia.
Qed.

Lemma register_success_inv (env : iio_core_replies) (w w' : W) :
  register_bmp280_iio_device cpu_big_endian env w = Done 0 w' ->
  device_alloc_ok env = true /\
  triggered_buffer_setup_status env = 0 /\
  device_register_status env = 0 /\
  setup_bmp280 cpu_big_endian (set_priv zeroed_ctx w) = Done (Ok tt) w'.
Proof.
  unfold register_bmp280_iio_device. intros H.
  destruct (device_alloc_ok env); cbn [negb] in H;
    [| cbn in H; discriminate H].
  unfold bind at 1 in H. unfold put_priv in H. unfold bind at 1 in H.
  destruct (setup_bmp280 cpu_big_endian (set_priv zeroed_ctx w))
    as [r w1 | f]; [| discriminate H].
  destruct (Z.eqb_spec (status_of r) 0) as [E | N]; cbn [negb] in H.
  2: { cbn in H. injection H as H _. contradiction. }
  destruct (status_of_zero r E) as [[] ->].
  destruct (Z.eqb_spec (triggered_buffer_setup_status env) 0) as [E1 | N1];
    cbn [negb] in H.
  2: { cbn in H. injection H as H _. contradiction. }
  destruct (Z.eqb_spec (device_register_status env) 0) as [E2 | N2];
    cbn [negb] in H.
  2: { cbn in H. injection H as H _. contradiction. }
  cbn in H. injection H as <-. auto.
Qed.

(** ** Bus traffic of the resolver and of a trigger *)

Lemma processed_temperature_bus (w : W) :
  exists r w',
    read_bmp280_processed_temperature w = Done r w' /\
    bus_accesses (trace w') =
      bus_accesses (trace w) ++ [BusReadBlock BMP280_TEMP_RAW_REG_ADDRESS 3].
Proof.
  pose proof (read_bmp280_processed_temperature_run w) as R. cbv zeta in R.
  destruct (block_reply_of w BMP280_TEMP_RAW_REG_ADDRESS 3)
    as [[|v1 [|v2 [|v3 [|v4 bs]]]] | e];
    open_run R; rewrite R; do 2 eexists; (split; [reflexivity |]);
    cbn [trace emit set_client after_block_read];
    rewrite !bus_accesses_app, <- ?app_assoc;
    cbn [bus_accesses List.filter is_bus_access app];
    rewrite ?app_nil_r; reflexivity.
Qed.

Lemma processed_pressure_bus (w : W) :
  exists r w',
    read_bmp280_processed_pressure w = Done r w' /\
    bus_accesses (trace w') =
      bus_accesses (trace w) ++ [BusReadBlock BMP280_PRESS_RAW_REG_ADDRESS 6].
Proof.
  pose proof (read_bmp280_processed_pressure_run w) as R. cbv zeta in R.
  destruct (block_reply_of w BMP280_PRESS_RAW_REG_ADDRESS 6)
    as [[|p1 [|p2 [|p3 [|t1 [|t2 [|t3 [|x bs]]]]]]] | e];
    try (destruct R as [m R]; rewrite R; do 2 eexists;
         (split; [reflexivity |]);
         cbn [trace emit set_client after_block_read];
         rewrite !bus_accesses_app, <- ?app_assoc;
         cbn [bus_accesses List.filter is_bus_access app];
         rewrite ?app_nil_r; reflexivity).
  destruct R as (press & R & _). rewrite R. do 2 eexists.
  split; [reflexivity |].
  cbn [trace emit set_client after_block_read].
  rewrite !bus_accesses_app. reflexivity.
Qed.

Ltac resolve_bus L :=
  unfold bind;
  let r := fresh "r" in
  let w' := fresh "w'" in
  let R := fresh "R" in
  let Hb := fresh "Hb" in
  destruct L as (r & w' & R & Hb); rewrite R;
  destruct r; do 2 eexists; (split; [reflexivity | exact Hb]).

Lemma resolver_bus_access (i : nat) (chan : iio_chan_spec) (w : W) :
  bmp280_iio_channels !! i = Some chan ->
  exists r w',
    bmp280_iio_read_from_channel chan w = Done r w' /\
    bus_accesses (trace w') =
      bus_accesses (trace w) ++ expected_bus_access chan.
Proof.
  do 16 (destruct i as [|i];
         [intros [= <-];
          first
            [ do 2 eexists; split; [reflexivity |];
              cbn [expected_bus_access]; rewrite app_nil_r; reflexivity
            | change (bmp280_iio_read_from_channel _ w) with
                ((status <- read_bmp280_processed_temperature ;;
                  match status with
                  | Err e => ret (Err e)
                  | Ok temp => ret (Ok (IIO_VAL_FRACTIONAL temp 100))
                  end) w);
              resolve_bus (processed_temperature_bus w)
            | change (bmp280_iio_read_from_channel _ w) with
                ((status <- read_bmp280_processed_pressure ;;
                  match status with
                  | Err e => ret (Err e)
                  | Ok press => ret (Ok (IIO_VAL_FRACTIONAL (to_s32 press) 256))
                  end) w);
              resolve_bus (processed_pressure_bus w)
            | match goal with
              | |- context [bmp280_iio_read_from_channel ?c w] =>
                  destruct (resolve_raw_channel c w)
                    as (r & w' & R & _ & Hb & _);
                  [cbv [raw_channels channels_at omap list_omap]; simpl; tauto
                  | exists r, w'; split; [exact R | exact Hb]]
              end ] |]).
  discriminate.
Qed.

Lemma read_channels_bus (bits : list nat) :
  forall (w w1 : W) (vals : list Z),
    Forall (fun i => (i < 16)%nat) bits ->
    read_channels (channels_at bits) w = Done (Ok vals) w1 ->
    bus_accesses (trace w1) =
      bus_accesses (trace w) ++
      flat_map expected_bus_access (channels_at bits).
Proof.
  induction bits as [|i bits IH]; intros w w1 vals Hbits Hread.
  - cbn in Hread. injection Hread as _ <-. cbn. rewrite app_nil_r.
    reflexivity.
  - apply Forall_cons in Hbits as [Hi Hbits].
    destruct (lookup_lt_is_Some_2 bmp280_iio_channels i Hi) as [chan Hchan].
    assert (channels_at (i :: bits) = chan :: channels_at bits) as Hat.
    { unfold channels_at. cbn [omap list_omap]. rewrite Hchan. reflexivity. }
    rewrite Hat in *. cbn [read_channels flat_map] in *.
    unfold bind at 1 in Hread.
    destruct (resolver_bus_access i chan w Hchan) as (r & w2 & R & Hb).
    rewrite R in Hread. destruct r as [v | e]; [| discriminate Hread].
    unfold bind in Hread.
    destruct (read_channels (channels_at bits) w2) as [[vs | e] w3 | f] eqn:Rs;
      try discriminate Hread.
    injection Hread as _ <-.
    rewrite (IH w2 w3 vs Hbits Rs), Hb, <- app_assoc. reflexivity.
Qed.

(** C1 (as amended). For a 3-byte register triple, [raw20] its value
    shifted right by 4, and a calibration as the loader leaves it, the
    driver computes [t_fine] in signed 32-bit arithmetic; whenever the
    three products of the datasheet formula fit in 32 bits, [t_fine] is
    the sum of the two datasheet terms and the processed temperature is
    [(t_fine * 5 + 128) >> 8]. *)
Theorem processed_temperature_when_products_fit
    (w : W) (b0 b1 b2 : byte) :
  let raw20 := Z.shiftr (register_triple b0 b1 b2) 4 in
  block_reply_of w BMP280_TEMP_RAW_REG_ADDRESS 3 = BlockBytes [b0; b1; b2] ->
  temperature_calibration_loaded (priv w) ->
  temperature_products_fit raw20 (priv w) ->
  fits_s32 (compute_bmp280_t_fine raw20 (dig_T (priv w))) /\
  compute_bmp280_t_fine raw20 (dig_T (priv w)) =
    rawTemperatureTripleToFine raw20 (priv w) /\
  read_bmp280_processed_temperature w =
    Done (Ok (processedTemperature raw20 (priv w)))
         (after_block_read w BMP280_TEMP_RAW_REG_ADDRESS 3).
Proof.
  intros raw20 E Hloaded Hfit.
  assert (0 <= raw20 < 2 ^ 20) as Hraw.
  { subst raw20. pose proof (register_triple_range b0 b1 b2) as Hr.
    rewrite Z.shiftr_div_pow2 by lia.
    change (2 ^ 24) with (2 ^ 20 * 2 ^ 4) in Hr.
    split; [apply Z.div_pos; lia | apply Z.div_lt_upper_bound; lia]. }
  destruct (temperature_exact raw20 (priv w) Hraw Hloaded Hfit) as [Hfine Htemp].
  split; [apply to_s32_fits |]. split; [exact Hfine |].
  pose proof (read_bmp280_processed_temperature_run w) as R. cbv zeta in R.
  rewrite E in R. rewrite R. unfold shr32 at 2. fold raw20.
  rewrite Htemp. reflexivity.
Qed.


(** C3. Every 16-bit calibration value [v] read from the device is
    stored as [v] when [v <= 32767] and as [v - 65536] otherwise, except
    the first value of each group ([dig_T1], [dig_P1]), stored as the
    unsigned [v]; the rule holds for the 3 temperature and the 9 pressure
    constants. *)
Theorem calibration_values_parsed (w : W) (tb pb : list byte) :
  let w1 := after_block_read w BMP280_TEMP_CALIBRATION_BASE_REG_ADDRESS 6 in
  length (dig_T (priv w)) = 4%nat ->
  length (dig_P (priv w)) = 10%nat ->
  block_reply_of w BMP280_TEMP_CALIBRATION_BASE_REG_ADDRESS 6 = BlockBytes tb ->
  length tb = 6%nat ->
  block_reply_of w1 BMP280_PRESS_CALIBRATION_BASE_REG_ADDRESS 18 = BlockBytes pb ->
  length pb = 18%nat ->
  exists w',
    read_bmp280_calibration_values cpu_big_endian w = Done (Ok tt) w' /\
    (forall i v, (1 <= i <= 3)%nat ->
       v = load_u16 cpu_big_endian tb (i - 1) ->
       0 <= v < 65536 /\
       dig_T (priv w') !! i =
         Some (if (i =? 1)%nat then v
               else if v <=? 32767 then v else v - 65536)) /\
    (forall i v, (1 <= i <= 9)%nat ->
       v = load_u16 cpu_big_endian pb (i - 1) ->
       0 <= v < 65536 /\
       dig_P (priv w') !! i =
         Some (if (i =? 1)%nat then v
               else if v <=? 32767 then v else v - 65536)).
Proof.
  intros w1 HT HP Et Ht Ep Hp.
  eexists. split.
  - apply (read_bmp280_calibration_values_run w tb pb); assumption.
  - cbn [priv set_priv dig_T dig_P].
    split; intros i v Hi ->; (split; [apply load_u16_range |]).
    + destruct i as [|[|[|[|i]]]]; try lia; reflexivity.
    + destruct i as [|[|[|[|[|[|[|[|[|[|i]]]]]]]]]]; try lia; reflexivity.
Qed.

(** C4. For every scan mask over the channel table whose active channels
    all resolve, the handler visits the active channels in ascending
    position, stores for each one cell of its storage width (2 bytes for
    16-bit storage, 4 bytes for 32-bit storage) holding the value in the
    byte order of the host, one after the other from the start of the
    buffer, and pushes that buffer: the bytes written number the sum of
    the storage widths of the active channels. *)
Theorem sample_buffer_layout
    (mask : Z) (sb : nat) (w w1 : W) (vals : list Z) :
  let active := active_channels bmp280_iio_channels mask in
  let cells := zip_with (sample_cell cpu_big_endian) active vals in
  kzalloc_ok w = true ->
  (sum_storage_bytes bmp280_iio_channels mask <= sb)%nat ->
  read_channels active (emit (Kzalloc sb) w) = Done (Ok vals) w1 ->
  exists w',
    bmp280_iio_trigger_handler cpu_big_endian (bmp280_indio_dev mask sb) w =
      Done IRQ_HANDLED w' /\
    pushed_buffers (trace w') =
      pushed_buffers (trace w) ++
      [concat cells ++
       replicate (sb - sum_storage_bytes bmp280_iio_channels mask) x00] /\
    Forall2 (fun chan cell => length cell = storage_bytes chan) active cells /\
    Forall (fun chan =>
              (storage_bytes chan = 2%nat \/ storage_bytes chan = 4%nat) /\
              Z.of_nat (storage_bytes chan) * 8 = storagebits (scan_type chan))
           active /\
    length (concat cells) = sum_storage_bytes bmp280_iio_channels mask /\
    map scan_index active = map Z.of_nat (for_each_set_bit mask 16) /\
    StronglySorted lt (for_each_set_bit mask 16).
Proof.
  intros active cells Hmem Hroom Hread.
  destruct (handler_run mask sb w Hmem Hroom) as (r & w1' & R & Hio & Hrun).
  fold active in R. rewrite Hread in R. injection R as <- <-.
  cbv zeta in Hrun. destruct Hrun as (Hlen & w' & log & Hh & Htrace & Hlog).
  destruct Hio as (_ & _ & _ & evs & Hevs & Hsilent).
  destruct (io_only_silent evs Hsilent) as [Hpe _].
  destruct (io_only_silent log Hlog) as [Hpl _].
  destruct (channels_at_positions (for_each_set_bit mask 16)
              (for_each_set_bit_below mask 16)) as (Hpos & Hw & Hbits).
  destruct (sample_cells_shape active vals Hlen) as [Hcells Hsum].
  exists w'. split; [exact Hh |]. split.
  { rewrite Htrace, Hevs. cbn [trace emit].
    set (data := concat _ ++ replicate _ _).
    change (PushToBuffers data :: log ++ [Kfree; TriggerNotifyDone])
      with ([PushToBuffers data] ++ log ++ [Kfree; TriggerNotifyDone]).
    rewrite !pushed_buffers_app, Hpe, Hpl.
    cbn [pushed_buffers omap list_omap app]. rewrite !app_nil_r.
    reflexivity. }
  split; [exact Hcells |].
  split.
  { apply Forall_forall. intros chan Hin.
    rewrite Forall_forall in Hw, Hbits. split; [apply Hw | apply Hbits];
      exact Hin. }
  split; [exact Hsum |].
  split; [exact Hpos | apply for_each_set_bit_sorted].
Qed.

(** C5. Resolving a raw-value channel (temperature or pressure) performs
    exactly one bus access, a 3-byte block read of the channel's register
    address, and returns the register triple
    [(byte0 << 16) | (byte1 << 8) | byte2] without any right shift: the
    4 low padding bits are those of [byte2]. *)
Theorem raw_channel_one_block_read_unshifted
    (chan : iio_chan_spec) (w : W) (b0 b1 b2 : byte) :
  In chan raw_channels ->
  block_reply_of w (address chan) 3 = BlockBytes [b0; b1; b2] ->
  exists v w',
    bmp280_iio_read_from_channel chan w = Done (Ok (IIO_VAL_INT v)) w' /\
    bus_accesses (trace w') =
      bus_accesses (trace w) ++ [BusReadBlock (address chan) 3] /\
    v = Z.lor (Z.lor (Z.shiftl (byte_val b0) 16) (Z.shiftl (byte_val b1) 8))
              (byte_val b2) /\
    Z.land v 15 = Z.land (byte_val b2) 15.
Proof.
  intros Hin E.
  destruct (resolve_raw_channel chan w Hin) as (r & w' & Hrun & _ & Hbus & Hr).
  rewrite E in Hr. subst r.
  exists (register_triple b0 b1 b2), w'.
  repeat split; auto using register_triple_plain, register_triple_padding.
Qed.

(** C6 (as amended). A block read that fails, that is, whose status
    differs from the requested length (every negative bus error number
    does), makes the raw reads, the processed reads and the calibration
    load return -EIO to their caller, whatever the error number of the
    bus; an identity read whose low byte is not the expected id makes
    initialization return -ENODEV; and [setup_bmp280] hands the status of
    a failed initialization or calibration load to its caller
    unchanged. *)
Theorem bus_failures_reported (w : W) :
  (block_status (block_reply_of w BMP280_TEMP_RAW_REG_ADDRESS 3) <> 3 ->
   (exists w', read_bmp280_raw_temperature w = Done (Err EIO) w') /\
   (exists w', read_bmp280_processed_temperature w = Done (Err EIO) w')) /\
  (block_status (block_reply_of w BMP280_PRESS_RAW_REG_ADDRESS 3) <> 3 ->
   exists w', read_bmp280_raw_pressure w = Done (Err EIO) w') /\
  (block_status (block_reply_of w BMP280_PRESS_RAW_REG_ADDRESS 6) <> 6 ->
   exists w', read_bmp280_processed_pressure w = Done (Err EIO) w') /\
  (block_status
     (block_reply_of w BMP280_TEMP_CALIBRATION_BASE_REG_ADDRESS 6) <> 6 ->
   exists w',
     read_bmp280_calibration_values cpu_big_endian w = Done (Err EIO) w') /\
  (block_status
     (block_reply_of w BMP280_TEMP_CALIBRATION_BASE_REG_ADDRESS 6) = 6 ->
   block_status
     (block_reply_of
        (after_block_read w BMP280_TEMP_CALIBRATION_BASE_REG_ADDRESS 6)
        BMP280_PRESS_CALIBRATION_BASE_REG_ADDRESS 18) <> 18 ->
   exists w',
     read_bmp280_calibration_values cpu_big_endian w = Done (Err EIO) w') /\
  (to_u8 (fst (bus_read_byte (client_of w) BMP280_ID_REG)) <> BMP280_ID ->
   exists w', initialize_bmp280 w = Done (Err ENODEV) w') /\
  (forall e w', initialize_bmp280 w = Done (Err e) w' ->
                setup_bmp280 cpu_big_endian w = Done (Err e) w') /\
  (forall w1 e w',
     initialize_bmp280 w = Done (Ok tt) w1 ->
     read_bmp280_calibration_values cpu_big_endian w1 = Done (Err e) w' ->
     setup_bmp280 cpu_big_endian w = Done (Err e) w').
Proof.
  repeat apply conj.
  - intros H. apply Z.eqb_neq in H.
    assert (exists w', read_bmp280_raw_temperature w = Done (Err EIO) w')
      as [w' R].
    { unfold read_bmp280_raw_temperature, bind. rewrite block_read_run.
      cbv beta iota. rewrite H. eexists; reflexivity. }
    split; [eauto |].
    unfold read_bmp280_processed_temperature, bind. rewrite R.
    eexists; reflexivity.
  - intros H. apply Z.eqb_neq in H.
    unfold read_bmp280_raw_pressure, bind. rewrite block_read_run.
    cbv beta iota. rewrite H. eexists; reflexivity.
  - intros H. apply Z.eqb_neq in H.
    unfold read_bmp280_processed_pressure, bind. rewrite block_read_run.
    cbv beta iota. rewrite H. eexists; reflexivity.
  - intros H. apply Z.eqb_neq in H.
    unfold read_bmp280_calibration_values, bind.
    change (3 * 2) with 6. rewrite block_read_run.
    cbv beta iota. rewrite H. eexists; reflexivity.
  - intros H1 H2. apply Z.eqb_eq in H1. apply Z.eqb_neq in H2.
    unfold read_bmp280_calibration_values, bind.
    change (3 * 2) with 6. change (9 * 2) with 18. rewrite block_read_run.
    cbv beta iota. rewrite H1. cbn [negb]. rewrite block_read_run.
    cbv beta iota. rewrite H2. eexists; reflexivity.
  - intros H. apply Z.eqb_neq in H.
    unfold initialize_bmp280, bind, i2c_smbus_read_byte_data.
    destruct (bus_read_byte (client_of w) BMP280_ID_REG) as [r c].
    cbn [fst] in H. rewrite H. eexists; reflexivity.
  - intros e w' H. unfold setup_bmp280, bind. rewrite H. reflexivity.
  - intros w1 e w' H1 H2. unfold setup_bmp280, bind. rewrite H1, H2.
    reflexivity.
Qed.

(** C7 (as amended). For every trigger the handler returns [IRQ_HANDLED]
    and issues the trigger-completion notification exactly once, as its
    last action, whether the allocation fails, a channel fails to
    resolve, or all goes well. When the allocation fails or resolving one
    active channel fails, nothing is pushed to the buffers and the
    failure is written to the kernel log; the return value is the same as
    on success. *)
Theorem trigger_always_acknowledged (mask : Z) (sb : nat) (w : W) :
  let active := active_channels bmp280_iio_channels mask in
  (sum_storage_bytes bmp280_iio_channels mask <= sb)%nat ->
  exists w' evs,
    bmp280_iio_trigger_handler cpu_big_endian (bmp280_indio_dev mask sb) w =
      Done IRQ_HANDLED w' /\
    trace w' = trace w ++ evs /\
    notifications evs = 1%nat /\
    last evs = Some TriggerNotifyDone /\
    (kzalloc_ok w = false ->
     pushed_buffers evs = [] /\ logged_errors evs <> []) /\
    (forall e w1,
       kzalloc_ok w = true ->
       read_channels active (emit (Kzalloc sb) w) = Done (Err e) w1 ->
       pushed_buffers evs = [] /\ logged_errors evs <> []).
Proof.
  intros active Hroom.
  destruct (kzalloc_ok w) eqn:Hmem.
  - destruct (handler_run mask sb w Hmem Hroom) as (r & w1 & R & Hio & Hrun).
    fold active in R.
    destruct Hio as (_ & _ & _ & evs & Hevs & Hsilent).
    destruct (io_only_silent evs Hsilent) as [Hpe Hne].
    cbn [trace emit] in Hevs.
    destruct r as [vals | e].
    + cbv zeta in Hrun. destruct Hrun as (_ & w' & log & Hh & Htrace & Hlog).
      destruct (io_only_silent log Hlog) as [Hpl Hnl].
      set (data := concat _ ++ replicate _ _) in Htrace.
      exists w',
        ([Kzalloc sb] ++ evs ++ [PushToBuffers data] ++ log ++ [Kfree] ++
         [TriggerNotifyDone]).
      split; [exact Hh |].
      split; [rewrite Htrace, Hevs, <- !app_assoc; reflexivity |].
      split; [rewrite !notifications_app, Hne, Hnl; reflexivity |].
      split; [rewrite !app_assoc; apply last_snoc |].
      split; [discriminate |].
      intros e w1' _ Hfail. rewrite Hfail in R. discriminate R.
    + destruct Hrun as (w' & m & Hh & Htrace).
      exists w',
        ([Kzalloc sb] ++ evs ++ [PrErr m] ++ [Kfree] ++ [TriggerNotifyDone]).
      split; [exact Hh |].
      split; [rewrite Htrace, Hevs, <- !app_assoc; reflexivity |].
      split; [rewrite !notifications_app, Hne; reflexivity |].
      split; [rewrite !app_assoc; apply last_snoc |].
      split; [discriminate |].
      intros _ _ _ _. split.
      * rewrite !pushed_buffers_app, Hpe. reflexivity.
      * rewrite !logged_errors_app. intros H.
        apply (f_equal length) in H. rewrite !length_app in H.
        cbn in H. lia.
  - destruct (handler_without_memory (bmp280_indio_dev mask sb) w Hmem)
      as [m Hh].
    do 2 eexists. split; [exact Hh |].
    split; [cbn [trace emit]; rewrite <- !app_assoc; reflexivity |].
    split; [reflexivity |]. split; [reflexivity |].
    split; [split; [reflexivity | discriminate] |].
    intros e w1 Habs. discriminate Habs.
Qed.

(** C8. With the processed-temperature channel as the only active
    channel, the buffer pushed on a trigger is 4 bytes long, and these 4
    bytes read as a signed 32-bit integer in the byte order of the host
    are the integer part that the direct read of the same channel
    returns on the same bus responses (with 100 as its divisor). *)
Theorem processed_temperature_sample_matches_direct_read
    (w w1 : W) (info : Z) (v : iio_val) :
  let mask := BIT 4 in
  let dev :=
    bmp280_indio_dev mask (sum_storage_bytes bmp280_iio_channels mask) in
  kzalloc_ok w = true ->
  bmp280_iio_read_raw processed_temperature_channel info w = Done (Ok v) w1 ->
  active_channels bmp280_iio_channels mask = [processed_temperature_channel] /\
  exists temp data w',
    v = IIO_VAL_FRACTIONAL temp 100 /\
    bmp280_iio_trigger_handler cpu_big_endian dev w = Done IRQ_HANDLED w' /\
    pushed_buffers (trace w') = pushed_buffers (trace w) ++ [data] /\
    length data = 4%nat /\
    to_s32 (cpu_value cpu_big_endian data) = temp.
Proof.
  intros mask dev Hmem Hdirect. split; [reflexivity |].
  unfold bmp280_iio_read_raw in Hdirect.
  change (bmp280_iio_read_from_channel processed_temperature_channel w) with
    ((status <- read_bmp280_processed_temperature ;;
      match status with
      | Err e => ret (Err e)
      | Ok temp => ret (Ok (IIO_VAL_FRACTIONAL temp 100))
      end) w) in Hdirect.
  unfold bind in Hdirect.
  set (w0 := emit (Kzalloc 4) w).
  pose proof (read_bmp280_processed_temperature_run w) as R.
  pose proof (read_bmp280_processed_temperature_run w0) as R0.
  cbv zeta in R, R0.
  change (block_reply_of w0 BMP280_TEMP_RAW_REG_ADDRESS 3)
    with (block_reply_of w BMP280_TEMP_RAW_REG_ADDRESS 3) in R0.
  change (priv w0) with (priv w) in R0.
  destruct (block_reply_of w BMP280_TEMP_RAW_REG_ADDRESS 3)
    as [[|v1 [|v2 [|v3 [|v4 bs]]]] | e];
    open_run R; rewrite R in Hdirect; try discriminate Hdirect.
  cbn [ret] in Hdirect. injection Hdirect as <- <-.
  set (temp := shr32 (add32 (mul32 (compute_bmp280_t_fine
                 (shr32 (register_triple v1 v2 v3) 4) (dig_T (priv w))) 5)
                 128) 8) in *.
  assert (fits_s32 temp) as Htemp.
  { subst temp. apply shr32_fits; [lia | apply to_s32_fits]. }
  assert (read_channels [processed_temperature_channel] w0 =
          Done (Ok [temp]) (after_block_read w0 BMP280_TEMP_RAW_REG_ADDRESS 3))
    as Hread.
  { cbn [read_channels].
    change (bmp280_iio_read_from_channel processed_temperature_channel) with
      (status <- read_bmp280_processed_temperature ;;
       match status with
       | Err e => ret (Err e)
       | Ok temp => ret (Ok (IIO_VAL_FRACTIONAL temp 100))
       end : M W (res iio_val)).
    unfold bind. rewrite R0. reflexivity. }
  destruct (handler_run mask 4 w Hmem ltac:(reflexivity))
    as (r & w1' & Rr & Hio & Hrun).
  change (active_channels bmp280_iio_channels mask)
    with [processed_temperature_channel] in *.
  fold w0 in Rr. rewrite Hread in Rr. injection Rr as <- <-.
  cbv zeta in Hrun. destruct Hrun as (_ & w' & log & Hh & Htrace & Hlog).
  destruct (io_only_silent log Hlog) as [Hpl _].
  exists temp. eexists. exists w'.
  split; [reflexivity |]. split; [exact Hh |].
  split.
  { rewrite Htrace. unfold w0, after_block_read. cbn [trace emit set_client].
    set (data := concat _ ++ replicate _ _).
    change (PushToBuffers data :: log ++ [Kfree; TriggerNotifyDone])
      with ([PushToBuffers data] ++ log ++ [Kfree; TriggerNotifyDone]).
    rewrite !pushed_buffers_app, Hpl. cbn [pushed_buffers omap list_omap app].
    rewrite !app_nil_r. reflexivity. }
  change (sum_storage_bytes bmp280_iio_channels mask) with 4%nat.
  cbn [zip_with concat replicate Nat.sub]. rewrite !app_nil_r.
  unfold sample_cell.
  change (storage_bytes processed_temperature_channel) with 4%nat.
  split; [apply length_cpu_bytes |].
  rewrite cpu_value_cpu_bytes. change (8 * Z.of_nat 4) with 32.
  rewrite to_s32_mod. apply to_s32_id. exact Htemp.
Qed.

(** C9. Resolving a calibration-constant channel (3 temperature, 9
    pressure) performs no bus access: it returns the constant held in the
    context and leaves the world as it was. Hence the value of a
    calibration channel is the same before and after a raw-value read. *)
Theorem calibration_channel_no_bus_access
    (chan raw : iio_chan_spec) (w : W) :
  In chan calibration_channels ->
  In raw raw_channels ->
  bmp280_iio_read_from_channel chan w =
    Done (Ok (IIO_VAL_INT (stored_constant (priv w) chan))) w /\
  exists r w1,
    bmp280_iio_read_from_channel raw w = Done r w1 /\
    bmp280_iio_read_from_channel chan w1 =
      Done (Ok (IIO_VAL_INT (stored_constant (priv w) chan))) w1.
Proof.
  intros Hchan Hraw. split; [apply resolve_calibration_channel, Hchan |].
  destruct (resolve_raw_channel raw w Hraw) as (r & w1 & Hrun & Hpriv & _).
  exists r, w1. split; [exact Hrun |].
  rewrite (resolve_calibration_channel chan w1 Hchan), Hpriv. reflexivity.
Qed.

(** C10. The raw temperature and the raw pressure assembled from a 3-byte
    register triple lie in [0, 2^24): the bytes are widened unsigned and
    no sign extension takes place, so the value is never negative. *)
Theorem raw_reads_within_24_bits (w : W) (b0 b1 b2 : byte) :
  (block_reply_of w BMP280_TEMP_RAW_REG_ADDRESS 3 = BlockBytes [b0; b1; b2] ->
   exists v w',
     read_bmp280_raw_temperature w = Done (Ok v) w' /\ 0 <= v < 2 ^ 24) /\
  (block_reply_of w BMP280_PRESS_RAW_REG_ADDRESS 3 = BlockBytes [b0; b1; b2] ->
   exists v w',
     read_bmp280_raw_pressure w = Done (Ok v) w' /\ 0 <= v < 2 ^ 24).
Proof.
  split; intros E.
  - pose proof (read_bmp280_raw_temperature_run w) as R. cbv zeta in R.
    rewrite E in R. eauto using register_triple_range.
  - pose proof (read_bmp280_raw_pressure_run w) as R. cbv zeta in R.
    rewrite E in R. eauto using register_triple_range.
Qed.


(** X1. When the low byte of the status of the identity read is the
    expected id (only that byte is compared, so a status such as -168
    passes as well), initialization writes the config register (0xa0: standby 5, no
    filter, no 3-wire SPI) and then the ctrl_meas register (0xb7: both
    oversamplings 5, normal mode), nothing else, and returns 0 whatever
    the two writes return. *)
Theorem initialize_writes_configuration (w : W) :
  to_u8 (fst (bus_read_byte (client_of w) BMP280_ID_REG)) = BMP280_ID ->
  exists w' config ctrl_meas,
    initialize_bmp280 w = Done (Ok tt) w' /\
    priv w' = priv w /\
    bus_accesses (trace w') =
      bus_accesses (trace w) ++
      [BusReadByte BMP280_ID_REG;
       BusWriteByte BMP280_CONFIG_REG_ADDRESS config;
       BusWriteByte BMP280_CTRL_MEAS_REG_ADDRESS ctrl_meas] /\
    (Z.shiftr config 5 = 5 /\ Z.land (Z.shiftr config 2) 7 = 0 /\
     Z.land config 3 = 0) /\
    (Z.shiftr ctrl_meas 5 = 5 /\ Z.land (Z.shiftr ctrl_meas 2) 7 = 5 /\
     Z.land ctrl_meas 3 = 3).
Proof.
  intros Hid. pose proof (initialize_bmp280_run w) as R. cbv zeta in R.
  rewrite Hid in R. change (BMP280_ID =? BMP280_ID) with true in R.
  eexists. exists 0xa0, 0xb7. split; [exact R |].
  split; [reflexivity |].
  split; [| split; repeat split; reflexivity].
  cbn [trace emit set_client]. rewrite !bus_accesses_app, <- !app_assoc.
  reflexivity.
Qed.

(** X2. When the low byte of the identity read is not the expected id,
    setup stops after that one read: it returns -ENODEV, writes nothing
    to the device, reads no calibration and leaves the context as it
    was. *)
Theorem setup_stops_on_unexpected_id (w : W) :
  to_u8 (fst (bus_read_byte (client_of w) BMP280_ID_REG)) <> BMP280_ID ->
  exists w',
    initialize_bmp280 w = Done (Err ENODEV) w' /\
    setup_bmp280 cpu_big_endian w = Done (Err ENODEV) w' /\
    priv w' = priv w /\
    bus_accesses (trace w') =
      bus_accesses (trace w) ++ [BusReadByte BMP280_ID_REG].
Proof.
  intros Hid. pose proof (initialize_bmp280_run w) as R. cbv zeta in R.
  apply Z.eqb_neq in Hid. rewrite Hid in R. destruct R as [m R].
  eexists. split; [exact R |].
  split; [unfold setup_bmp280, bind; rewrite R; reflexivity |].
  split; [reflexivity |].
  cbn [trace emit set_client]. rewrite !bus_accesses_app, <- !app_assoc.
  cbn. rewrite ?app_nil_r. reflexivity.
Qed.

(** X3. A calibration load whose first block read does not return 6
    bytes, or whose second does not return 18, returns -EIO and leaves
    the stored calibration untouched; after a failed first read the
    second is not attempted. *)
Theorem failed_calibration_load_keeps_context (w : W) :
  let w1 := after_block_read w BMP280_TEMP_CALIBRATION_BASE_REG_ADDRESS 6 in
  (block_status
     (block_reply_of w BMP280_TEMP_CALIBRATION_BASE_REG_ADDRESS 6) <> 6 ->
   exists w',
     read_bmp280_calibration_values cpu_big_endian w = Done (Err EIO) w' /\
     priv w' = priv w /\
     bus_accesses (trace w') =
       bus_accesses (trace w) ++
       [BusReadBlock BMP280_TEMP_CALIBRATION_BASE_REG_ADDRESS 6]) /\
  (block_status
     (block_reply_of w BMP280_TEMP_CALIBRATION_BASE_REG_ADDRESS 6) = 6 ->
   block_status
     (block_reply_of w1 BMP280_PRESS_CALIBRATION_BASE_REG_ADDRESS 18) <> 18 ->
   exists w',
     read_bmp280_calibration_values cpu_big_endian w = Done (Err EIO) w' /\
     priv w' = priv w /\
     bus_accesses (trace w') =
       bus_accesses (trace w) ++
       [BusReadBlock BMP280_TEMP_CALIBRATION_BASE_REG_ADDRESS 6;
        BusReadBlock BMP280_PRESS_CALIBRATION_BASE_REG_ADDRESS 18]).
Proof.
  intros w1. split.
  - intros H. destruct (calibration_first_read_fails w H) as [m R].
    eexists. split; [exact R |]. split; [reflexivity |].
    cbn [trace emit set_client after_block_read].
    rewrite !bus_accesses_app, <- !app_assoc. reflexivity.
  - intros H1 H2. destruct (calibration_second_read_fails w H1 H2) as [m R].
    eexists. split; [exact R |]. split; [reflexivity |].
    cbn [trace emit set_client after_block_read].
    rewrite !bus_accesses_app, <- !app_assoc. reflexivity.
Qed.

(** X4. A calibration load that succeeds on a context with arrays of 4
    and 10 cells leaves arrays of the same sizes whose cell 0 is 0, whose
    cell 1 is an unsigned 16-bit value and whose other cells are signed
    16-bit values, after exactly two block reads: 6 bytes at 0x88, then
    18 bytes at 0x8e. *)
Theorem loaded_calibration_in_range (w w' : W) :
  length (dig_T (priv w)) = 4%nat ->
  length (dig_P (priv w)) = 10%nat ->
  read_bmp280_calibration_values cpu_big_endian w = Done (Ok tt) w' ->
  length (dig_T (priv w')) = 4%nat /\
  length (dig_P (priv w')) = 10%nat /\
  dig_T (priv w') !!! 0%nat = 0 /\
  dig_P (priv w') !!! 0%nat = 0 /\
  0 <= dig_T (priv w') !!! 1%nat <= 65535 /\
  0 <= dig_P (priv w') !!! 1%nat <= 65535 /\
  (forall i, (2 <= i <= 3)%nat ->
             - 32768 <= dig_T (priv w') !!! i <= 32767) /\
  (forall i, (2 <= i <= 9)%nat ->
             - 32768 <= dig_P (priv w') !!! i <= 32767) /\
  bus_accesses (trace w') =
    bus_accesses (trace w) ++
    [BusReadBlock 0x88 6; BusReadBlock 0x8e 18].
Proof.
  intros HT HP Hok.
  destruct (calibration_loaded_after w w' HT HP Hok)
    as (HT' & HP' & HT0 & HP0 & (HT1 & HT2 & HT3) & (HP1 & HPi) & Hbus).
  assert (forall i, (2 <= i <= 3)%nat ->
                    - 32768 <= dig_T (priv w') !!! i <= 32767) as HTi.
  { intros i Hi. destruct i as [|[|[|[|i]]]]; try lia; assumption. }
  repeat split; try assumption; try apply HT1; try apply HP1;
    try (apply HPi; assumption); try (apply HTi; assumption).
Qed.


(** X6. The 4 low bits of the third byte of a register triple do not
    influence the processed values: two temperature triples, and two
    pressure-and-temperature sextuples, that differ only in those padding
    bits give the same processed temperature and the same processed
    pressure under the same calibration. *)
Theorem padding_bits_do_not_matter
    (w w' : W) (p1 p2 p3 p3' t1 t2 t3 t3' : byte) :
  priv w = priv w' ->
  byte_val p3 / 16 = byte_val p3' / 16 ->
  byte_val t3 / 16 = byte_val t3' / 16 ->
  (block_reply_of w 0xfa 3 = BlockBytes [t1; t2; t3] ->
   block_reply_of w' 0xfa 3 = BlockBytes [t1; t2; t3'] ->
   exists temp w1 w1',
     read_bmp280_processed_temperature w = Done (Ok temp) w1 /\
     read_bmp280_processed_temperature w' = Done (Ok temp) w1') /\
  (block_reply_of w 0xf7 6 = BlockBytes [p1; p2; p3; t1; t2; t3] ->
   block_reply_of w' 0xf7 6 = BlockBytes [p1; p2; p3'; t1; t2; t3'] ->
   exists press w1 w1',
     read_bmp280_processed_pressure w = Done (Ok press) w1 /\
     read_bmp280_processed_pressure w' = Done (Ok press) w1').
Proof.
  intros Hpriv Hp Ht. split; intros E E'.
  - rewrite (read_bmp280_processed_temperature_value w _ _ _ E).
    rewrite (read_bmp280_processed_temperature_value w' _ _ _ E').
    rewrite (register_triple_shifted t1 t2 t3 t3' Ht), Hpriv.
    do 3 eexists. split; reflexivity.
  - rewrite (read_bmp280_processed_pressure_value w _ _ _ _ _ _ E).
    rewrite (read_bmp280_processed_pressure_value w' _ _ _ _ _ _ E').
    rewrite (register_triple_shifted t1 t2 t3 t3' Ht),
      (register_triple_shifted p1 p2 p3 p3' Hp), Hpriv.
    do 3 eexists. split; reflexivity.
Qed.

(** X7. While [dig_P1] is 0, as in a context that was never calibrated,
    every processed pressure read whose block read completes returns
    pressure 0 with status 0, whatever the sensor returned. *)
Theorem zero_dig_P1_gives_zero_pressure
    (w : W) (p1 p2 p3 t1 t2 t3 : byte) :
  dig_P (priv w) !!! 1%nat = 0 ->
  block_reply_of w 0xf7 6 = BlockBytes [p1; p2; p3; t1; t2; t3] ->
  read_bmp280_processed_pressure w = Done (Ok 0) (after_block_read w 0xf7 6).
Proof.
  intros HP1 E.
  rewrite (read_bmp280_processed_pressure_value w _ _ _ _ _ _ E).
  unfold pressure_of. cbv zeta.
  rewrite (pressure_var1_without_P1 _ _ HP1). reflexivity.
Qed.

(** X8. The resolver returns -EINVAL exactly for the channels outside the
    kinds it knows: a type other than temperature or pressure, or a
    temperature (pressure) channel that is neither processed nor an
    indexed raw channel numbered 0 to 3 (0 to 9). It then only logs: no
    bus access takes place. For every other channel the result is a
    value or -EIO. *)
Theorem resolver_rejects_exactly_unknown_channels
    (chan : iio_chan_spec) (w : W) :
  let raw := iio_channel_has_info chan IIO_CHAN_INFO_RAW && indexed chan in
  let processed := iio_channel_has_info chan IIO_CHAN_INFO_PROCESSED in
  let known :=
    match type chan with
    | IIO_TEMP =>
        raw && (0 <=? channel chan) && (channel chan <=? 3) || processed
    | IIO_PRESSURE =>
        raw && (0 <=? channel chan) && (channel chan <=? 9) || processed
    | _ => false
    end in
  if known then
    exists r w',
      bmp280_iio_read_from_channel chan w = Done r w' /\
      (r = Err EIO \/ exists v, r = Ok v)
  else
    exists m,
      bmp280_iio_read_from_channel chan w =
      Done (Err EINVAL) (emit (PrErr m) w).
Proof.
  cbv zeta. unfold bmp280_iio_read_from_channel.
  destruct (type chan).
  - eexists; reflexivity.
  - destruct (iio_channel_has_info chan IIO_CHAN_INFO_RAW);
      destruct (indexed chan);
      destruct (iio_channel_has_info chan IIO_CHAN_INFO_PROCESSED);
      cbn [andb orb];
      try (destruct (Z.leb_spec 0 (channel chan));
           destruct (Z.ltb_spec (channel chan) 3);
           destruct (Z.eqb_spec (channel chan) 3);
           destruct (Z.leb_spec (channel chan) 3); try lia; cbn [andb orb]);
      first
        [ eexists; reflexivity
        | do 2 eexists; split; [reflexivity | right; eauto]
        | resolve_kind (read_bmp280_raw_temperature_eio w); eauto
        | resolve_kind (read_bmp280_processed_temperature_eio w); eauto ].
  - destruct (iio_channel_has_info chan IIO_CHAN_INFO_RAW);
      destruct (indexed chan);
      destruct (iio_channel_has_info chan IIO_CHAN_INFO_PROCESSED);
      cbn [andb orb];
      try (destruct (Z.leb_spec 0 (channel chan));
           destruct (Z.ltb_spec (channel chan) 9);
           destruct (Z.eqb_spec (channel chan) 9);
           destruct (Z.leb_spec (channel chan) 9); try lia; cbn [andb orb]);
      first
        [ eexists; reflexivity
        | do 2 eexists; split; [reflexivity | right; eauto]
        | resolve_kind (read_bmp280_raw_pressure_eio w); eauto
        | resolve_kind (read_bmp280_processed_pressure_eio w); eauto ].
Qed.

(** X9. Every channel of the table is accepted by the resolver. The 12
    calibration channels always yield an integer; the two raw channels
    yield an integer or -EIO; the two processed channels yield a fraction
    or -EIO, with divisor 100 for the temperature and 256 for the
    pressure. *)
Theorem table_channels_resolve (i : nat) (chan : iio_chan_spec) (w : W) :
  bmp280_iio_channels !! i = Some chan ->
  exists r w',
    bmp280_iio_read_from_channel chan w = Done r w' /\
    match r with
    | Err e => e = EIO /\ ~ In chan calibration_channels
    | Ok (IIO_VAL_INT _) =>
        In chan calibration_channels \/ In chan raw_channels
    | Ok (IIO_VAL_FRACTIONAL _ val2) =>
        iio_channel_has_info chan IIO_CHAN_INFO_PROCESSED = true /\
        val2 = match type chan with IIO_TEMP => 100 | _ => 256 end
    end.
Proof.
  do 16 (destruct i as [|i];
         [intros [= <-];
          first
            [ do 2 eexists; split; [reflexivity |];
              left; cbv [calibration_channels channels_at omap list_omap];
              simpl; tauto
            | change (bmp280_iio_read_from_channel _ w) with
                ((status <- read_bmp280_raw_temperature ;;
                  match status with
                  | Err e => ret (Err e)
                  | Ok raw_temp => ret (Ok (IIO_VAL_INT raw_temp))
                  end) w);
              resolve_kind (read_bmp280_raw_temperature_eio w)
            | change (bmp280_iio_read_from_channel _ w) with
                ((status <- read_bmp280_processed_temperature ;;
                  match status with
                  | Err e => ret (Err e)
                  | Ok temp => ret (Ok (IIO_VAL_FRACTIONAL temp 100))
                  end) w);
              resolve_kind (read_bmp280_processed_temperature_eio w)
            | change (bmp280_iio_read_from_channel _ w) with
                ((status <- read_bmp280_raw_pressure ;;
                  match status with
                  | Err e => ret (Err e)
                  | Ok raw_press => ret (Ok (IIO_VAL_INT raw_press))
                  end) w);
              resolve_kind (read_bmp280_raw_pressure_eio w)
            | change (bmp280_iio_read_from_channel _ w) with
                ((status <- read_bmp280_processed_pressure ;;
                  match status with
                  | Err e => ret (Err e)
                  | Ok press => ret (Ok (IIO_VAL_FRACTIONAL (to_s32 press) 256))
                  end) w);
              resolve_kind (read_bmp280_processed_pressure_eio w) ];
          try (split; [reflexivity |]; intros Hin;
               cbv [calibration_channels channels_at omap list_omap] in Hin;
               simpl in Hin;
               repeat (destruct Hin as [Hin | Hin]; [discriminate Hin |]);
               destruct Hin);
          try (right; cbv [raw_channels channels_at omap list_omap];
               simpl; tauto);
          try (split; reflexivity) |]).
  discriminate.
Qed.

(** X10. For every channel of the table taken as the only active
    channel, with a buffer of its storage width: whenever the direct read
    of that channel returns a value, the trigger handler on the same bus
    responses pushes one buffer, as long as the storage width, whose
    bytes in the byte order of the host are that value modulo
    2^storagebits. *)
Theorem single_channel_sample_is_direct_value
    (i : nat) (chan : iio_chan_spec) (w w1 : W) (info : Z) (v : iio_val) :
  bmp280_iio_channels !! i = Some chan ->
  kzalloc_ok w = true ->
  bmp280_iio_read_raw chan info w = Done (Ok v) w1 ->
  exists data w',
    bmp280_iio_trigger_handler cpu_big_endian
      (bmp280_indio_dev (BIT (Z.of_nat i)) (storage_bytes chan)) w =
      Done IRQ_HANDLED w' /\
    pushed_buffers (trace w') = pushed_buffers (trace w) ++ [data] /\
    length data = storage_bytes chan /\
    Z.of_nat (length data) * 8 = storagebits (scan_type chan) /\
    cpu_value cpu_big_endian data =
      iio_val_int v mod 2 ^ storagebits (scan_type chan).
Proof.
  intros Hchan Hmem Hdirect. unfold bmp280_iio_read_raw in Hdirect.
  assert (i < 16)%nat as Hi
      by (apply (lookup_lt_Some bmp280_iio_channels i chan Hchan)).
  set (mask := BIT (Z.of_nat i)). set (sb := storage_bytes chan).
  assert (active_channels bmp280_iio_channels mask = [chan]) as Hactive.
  { rewrite active_channels_table. unfold mask.
    rewrite (for_each_set_bit_single i Hi).
    unfold channels_at. cbn [omap list_omap]. rewrite Hchan. reflexivity. }
  assert (sum_storage_bytes bmp280_iio_channels mask = sb) as Hsum.
  { unfold sum_storage_bytes. rewrite Hactive. cbn. lia. }
  destruct (handler_run mask sb w Hmem ltac:(lia))
    as (r & w2 & R & Hio & Hrun).
  rewrite Hactive in R, Hrun. rewrite Hsum in Hrun.
  destruct (resolver_after_emit chan (Kzalloc sb) w w1 (Ok v) Hdirect)
    as [w1' Hdirect'].
  cbn [read_channels] in R. unfold bind in R. rewrite Hdirect' in R.
  cbn [ret] in R. injection R as <- <-.
  cbv zeta in Hrun. destruct Hrun as (_ & w' & log & Hh & Htrace & Hlog).
  destruct (io_only_silent log Hlog) as [Hpl _].
  destruct Hio as (_ & _ & _ & evs & Hevs & Hsilent).
  destruct (io_only_silent evs Hsilent) as [Hpe _].
  replace (sb - sb)%nat with 0%nat in Htrace by lia.
  cbn [zip_with concat replicate] in Htrace. rewrite !app_nil_r in Htrace.
  exists (sample_cell cpu_big_endian chan (iio_val_int v)), w'.
  split; [exact Hh |].
  split.
  { rewrite Htrace, Hevs. cbn [trace emit].
    set (data := sample_cell _ _ _).
    change (PushToBuffers data :: log ++ [Kfree; TriggerNotifyDone])
      with ([PushToBuffers data] ++ log ++ [Kfree; TriggerNotifyDone]).
    rewrite !pushed_buffers_app, Hpe, Hpl.
    cbn [pushed_buffers omap list_omap app]. rewrite !app_nil_r.
    reflexivity. }
  unfold sample_cell. rewrite length_cpu_bytes, cpu_value_cpu_bytes.
  split; [reflexivity |].
  assert (Z.of_nat (storage_bytes chan) * 8 = storagebits (scan_type chan))
    as Hbits.
  { destruct (table_channel_shape i chan Hchan) as [[-> ->] | [-> ->]];
      reflexivity. }
  split; [exact Hbits |]. rewrite <- Hbits. f_equal. f_equal. lia.
Qed.

(** X11. On every trigger the handler allocates once, first of all, and
    never changes the calibration. When the allocation succeeds the
    buffer is freed exactly once, after the at most one push and right
    before the completion notification; when it fails nothing is freed,
    nothing is pushed and the bus is not touched. *)
Theorem handler_releases_its_buffer (mask : Z) (sb : nat) (w : W) :
  (sum_storage_bytes bmp280_iio_channels mask <= sb)%nat ->
  exists w' evs,
    bmp280_iio_trigger_handler cpu_big_endian (bmp280_indio_dev mask sb) w =
      Done IRQ_HANDLED w' /\
    trace w' = trace w ++ evs /\
    priv w' = priv w /\
    head evs = Some (Kzalloc sb) /\
    allocations evs = 1%nat /\
    (length (pushed_buffers evs) <= 1)%nat /\
    if kzalloc_ok w
    then exists pre,
           evs = pre ++ [Kfree; TriggerNotifyDone] /\ frees pre = 0%nat
    else frees evs = 0%nat /\ bus_accesses evs = [] /\ pushed_buffers evs = [].
Proof.
  intros Hroom. destruct (kzalloc_ok w) eqn:Hmem.
  - rewrite (handler_with_memory (bmp280_indio_dev mask sb) w Hmem).
    change (num_channels (bmp280_indio_dev mask sb)) with 16%nat.
    change (active_scan_mask (bmp280_indio_dev mask sb)) with mask.
    change (scan_bytes (bmp280_indio_dev mask sb)) with sb.
    unfold sum_storage_bytes in Hroom. rewrite active_channels_table in Hroom.
    destruct (scan_channels_frame mask sb (for_each_set_bit mask 16)
                (replicate sb x00) 0%nat (emit (Kzalloc sb) w)
                (for_each_set_bit_below mask 16)
                ltac:(rewrite length_replicate; lia))
      as (filled & w1 & Hscan & Hio).
    rewrite Hscan.
    destruct Hio as (Hpriv & _ & _ & evs & Hevs & Hsilent).
    destruct (io_only_silent evs Hsilent) as [Hpe _].
    destruct (io_only_no_memory evs Hsilent) as [Hae Hfe].
    cbn [trace emit priv] in Hevs, Hpriv.
    destruct filled as [data |].
    + cbv zeta. destruct (negb (push_status w1 =? 0)).
      * eexists.
        exists (([Kzalloc sb] ++ evs ++ [PushToBuffers data] ++
                 [PrErr "Failed to push data to IIO buffers."]) ++
                [Kfree; TriggerNotifyDone]).
        split; [reflexivity |].
        split; [cbn [trace emit]; rewrite Hevs, <- !app_assoc; reflexivity |].
        split; [exact Hpriv |]. split; [reflexivity |].
        split; [rewrite !allocations_app, Hae; reflexivity |].
        split; [rewrite !pushed_buffers_app, Hpe; cbn; lia |].
        eexists. split; [reflexivity |].
        rewrite !frees_app, Hfe. reflexivity.
      * eexists.
        exists (([Kzalloc sb] ++ evs ++ [PushToBuffers data]) ++
                [Kfree; TriggerNotifyDone]).
        split; [reflexivity |].
        split; [cbn [trace emit]; rewrite Hevs, <- !app_assoc; reflexivity |].
        split; [exact Hpriv |]. split; [reflexivity |].
        split; [rewrite !allocations_app, Hae; reflexivity |].
        split; [rewrite !pushed_buffers_app, Hpe; cbn; lia |].
        eexists. split; [reflexivity |].
        rewrite !frees_app, Hfe. reflexivity.
    + eexists.
      exists (([Kzalloc sb] ++ evs) ++ [Kfree; TriggerNotifyDone]).
      split; [reflexivity |].
      split; [cbn [trace emit]; rewrite Hevs, <- !app_assoc; reflexivity |].
      split; [exact Hpriv |]. split; [reflexivity |].
      split; [rewrite !allocations_app, Hae; reflexivity |].
      split; [rewrite !pushed_buffers_app, Hpe; cbn; lia |].
      eexists. split; [reflexivity |].
      rewrite !frees_app, Hfe. reflexivity.
  - destruct (handler_without_memory (bmp280_indio_dev mask sb) w Hmem)
      as [m Hh].
    rewrite Hh. eexists. exists [Kzalloc sb; PrErr m; TriggerNotifyDone].
    split; [reflexivity |].
    split; [cbn [trace emit]; rewrite <- !app_assoc; reflexivity |].
    repeat split; cbn; lia.
Qed.

(** X12. With no active channel (no bit of the scan mask below 16 set)
    and memory available, the handler touches neither the bus nor the
    calibration and pushes the buffer as allocated: [scan_bytes] zero
    bytes. *)
Theorem empty_scan_pushes_zeroes (mask : Z) (sb : nat) (w : W) :
  Z.land mask (Z.ones 16) = 0 ->
  kzalloc_ok w = true ->
  exists w' log,
    bmp280_iio_trigger_handler cpu_big_endian (bmp280_indio_dev mask sb) w =
      Done IRQ_HANDLED w' /\
    trace w' =
      trace w ++
      [Kzalloc sb; PushToBuffers (replicate sb x00)] ++ log ++
      [Kfree; TriggerNotifyDone] /\
    bus_accesses log = [] /\
    client_of w' = client_of w /\
    priv w' = priv w.
Proof.
  intros Hmask Hmem.
  rewrite (handler_with_memory (bmp280_indio_dev mask sb) w Hmem).
  change (num_channels (bmp280_indio_dev mask sb)) with 16%nat.
  change (active_scan_mask (bmp280_indio_dev mask sb)) with mask.
  change (scan_bytes (bmp280_indio_dev mask sb)) with sb.
  rewrite (for_each_set_bit_none mask 16 Hmask).
  cbn [scan_channels ret]. cbv zeta.
  destruct (negb (push_status (emit (Kzalloc sb) w) =? 0)).
  - eexists. exists [PrErr "Failed to push data to IIO buffers."].
    split; [reflexivity |].
    split; [cbn [trace emit]; rewrite <- !app_assoc; reflexivity |].
    repeat split.
  - eexists. exists []. split; [reflexivity |].
    split; [cbn [trace emit]; rewrite <- !app_assoc; reflexivity |].
    repeat split.
Qed.

(** X13. The handler does not compare what it stores with the size of
    the buffer: when every active channel resolves and [scan_bytes] is
    smaller than the sum of their storage widths, a cell is stored past
    the end of the allocation (the fault [OutOfBounds]) and nothing is
    pushed, freed or notified. *)
Theorem short_buffer_is_overrun
    (mask : Z) (sb : nat) (w w1 : W) (vals : list Z) :
  kzalloc_ok w = true ->
  read_channels (active_channels bmp280_iio_channels mask)
    (emit (Kzalloc sb) w) = Done (Ok vals) w1 ->
  (sb < sum_storage_bytes bmp280_iio_channels mask)%nat ->
  bmp280_iio_trigger_handler cpu_big_endian (bmp280_indio_dev mask sb) w =
  Crash OutOfBounds.
Proof.
  intros Hmem Hread Hshort.
  rewrite (handler_with_memory (bmp280_indio_dev mask sb) w Hmem).
  change (num_channels (bmp280_indio_dev mask sb)) with 16%nat.
  change (active_scan_mask (bmp280_indio_dev mask sb)) with mask.
  change (scan_bytes (bmp280_indio_dev mask sb)) with sb.
  unfold sum_storage_bytes in Hshort. rewrite active_channels_table in *.
  rewrite (scan_channels_overflow mask sb (for_each_set_bit mask 16)
             (replicate sb x00) 0%nat (emit (Kzalloc sb) w) w1 vals
             (for_each_set_bit_below mask 16) Hread ltac:(lia)
             ltac:(rewrite length_replicate; lia)).
  reflexivity.
Qed.

(** X14. A probe at an address other than the module parameter returns
    -1, and a probe whose device allocation fails returns -ENOMEM; in
    both cases the sensor is not accessed and the context is left as it
    was. *)
Theorem probe_refuses_without_bus_access
    (bmp280_i2c_address addr : Z) (env : iio_core_replies) (w : W) :
  (addr <> bmp280_i2c_address ->
   exists w',
     bmp280_iio_probe cpu_big_endian bmp280_i2c_address addr env w =
       Done (-1) w' /\
     priv w' = priv w /\ client_of w' = client_of w /\
     bus_accesses (trace w') = bus_accesses (trace w)) /\
  (addr = bmp280_i2c_address ->
   device_alloc_ok env = false ->
   bmp280_iio_probe cpu_big_endian bmp280_i2c_address addr env w =
     Done (- errno_code ENOMEM) w).
Proof.
  split.
  - intros Hne. apply Z.eqb_neq in Hne. unfold bmp280_iio_probe.
    rewrite Hne. cbn [negb]. eexists. split; [reflexivity |].
    repeat split. cbn [trace emit]. rewrite bus_accesses_app.
    cbn. rewrite app_nil_r. reflexivity.
  - intros -> Hmem. unfold bmp280_iio_probe, register_bmp280_iio_device.
    rewrite Z.eqb_refl, Hmem. reflexivity.
Qed.

(** X15. When the probe returns 0, the address matched, the device was
    allocated, and both kernel registrations returned 0; the sensor saw
    exactly the identity read, the two configuration writes and the two
    calibration block reads, in this order; and the context holds a
    loaded calibration: arrays of 4 and 10 cells, cell 0 zero, [dig_T1]
    and [dig_P1] unsigned 16-bit, the other constants signed 16-bit. *)
Theorem successful_probe_loads_calibration
    (bmp280_i2c_address addr : Z) (env : iio_core_replies) (w w' : W) :
  bmp280_iio_probe cpu_big_endian bmp280_i2c_address addr env w = Done 0 w' ->
  addr = bmp280_i2c_address /\
  device_alloc_ok env = true /\
  triggered_buffer_setup_status env = 0 /\
  device_register_status env = 0 /\
  bus_accesses (trace w') =
    bus_accesses (trace w) ++
    [BusReadByte 0xD0; BusWriteByte 0xf5 0xa0; BusWriteByte 0xf4 0xb7;
     BusReadBlock 0x88 6; BusReadBlock 0x8e 18] /\
  length (dig_T (priv w')) = 4%nat /\
  length (dig_P (priv w')) = 10%nat /\
  dig_T (priv w') !!! 0%nat = 0 /\
  dig_P (priv w') !!! 0%nat = 0 /\
  temperature_calibration_loaded (priv w') /\
  pressure_calibration_loaded (priv w').
Proof.
  unfold bmp280_iio_probe. intros H.
  destruct (Z.eqb_spec addr bmp280_i2c_address) as [Haddr | Hne];
    cbn [negb] in H; [| cbn in H; discriminate H].
  unfold bind in H.
  destruct (register_bmp280_iio_device cpu_big_endian env w)
    as [status w1 | f] eqn:Hreg; [| discriminate H].
  destruct (Z.eqb_spec status 0) as [-> | Hstatus]; cbn [negb] in H.
  2: { cbn in H. injection H as H _. contradiction. }
  cbn in H. injection H as <-.
  destruct (register_success_inv env w w1 Hreg) as (Halloc & Htb & Hdr & Hsetup).
  destruct (setup_success_inv _ _ Hsetup) as (wi & Hinit & Hcal).
  destruct (initialize_success_inv _ _ Hinit) as [Hpriv Hbus].
  destruct (calibration_loaded_after wi w1) as (H1 & H2 & H3 & H4 & H5 & H6 & H7);
    [rewrite Hpriv; reflexivity | rewrite Hpriv; reflexivity | exact Hcal |].
  assert (bus_accesses (trace w1) =
          bus_accesses (trace w) ++
          [BusReadByte 0xD0; BusWriteByte 0xf5 0xa0; BusWriteByte 0xf4 0xb7;
           BusReadBlock 0x88 6; BusReadBlock 0x8e 18]) as Hall.
  { rewrite H7, Hbus. cbn [trace set_priv]. rewrite <- app_assoc.
    reflexivity. }
  split; [exact Haddr |]. split; [exact Halloc |]. split; [exact Htb |].
  split; [exact Hdr |]. split; [exact Hall |]. split; [exact H1 |].
  split; [exact H2 |]. split; [exact H3 |]. split; [exact H4 |].
  split; [exact H5 | exact H6].
Qed.

(** X16. What the calibration load stores is what the calibration
    channels return: after a successful load, the direct read of
    calibration channel number k of the temperature (pressure) group
    returns the parsed value of the 16-bit word number k of the 6-byte
    (18-byte) block, without any bus access. *)
Theorem loaded_constants_read_back
    (w : W) (tb pb : list byte) (chan : iio_chan_spec) :
  let w1 := after_block_read w BMP280_TEMP_CALIBRATION_BASE_REG_ADDRESS 6 in
  let k := Z.to_nat (channel chan) in
  let v := load_u16 cpu_big_endian
             (match type chan with IIO_TEMP => tb | _ => pb end) k in
  length (dig_T (priv w)) = 4%nat ->
  length (dig_P (priv w)) = 10%nat ->
  block_reply_of w BMP280_TEMP_CALIBRATION_BASE_REG_ADDRESS 6 = BlockBytes tb ->
  length tb = 6%nat ->
  block_reply_of w1 BMP280_PRESS_CALIBRATION_BASE_REG_ADDRESS 18 = BlockBytes pb ->
  length pb = 18%nat ->
  In chan calibration_channels ->
  exists w',
    read_bmp280_calibration_values cpu_big_endian w = Done (Ok tt) w' /\
    bmp280_iio_read_from_channel chan w' =
      Done (Ok (IIO_VAL_INT
                  (if (k =? 0)%nat then v
                   else if v <=? 32767 then v else v - 65536))) w'.
Proof.
  intros w1 k v HT HP Et Ht Ep Hp Hin.
  eexists. split.
  { apply (read_bmp280_calibration_values_run w tb pb); assumption. }
  rewrite (resolve_calibration_channel chan _ Hin).
  do 2 f_equal. f_equal.
  pose proof (fun i => parsed_calibration_range i _
                         (load_u16_range pb (i - 1))) as RP.
  subst k v.
  cbv [calibration_channels channels_at omap list_omap] in Hin.
  simpl in Hin.
  repeat (destruct Hin as [<- | Hin];
          [first
             [ reflexivity
             | cbn [stored_constant type channel BMP280_CALIBR_CHANNNEL
                      priv set_priv dig_P];
               match goal with
               | |- to_s32 (_ !!! ?i) = ?rhs =>
                   let j := eval vm_compute in i in
                   change (to_s32 (parsed_calibration j
                                     (load_u16 cpu_big_endian pb (j - 1))) = rhs);
                   specialize (RP j); cbn [Nat.eqb] in RP;
                   rewrite to_s32_small by lia; reflexivity
               end ] |]).
  destruct Hin.
Qed.

(** X17. A trigger whose active channels all resolve costs exactly one
    block read per active raw or processed channel, in the order of the
    channels, and none for the calibration channels: 3 bytes at the
    channel's address for a raw channel, 3 bytes at 0xfa for the
    processed temperature, 6 bytes at 0xf7 for the processed pressure. *)
Theorem trigger_bus_traffic
    (mask : Z) (sb : nat) (w w1 : W) (vals : list Z) :
  let active := active_channels bmp280_iio_channels mask in
  kzalloc_ok w = true ->
  (sum_storage_bytes bmp280_iio_channels mask <= sb)%nat ->
  read_channels active (emit (Kzalloc sb) w) = Done (Ok vals) w1 ->
  exists w',
    bmp280_iio_trigger_handler cpu_big_endian (bmp280_indio_dev mask sb) w =
      Done IRQ_HANDLED w' /\
    bus_accesses (trace w') =
      bus_accesses (trace w) ++ flat_map expected_bus_access active.
Proof.
  intros active Hmem Hroom Hread. subst active.
  unfold sum_storage_bytes in Hroom. rewrite active_channels_table in *.
  pose proof (read_channels_bus _ _ _ _ (for_each_set_bit_below mask 16) Hread)
    as Hbus.
  rewrite (handler_with_memory (bmp280_indio_dev mask sb) w Hmem).
  change (num_channels (bmp280_indio_dev mask sb)) with 16%nat.
  change (active_scan_mask (bmp280_indio_dev mask sb)) with mask.
  change (scan_bytes (bmp280_indio_dev mask sb)) with sb.
  destruct (scan_channels_run mask sb (for_each_set_bit mask 16)
              (replicate sb x00) 0%nat (emit (Kzalloc sb) w)
              (for_each_set_bit_below mask 16)
              ltac:(rewrite length_replicate; lia))
    as (r & w2 & R & Hscan).
  rewrite Hread in R. injection R as <- <-. rewrite Hscan. cbv zeta.
  cbn [trace emit] in Hbus. rewrite bus_accesses_app in Hbus.
  cbn [bus_accesses List.filter is_bus_access] in Hbus.
  rewrite app_nil_r in Hbus.
  destruct (negb (push_status w1 =? 0)); eexists; (split; [reflexivity |]);
    cbn [trace emit]; rewrite !bus_accesses_app;
    cbn [bus_accesses List.filter is_bus_access]; rewrite !app_nil_r;
    exact Hbus.
Qed.


(** X19. When all active channels resolve but [iio_push_to_buffers]
    returns a non-zero status, the handler has handed the complete buffer
    over, logs one message, frees the buffer, notifies the trigger and
    returns [IRQ_HANDLED]: it neither retries nor skips the release. *)
Theorem failed_push_is_logged_and_released
    (mask : Z) (sb : nat) (w w1 : W) (vals : list Z) :
  let active := active_channels bmp280_iio_channels mask in
  let data :=
    concat (zip_with (sample_cell cpu_big_endian) active vals) ++
    replicate (sb - sum_storage_bytes bmp280_iio_channels mask) x00 in
  kzalloc_ok w = true ->
  push_status w <> 0 ->
  (sum_storage_bytes bmp280_iio_channels mask <= sb)%nat ->
  read_channels active (emit (Kzalloc sb) w) = Done (Ok vals) w1 ->
  exists w' msg,
    bmp280_iio_trigger_handler cpu_big_endian (bmp280_indio_dev mask sb) w =
      Done IRQ_HANDLED w' /\
    trace w' =
      trace w1 ++
      [PushToBuffers data; PrErr msg; Kfree; TriggerNotifyDone].
Proof.
  intros active data Hmem Hpush Hroom Hread. subst active data.
  unfold sum_storage_bytes in *. rewrite active_channels_table in *.
  rewrite (handler_with_memory (bmp280_indio_dev mask sb) w Hmem).
  change (num_channels (bmp280_indio_dev mask sb)) with 16%nat.
  change (active_scan_mask (bmp280_indio_dev mask sb)) with mask.
  change (scan_bytes (bmp280_indio_dev mask sb)) with sb.
  destruct (scan_channels_run mask sb (for_each_set_bit mask 16)
              (replicate sb x00) 0%nat (emit (Kzalloc sb) w)
              (for_each_set_bit_below mask 16)
              ltac:(rewrite length_replicate; lia))
    as (r & w2 & R & Hscan).
  destruct (read_channels_io (channels_at (for_each_set_bit mask 16))
              (emit (Kzalloc sb) w)) as (r' & w2' & R' & Hio & _).
  rewrite R in R'. injection R' as <- <-.
  rewrite Hread in R. injection R as <- <-. rewrite Hscan. cbv zeta.
  destruct Hio as (_ & _ & Hps & _). cbn [push_status emit] in Hps.
  apply Z.eqb_neq in Hpush. rewrite Hps, Hpush. cbn [negb].
  rewrite take_0, Nat.add_0_l, drop_replicate. cbn [app].
  do 2 eexists. split; [reflexivity |].
  cbn [trace emit]. rewrite <- !app_assoc. reflexivity.
Qed.

End Properties.

Lemma processed_temperature_when_products_fit_witness :
  let w := scripted_world [ReplyBlock (BlockBytes [x7e; xed; x00])]
             datasheet_T datasheet_P in
  fits_s32 (compute_bmp280_t_fine 519888 datasheet_T) /\
  compute_bmp280_t_fine 519888 datasheet_T =
    rawTemperatureTripleToFine 519888 (priv w) /\
  read_bmp280_processed_temperature w =
    Done (Ok (processedTemperature 519888 (priv w)))
         (after_block_read w BMP280_TEMP_RAW_REG_ADDRESS 3).
Proof.
  intros w.
  apply (processed_temperature_when_products_fit w x7e xed x00).
  - reflexivity.
  - vm_compute. intuition congruence.
  - vm_compute. intuition congruence.
Defined.

(** C1 as stated fails: with the loadable calibration
    [dig_T1 = 65535], [dig_T2 = 32767], [dig_T3 = 0] and an all-zero
    triple, the first product leaves the 32-bit range; the driver returns
    2, the [s64] formula gives -40958. *)
Lemma processed_temperature_s64_counterexample :
  let w := scripted_world [ReplyBlock (BlockBytes [x00; x00; x00])]
             [0; 65535; 32767; 0] datasheet_P in
  let raw20 := Z.shiftr (register_triple x00 x00 x00) 4 in
  temperature_calibration_loaded (priv w) /\
  read_bmp280_processed_temperature w =
    Done (Ok 2) (after_block_read w BMP280_TEMP_RAW_REG_ADDRESS 3) /\
  processedTemperature raw20 (priv w) = -40958 /\
  read_bmp280_processed_temperature w <>
    Done (Ok (processedTemperature raw20 (priv w)))
         (after_block_read w BMP280_TEMP_RAW_REG_ADDRESS 3) /\
  compute_bmp280_t_fine raw20 (dig_T (priv w)) = 95 /\
  rawTemperatureTripleToFine raw20 (priv w) = -2097057.
Proof.
  intros w raw20. split; [vm_compute; intuition congruence |].
  repeat split; try (vm_compute; reflexivity).
  vm_compute. intros H. discriminate H.
Qed.


Lemma calibration_values_parsed_witness :
  let w := scripted_world
             [ReplyBlock (BlockBytes [x70; x6b; x43; x67; x18; xfc]);
              ReplyBlock (BlockBytes [x7d; x8e; x43; xd6; xd0; x0b; x27; x0b;
                                      x8c; x00; xf9; xff; x8c; x3c; xf8; xc6;
                                      x70; x17])]
             [0; 0; 0; 0] [0; 0; 0; 0; 0; 0; 0; 0; 0; 0] in
  exists w',
    read_bmp280_calibration_values false w = Done (Ok tt) w' /\
    dig_T (priv w') !! 1%nat = Some 27504 /\
    dig_T (priv w') !! 3%nat = Some (-1000) /\
    dig_P (priv w') !! 1%nat = Some 36477 /\
    dig_P (priv w') !! 2%nat = Some (-10685).
Proof.
  intros w.
  destruct (calibration_values_parsed (Bus := scripted_bus) false w
              [x70; x6b; x43; x67; x18; xfc]
              [x7d; x8e; x43; xd6; xd0; x0b; x27; x0b;
               x8c; x00; xf9; xff; x8c; x3c; xf8; xc6; x70; x17]
              eq_refl eq_refl eq_refl eq_refl eq_refl eq_refl)
    as (w' & Hrun & HT & HP).
  exists w'. split; [exact Hrun |].
  split; [exact (proj2 (HT 1%nat _ ltac:(lia) eq_refl)) |].
  split; [exact (proj2 (HT 3%nat _ ltac:(lia) eq_refl)) |].
  split; [exact (proj2 (HP 1%nat _ ltac:(lia) eq_refl)) |].
  exact (proj2 (HP 2%nat _ ltac:(lia) eq_refl)).
Defined.

Lemma sample_buffer_layout_witness :
  let w := scripted_world
             [ReplyBlock (BlockBytes [x7e; xed; x00]);
              ReplyBlock (BlockBytes [x7e; xed; x00])]
             datasheet_T datasheet_P in
  exists w',
    bmp280_iio_trigger_handler false (bmp280_indio_dev 26 10) w =
      Done IRQ_HANDLED w' /\
    pushed_buffers (trace w') =
      [[x43; x67; x00; xed; x7e; x00; xcc; x09; x00; x00]].
Proof.
  intros w.
  destruct (sample_buffer_layout (Bus := scripted_bus) false 26 10 w
              (emit (BusReadBlock BMP280_TEMP_RAW_REG_ADDRESS 3)
                 (emit (BusReadBlock BMP280_TEMP_RAW_REG_ADDRESS 3)
                    (set_client [] (emit (Kzalloc 10) w))))
              [26435; 0x7eed00; 2508]
              eq_refl ltac:(vm_compute; lia) eq_refl)
    as (w' & Hrun & Hpush & _).
  exists w'. split; [exact Hrun | exact Hpush].
Defined.

Lemma raw_channel_one_block_read_unshifted_witness :
  exists v w',
    bmp280_iio_read_from_channel
      (bmp280_raw_channel IIO_TEMP 3 3 BMP280_TEMP_RAW_REG_ADDRESS)
      (scripted_world [ReplyBlock (BlockBytes [x7e; xed; x0f])]
         datasheet_T datasheet_P) = Done (Ok (IIO_VAL_INT v)) w' /\
    bus_accesses (trace w') = [BusReadBlock BMP280_TEMP_RAW_REG_ADDRESS 3] /\
    v = 0x7eed0f /\
    Z.land v 15 = 15.
Proof.
  apply (raw_channel_one_block_read_unshifted
           (bmp280_raw_channel IIO_TEMP 3 3 BMP280_TEMP_RAW_REG_ADDRESS)
           (scripted_world [ReplyBlock (BlockBytes [x7e; xed; x0f])]
              datasheet_T datasheet_P) x7e xed x0f).
  - left. reflexivity.
  - reflexivity.
Defined.

Lemma calibration_channel_no_bus_access_witness :
  let chan := BMP280_CALIBR_CHANNNEL IIO_TEMP 1 1 "s"
                (BMP280_TEMP_CALIBRATION_BASE_REG_ADDRESS + 2) in
  let raw := bmp280_raw_channel IIO_TEMP 3 3 BMP280_TEMP_RAW_REG_ADDRESS in
  let w := scripted_world [ReplyBlock (BlockBytes [x7e; xed; x00])]
             datasheet_T datasheet_P in
  bmp280_iio_read_from_channel chan w = Done (Ok (IIO_VAL_INT 26435)) w /\
  exists r w1,
    bmp280_iio_read_from_channel raw w = Done r w1 /\
    bmp280_iio_read_from_channel chan w1 = Done (Ok (IIO_VAL_INT 26435)) w1.
Proof.
  intros chan raw w.
  apply (calibration_channel_no_bus_access chan raw w).
  - right. left. reflexivity.
  - left. reflexivity.
Defined.

Lemma bus_failures_reported_witness :
  let w := scripted_world [ReplyBlock (BlockErrno 110)]
             datasheet_T datasheet_P in
  let w0 := scripted_world
              [ReplyStatus 0x58; ReplyStatus 0; ReplyStatus 0;
               ReplyBlock (BlockBytes [x70; x6b; x43; x67; x18; xfc]);
               ReplyBlock (BlockErrno 110)]
              datasheet_T datasheet_P in
  (exists w', read_bmp280_raw_temperature w = Done (Err EIO) w') /\
  (exists w', read_bmp280_processed_temperature w = Done (Err EIO) w') /\
  (exists w', read_bmp280_raw_pressure w = Done (Err EIO) w') /\
  (exists w', read_bmp280_processed_pressure w = Done (Err EIO) w') /\
  (exists w', read_bmp280_calibration_values false w = Done (Err EIO) w') /\
  (exists w', initialize_bmp280 w = Done (Err ENODEV) w') /\
  (exists w', setup_bmp280 false w = Done (Err ENODEV) w') /\
  (exists w', setup_bmp280 false w0 = Done (Err EIO) w').
Proof.
  intros w w0.
  destruct (bus_failures_reported (Bus := scripted_bus) false w)
    as (HT & HP & HPP & HC & _ & HI & HS & _).
  destruct (bus_failures_reported (Bus := scripted_bus) false w0)
    as (_ & _ & _ & _ & _ & _ & _ & HS0).
  destruct (HT ltac:(vm_compute; congruence)) as [HT1 HT2].
  destruct (HI ltac:(vm_compute; congruence)) as [wi Hi].
  repeat apply conj.
  - exact HT1.
  - exact HT2.
  - apply HP. vm_compute. congruence.
  - apply HPP. vm_compute. congruence.
  - apply HC. vm_compute. congruence.
  - exists wi. exact Hi.
  - exists wi. apply HS. exact Hi.
  - lazymatch eval vm_compute in (initialize_bmp280 w0) with
    | Done _ ?w1 =>
        lazymatch eval vm_compute in
                  (read_bmp280_calibration_values false w1) with
        | Done _ ?w2 =>
            exists w2; apply (HS0 w1 EIO w2); vm_compute; reflexivity
        end
    end.
Defined.

(** C6 as stated fails. A block read that the bus refuses with -110
    (ETIMEDOUT) makes the raw temperature read return -5 (EIO): the error
    does not reach the caller unchanged. And initialization returns 0
    although both configuration writes were refused with -5. *)
Lemma bus_error_not_propagated_counterexample :
  let w := scripted_world [ReplyBlock (BlockErrno 110)]
             datasheet_T datasheet_P in
  let w0 := scripted_world
              [ReplyStatus 0x58; ReplyStatus (-5); ReplyStatus (-5)]
              datasheet_T datasheet_P in
  block_status (block_reply_of w BMP280_TEMP_RAW_REG_ADDRESS 3) = -110 /\
  (exists r w',
     read_bmp280_raw_temperature w = Done r w' /\
     status_of r = -5 /\
     status_of r <>
       block_status (block_reply_of w BMP280_TEMP_RAW_REG_ADDRESS 3)) /\
  (exists r w',
     initialize_bmp280 w0 = Done r w' /\
     status_of r = 0 /\
     bus_accesses (trace w') =
       [BusReadByte BMP280_ID_REG;
        BusWriteByte BMP280_CONFIG_REG_ADDRESS 0xa0;
        BusWriteByte BMP280_CTRL_MEAS_REG_ADDRESS 0xb7]).
Proof.
  intros w w0. split; [reflexivity |]. split.
  - do 2 eexists. split; [reflexivity |]. split; [reflexivity |].
    vm_compute. congruence.
  - lazymatch eval vm_compute in (initialize_bmp280 w0) with
    | Done ?r ?w' =>
        exists r, w'; repeat split; vm_compute; reflexivity
    end.
Qed.

Lemma trigger_always_acknowledged_witness :
  let w := scripted_world [ReplyBlock (BlockErrno 5)]
             datasheet_T datasheet_P in
  exists w' evs,
    bmp280_iio_trigger_handler false (bmp280_indio_dev 8 4) w =
      Done IRQ_HANDLED w' /\
    trace w' = trace w ++ evs /\
    notifications evs = 1%nat /\
    last evs = Some TriggerNotifyDone /\
    pushed_buffers evs = [] /\ logged_errors evs <> [].
Proof.
  intros w.
  destruct (trigger_always_acknowledged (Bus := scripted_bus) false 8 4 w
              ltac:(vm_compute; lia))
    as (w' & evs & Hrun & Htrace & Hn & Hlast & _ & Hfail).
  exists w', evs. repeat split; try assumption;
    eapply (Hfail EIO); reflexivity.
Defined.

(** C7 as stated fails in one respect: a failure is not reported to the
    caller of the handler. On a trigger whose only active channel fails
    to resolve, nothing is pushed, and the handler returns the very value
    it returns on a trigger that succeeds. *)
Lemma failure_not_reported_counterexample :
  let failing := scripted_world [ReplyBlock (BlockErrno 5)]
                   datasheet_T datasheet_P in
  let working := scripted_world [ReplyBlock (BlockBytes [x7e; xed; x00])]
                   datasheet_T datasheet_P in
  let dev := bmp280_indio_dev 8 4 in
  exists w1 w2 w3,
    read_channels (active_channels bmp280_iio_channels 8)
      (emit (Kzalloc 4) failing) = Done (Err EIO) w1 /\
    bmp280_iio_trigger_handler false dev failing = Done IRQ_HANDLED w2 /\
    pushed_buffers (trace w2) = [] /\
    bmp280_iio_trigger_handler false dev working = Done IRQ_HANDLED w3 /\
    pushed_buffers (trace w3) = [[x00; xed; x7e; x00]].
Proof.
  intros failing working dev. do 3 eexists.
  repeat split; reflexivity.
Qed.

Lemma processed_temperature_sample_matches_direct_read_witness :
  let w := scripted_world [ReplyBlock (BlockBytes [x7e; xed; x00])]
             datasheet_T datasheet_P in
  exists temp data w',
    IIO_VAL_FRACTIONAL 2508 100 = IIO_VAL_FRACTIONAL temp 100 /\
    bmp280_iio_trigger_handler false
      (bmp280_indio_dev (BIT 4)
         (sum_storage_bytes bmp280_iio_channels (BIT 4))) w =
      Done IRQ_HANDLED w' /\
    pushed_buffers (trace w') = pushed_buffers (trace w) ++ [data] /\
    length data = 4%nat /\
    to_s32 (cpu_value false data) = temp.
Proof.
  intros w.
  exact (proj2 (processed_temperature_sample_matches_direct_read
                  (Bus := scripted_bus) false w
                  (after_block_read w BMP280_TEMP_RAW_REG_ADDRESS 3)
                  (BIT IIO_CHAN_INFO_PROCESSED)
                  (IIO_VAL_FRACTIONAL 2508 100) eq_refl eq_refl)).
Defined.


Lemma raw_reads_within_24_bits_witness :
  let w := scripted_world [ReplyBlock (BlockBytes [x7e; xed; x00])]
             datasheet_T datasheet_P in
  (exists v w', read_bmp280_raw_temperature w = Done (Ok v) w' /\ 0 <= v < 2 ^ 24) /\
  (exists v w', read_bmp280_raw_pressure w = Done (Ok v) w' /\ 0 <= v < 2 ^ 24).
Proof.
  intros w.
  destruct (raw_reads_within_24_bits w x7e xed x00) as [HT HP].
  split; [apply HT | apply HP]; reflexivity.
Defined.

Lemma initialize_writes_configuration_witness :
  exists w',
    initialize_bmp280
      (scripted_world [ReplyStatus (-168); ReplyStatus (-5); ReplyStatus (-5)]
         datasheet_T datasheet_P) = Done (Ok tt) w'.
Proof.
  destruct (initialize_writes_configuration (Bus := scripted_bus)
              (scripted_world
                 [ReplyStatus (-168); ReplyStatus (-5); ReplyStatus (-5)]
                 datasheet_T datasheet_P) eq_refl)
    as (w' & _ & _ & R & _).
  exists w'. exact R.
Defined.

Lemma setup_stops_on_unexpected_id_witness :
  exists w',
    setup_bmp280 false
      (scripted_world [ReplyStatus 0x60] datasheet_T datasheet_P) =
    Done (Err ENODEV) w' /\
    bus_accesses (trace w') = [BusReadByte BMP280_ID_REG].
Proof.
  destruct (setup_stops_on_unexpected_id (Bus := scripted_bus) false
              (scripted_world [ReplyStatus 0x60] datasheet_T datasheet_P)
              ltac:(vm_compute; congruence))
    as (w' & _ & R & _ & Hbus).
  exists w'. split; [exact R | exact Hbus].
Defined.

Lemma failed_calibration_load_keeps_context_witness :
  let w := scripted_world [ReplyBlock (BlockBytes [x70; x6b; x43])]
             datasheet_T datasheet_P in
  let w0 := scripted_world
              [ReplyBlock (BlockBytes [x70; x6b; x43; x67; x18; xfc]);
               ReplyBlock (BlockErrno 110)] datasheet_T datasheet_P in
  (exists w', read_bmp280_calibration_values false w = Done (Err EIO) w' /\
              priv w' = priv w) /\
  (exists w', read_bmp280_calibration_values false w0 = Done (Err EIO) w' /\
              priv w' = priv w0).
Proof.
  intros w w0.
  destruct (failed_calibration_load_keeps_context (Bus := scripted_bus) false w)
    as [H1 _].
  destruct (failed_calibration_load_keeps_context (Bus := scripted_bus) false w0)
    as [_ H2].
  split.
  - destruct (H1 ltac:(vm_compute; congruence)) as (w' & R & Hp & _).
    exists w'. split; assumption.
  - destruct (H2 ltac:(vm_compute; reflexivity) ltac:(vm_compute; congruence))
      as (w' & R & Hp & _).
    exists w'. split; assumption.
Defined.

Lemma loaded_calibration_in_range_witness :
  let w := scripted_world
             [ReplyBlock (BlockBytes [x70; x6b; x43; x67; x18; xfc]);
              ReplyBlock (BlockBytes [x7d; x8e; x43; xd6; xd0; x0b; x27; x0b;
                                      x8c; x00; xf9; xff; x8c; x3c; xf8; xc6;
                                      x70; x17])]
             [7; 7; 7; 7] [7; 7; 7; 7; 7; 7; 7; 7; 7; 7] in
  exists w',
    read_bmp280_calibration_values false w = Done (Ok tt) w' /\
    dig_T (priv w') !!! 0%nat = 0 /\
    0 <= dig_T (priv w') !!! 1%nat <= 65535.
Proof.
  intros w.
  lazymatch eval vm_compute in (read_bmp280_calibration_values false w) with
  | Done _ ?w' =>
      exists w';
      assert (read_bmp280_calibration_values false w = Done (Ok tt) w') as R
        by (vm_compute; reflexivity);
      destruct (loaded_calibration_in_range (Bus := scripted_bus) false w w'
                  eq_refl eq_refl R)
        as (_ & _ & H0 & _ & H1 & _);
      split; [exact R | split; [exact H0 | exact H1]]
  end.
Defined.


Lemma padding_bits_do_not_matter_witness :
  let w := scripted_world
             [ReplyBlock (BlockBytes [x65; x5a; xc0; x7e; xed; x00])]
             datasheet_T datasheet_P in
  let w' := scripted_world
              [ReplyBlock (BlockBytes [x65; x5a; xcf; x7e; xed; x0f])]
              datasheet_T datasheet_P in
  exists press w1 w1',
    read_bmp280_processed_pressure w = Done (Ok press) w1 /\
    read_bmp280_processed_pressure w' = Done (Ok press) w1'.
Proof.
  intros w w'.
  apply (proj2 (padding_bits_do_not_matter (Bus := scripted_bus) w w'
                  x65 x5a xc0 xcf x7e xed x00 x0f eq_refl eq_refl eq_refl));
    reflexivity.
Defined.

Lemma zero_dig_P1_gives_zero_pressure_witness :
  let w := scripted_world
             [ReplyBlock (BlockBytes [x65; x5a; xc0; x7e; xed; x00])]
             (replicate 4 0) (replicate 10 0) in
  read_bmp280_processed_pressure w = Done (Ok 0) (after_block_read w 0xf7 6).
Proof.
  intros w.
  apply (zero_dig_P1_gives_zero_pressure (Bus := scripted_bus) w
           x65 x5a xc0 x7e xed x00); reflexivity.
Defined.

Lemma table_channels_resolve_witness :
  exists r w',
    bmp280_iio_read_from_channel
      (bmp280_processed_channel IIO_PRESSURE 15 "u")
      (scripted_world
         [ReplyBlock (BlockBytes [x65; x5a; xc0; x7e; xed; x00])]
         datasheet_T datasheet_P) = Done r w' /\
    match r with
    | Ok (IIO_VAL_FRACTIONAL _ val2) => val2 = 256
    | _ => True
    end.
Proof.
  destruct (table_channels_resolve (Bus := scripted_bus) 15
              (bmp280_processed_channel IIO_PRESSURE 15 "u")
              (scripted_world
                 [ReplyBlock (BlockBytes [x65; x5a; xc0; x7e; xed; x00])]
                 datasheet_T datasheet_P) eq_refl)
    as (r & w' & R & H).
  exists r, w'. split; [exact R |].
  destruct r as [[v | v v2] | e]; try exact I. apply H.
Defined.

Lemma single_channel_sample_is_direct_value_witness :
  let chan := bmp280_processed_channel IIO_PRESSURE 15 "u" in
  let w := scripted_world
             [ReplyBlock (BlockBytes [x65; x5a; xc0; x7e; xed; x00])]
             datasheet_T datasheet_P in
  exists data w',
    bmp280_iio_trigger_handler false (bmp280_indio_dev (BIT 15) 4) w =
      Done IRQ_HANDLED w' /\
    pushed_buffers (trace w') = [data] /\
    cpu_value false data = 25767233 mod 2 ^ 32.
Proof.
  intros chan w.
  destruct (single_channel_sample_is_direct_value (Bus := scripted_bus) false
              15 chan w (@after_block_read _ scripted_bus w 0xf7 6)
              (BIT IIO_CHAN_INFO_PROCESSED)
              (IIO_VAL_FRACTIONAL 25767233 256) eq_refl eq_refl
              ltac:(vm_compute; reflexivity))
    as (data & w' & Hh & Hp & _ & _ & Hv).
  exists data, w'. split; [exact Hh |]. split; [exact Hp | exact Hv].
Defined.

Lemma handler_releases_its_buffer_witness :
  let w := scripted_world [ReplyBlock (BlockBytes [x7e; xed; x00])]
             datasheet_T datasheet_P in
  exists w' evs,
    bmp280_iio_trigger_handler false (bmp280_indio_dev 8 4) w =
      Done IRQ_HANDLED w' /\
    trace w' = trace w ++ evs /\
    allocations evs = 1%nat /\
    exists pre, evs = pre ++ [Kfree; TriggerNotifyDone] /\ frees pre = 0%nat.
Proof.
  intros w.
  destruct (handler_releases_its_buffer (Bus := scripted_bus) false 8 4 w
              ltac:(vm_compute; lia))
    as (w' & evs & Hh & Ht & _ & _ & Ha & _ & Hf).
  exists w', evs. repeat split; try assumption.
Defined.

Lemma empty_scan_pushes_zeroes_witness :
  let w := scripted_world [] datasheet_T datasheet_P in
  exists w' log,
    bmp280_iio_trigger_handler false (bmp280_indio_dev 0 8) w =
      Done IRQ_HANDLED w' /\
    trace w' =
      [Kzalloc 8; PushToBuffers (replicate 8 x00)] ++ log ++
      [Kfree; TriggerNotifyDone].
Proof.
  intros w.
  destruct (empty_scan_pushes_zeroes (Bus := scripted_bus) false 0 8 w
              eq_refl eq_refl) as (w' & log & Hh & Ht & _).
  exists w', log. split; [exact Hh | exact Ht].
Defined.

Lemma short_buffer_is_overrun_witness :
  let w := scripted_world [ReplyBlock (BlockBytes [x7e; xed; x00])]
             datasheet_T datasheet_P in
  bmp280_iio_trigger_handler false (bmp280_indio_dev 10 4) w =
  Crash OutOfBounds.
Proof.
  intros w.
  apply (short_buffer_is_overrun (Bus := scripted_bus) false 10 4 w
           (@after_block_read _ scripted_bus (emit (Kzalloc 4) w) 0xfa 3) [26435; 0x7eed00]).
  - reflexivity.
  - vm_compute. reflexivity.
  - vm_compute. lia.
Defined.

Lemma probe_refuses_without_bus_access_witness :
  let env := {| device_alloc_ok := false;
                triggered_buffer_setup_status := 0;
                device_register_status := 0 |} in
  let w := scripted_world [ReplyStatus 0x58] datasheet_T datasheet_P in
  (exists w', bmp280_iio_probe false 0x76 0x77 env w = Done (-1) w' /\
              bus_accesses (trace w') = bus_accesses (trace w)) /\
  bmp280_iio_probe false 0x76 0x76 env w = Done (-12) w.
Proof.
  intros env w.
  destruct (probe_refuses_without_bus_access (Bus := scripted_bus) false
              0x76 0x77 env w) as [H1 _].
  destruct (probe_refuses_without_bus_access (Bus := scripted_bus) false
              0x76 0x76 env w) as [_ H2].
  split.
  - destruct (H1 ltac:(lia)) as (w' & R & _ & _ & Hbus).
    exists w'. split; assumption.
  - apply H2; reflexivity.
Defined.

Lemma successful_probe_loads_calibration_witness :
  let env := {| device_alloc_ok := true;
                triggered_buffer_setup_status := 0;
                device_register_status := 0 |} in
  let w := scripted_world
             [ReplyStatus 0x58; ReplyStatus 0; ReplyStatus 0;
              ReplyBlock (BlockBytes [x70; x6b; x43; x67; x18; xfc]);
              ReplyBlock (BlockBytes [x7d; x8e; x43; xd6; xd0; x0b; x27; x0b;
                                      x8c; x00; xf9; xff; x8c; x3c; xf8; xc6;
                                      x70; x17])] [] [] in
  exists w',
    bmp280_iio_probe false 0x76 0x76 env w = Done 0 w' /\
    temperature_calibration_loaded (priv w') /\
    dig_T (priv w') = datasheet_T /\
    dig_P (priv w') = datasheet_P.
Proof.
  intros env w.
  lazymatch eval vm_compute in (bmp280_iio_probe false 0x76 0x76 env w) with
  | Done _ ?w' =>
      exists w';
      assert (bmp280_iio_probe false 0x76 0x76 env w = Done 0 w') as R
        by (vm_compute; reflexivity);
      destruct (successful_probe_loads_calibration (Bus := scripted_bus)
                  false 0x76 0x76 env w w' R)
        as (_ & _ & _ & _ & _ & _ & _ & _ & _ & HT & _);
      split; [exact R | split; [exact HT | split; reflexivity]]
  end.
Defined.

Lemma loaded_constants_read_back_witness :
  let w := scripted_world
             [ReplyBlock (BlockBytes [x70; x6b; x43; x67; x18; xfc]);
              ReplyBlock (BlockBytes [x7d; x8e; x43; xd6; xd0; x0b; x27; x0b;
                                      x8c; x00; xf9; xff; x8c; x3c; xf8; xc6;
                                      x70; x17])]
             [0; 0; 0; 0] [0; 0; 0; 0; 0; 0; 0; 0; 0; 0] in
  exists w',
    read_bmp280_calibration_values false w = Done (Ok tt) w' /\
    bmp280_iio_read_from_channel
      (BMP280_CALIBR_CHANNNEL IIO_PRESSURE 1 6 "s"
         (BMP280_PRESS_CALIBRATION_BASE_REG_ADDRESS + 2)) w' =
      Done (Ok (IIO_VAL_INT (-10685))) w'.
Proof.
  intros w.
  exact (loaded_constants_read_back (Bus := scripted_bus) false w
           [x70; x6b; x43; x67; x18; xfc]
           [x7d; x8e; x43; xd6; xd0; x0b; x27; x0b;
            x8c; x00; xf9; xff; x8c; x3c; xf8; xc6; x70; x17]
           (BMP280_CALIBR_CHANNNEL IIO_PRESSURE 1 6 "s"
              (BMP280_PRESS_CALIBRATION_BASE_REG_ADDRESS + 2))
           eq_refl eq_refl eq_refl eq_refl eq_refl eq_refl
           ltac:(cbv [calibration_channels channels_at omap list_omap];
                 simpl; tauto)).
Defined.

Lemma trigger_bus_traffic_witness :
  let w := scripted_world
             [ReplyBlock (BlockBytes [x7e; xed; x00]);
              ReplyBlock (BlockBytes [x7e; xed; x00])]
             datasheet_T datasheet_P in
  exists w',
    bmp280_iio_trigger_handler false (bmp280_indio_dev 26 10) w =
      Done IRQ_HANDLED w' /\
    bus_accesses (trace w') = [BusReadBlock 0xfa 3; BusReadBlock 0xfa 3].
Proof.
  intros w.
  exact (trigger_bus_traffic (Bus := scripted_bus) false 26 10 w
           (emit (BusReadBlock BMP280_TEMP_RAW_REG_ADDRESS 3)
              (emit (BusReadBlock BMP280_TEMP_RAW_REG_ADDRESS 3)
                 (set_client [] (emit (Kzalloc 10) w))))
           [26435; 0x7eed00; 2508]
           eq_refl ltac:(vm_compute; lia) eq_refl).
Defined.


Lemma failed_push_is_logged_and_released_witness :
  let w := {| client_of := [ReplyBlock (BlockBytes [x7e; xed; x00])];
              priv := {| dig_T := datasheet_T; dig_P := datasheet_P |};
              trace := []; kzalloc_ok := true; push_status := -16 |} in
  exists w' msg,
    bmp280_iio_trigger_handler false (bmp280_indio_dev 8 4) w =
      Done IRQ_HANDLED w' /\
    trace w' =
      [Kzalloc 4; BusReadBlock 0xfa 3;
       PushToBuffers [x00; xed; x7e; x00];
       PrErr msg; Kfree; TriggerNotifyDone].
Proof.
  intros w.
  exact (failed_push_is_logged_and_released (Bus := scripted_bus) false 8 4 w
           (@after_block_read _ scripted_bus (emit (Kzalloc 4) w) 0xfa 3)
           [0x7eed00] eq_refl ltac:(cbn; lia) ltac:(vm_compute; lia) eq_refl).
Defined.
